(** * Register-level model of the M55M1 EADC and USCI-SPI drivers

    The development embeds the routines of [eadc.c] and [usci_spi.c] as
    functions on an explicit machine state.  Registers are 32-bit words kept
    as [Z]; the wrap-around of [uint32_t] arithmetic is written out with
    [u32].  Every bus access that matters to an observer (a store to a
    register, a read made by a polling loop) is appended to a trace. *)

From Stdlib Require Import ZArith List Lia Bool.
From Equations Require Import Equations.
Import ListNotations.
Local Open Scope Z_scope.

(** ** 32-bit words *)

Definition u32 (z : Z) : Z := z mod 2 ^ 32.

(** C's [~x] on a [uint32_t]. *)
Definition not32 (z : Z) : Z := u32 (Z.lnot z).

(** C's [x << n] on a [uint32_t]. *)
Definition shl32 (z n : Z) : Z := u32 (Z.shiftl z n).

(** ** The EADC driver, [eadc.c] *)

Module EADC.

(** The macros of [clk_reg.h], [clk.h], [eadc_reg.h] and [eadc.h] that the
    routines use.  The routines take the values as a parameter, so every result below
    holds for whatever the headers define. *)
Record header := mkHeader {
  CLK_EADCSEL_EADC0SEL_Msk : Z;
  CLK_EADCSEL_EADC0SEL_PCLK0 : Z;
  CLK_EADCDIV_EADC0DIV_Msk : Z;
  EADC_CTL_ADCEN_Msk : Z;
  EADC_CTL_ADCRST_Msk : Z;
  EADC_CALSR_CALIF_Msk : Z;
  EADC_CALCTL_CAL_Msk : Z;
  EADC_TIMEOUT_ERR : Z;
  EADC_SCTL_EXTFEN_Msk : Z;
  EADC_SCTL_EXTREN_Msk : Z;
  EADC_SCTL_TRGSEL_Msk : Z;
  EADC_SCTL_CHSEL_Msk : Z;
  EADC_SCTL_TRGDLDIV_Msk : Z;
  EADC_SCTL_TRGDLCNT_Msk : Z;
  EADC_SCTL_TRGDLCNT_Pos : Z;
  EADC_SCTL_EXTSMPT_Msk : Z;
  EADC_SCTL_EXTSMPT_Pos : Z;
  EADC_CTL_DIFFEN_Msk : Z;
  BIT8 : Z
}.

(** The part of the clock controller block the driver touches. *)
Record CLK_T := mkCLK {
  EADCSEL : Z;
  EADCDIV : Z
}.

(** The part of the converter's register block the driver touches.  The two
    sample-module arrays are addressed by word index counted from the array
    base: [SCTL] is declared with 19 words (modules 0..18) and [SCTL19]
    with 9 words (modules 19..27).  Every index has a cell of its own here,
    which is what the device has for the indices inside the declared sizes,
    that is for module numbers 0 to 27.  Past the declared size the device
    has no such cell: the access lands on whatever lies at that distance
    from the array base in the 32-bit address space, which may be another
    word of the same array, another register, the clock controller or the
    error code.  For such an index only the accesses a routine issues (the
    array and the index it addresses, as recorded in the trace) are taken
    from this record, never the state the access leaves behind.
    [WORD_FF0] is the unnamed word at byte offset 0xFF0 that [EADC_Open]
    accesses through [inpw] and [outpw]. *)
Record EADC_T := mkEADC {
  CTL : Z;
  CALSR : Z;
  CALCTL : Z;
  SCTL : Z -> Z;
  SCTL19 : Z -> Z;
  WORD_FF0 : Z
}.

Definition SCTL_size : Z := 19.
Definition SCTL19_size : Z := 9.

Inductive reg :=
| CLK_EADCSEL
| CLK_EADCDIV
| EADC_CTL
| EADC_CALSR
| EADC_CALCTL
| EADC_SCTL (i : Z)
| EADC_SCTL19 (i : Z)
| EADC_WORD_FF0.

(** Bus traffic: a store of [v] to a register, or a read made by a polling
    loop that returned [v]. *)
Inductive event :=
| Store (r : reg) (v : Z)
| Poll (r : reg) (v : Z).

Record machine := mkMachine {
  SystemCoreClock : Z;
  g_EADC_i32ErrCode : Z;
  CLK : CLK_T;
  eadc : EADC_T;
  trace : list event
}.

Definition upd (a : Z -> Z) (i v : Z) : Z -> Z :=
  fun j => if j =? i then v else a j.

Definition load (r : reg) (m : machine) : Z :=
  match r with
  | CLK_EADCSEL => EADCSEL (CLK m)
  | CLK_EADCDIV => EADCDIV (CLK m)
  | EADC_CTL => CTL (eadc m)
  | EADC_CALSR => CALSR (eadc m)
  | EADC_CALCTL => CALCTL (eadc m)
  | EADC_SCTL i => SCTL (eadc m) i
  | EADC_SCTL19 i => SCTL19 (eadc m) i
  | EADC_WORD_FF0 => WORD_FF0 (eadc m)
  end.

(** A store to a register.  A store to [EADC_SCTL i] or [EADC_SCTL19 i]
    changes cell [i] of that array and nothing else, as the device does for
    [i] inside the declared size of the array. *)
Definition write (r : reg) (v : Z) (c : CLK_T) (e : EADC_T) : CLK_T * EADC_T :=
  match r with
  | CLK_EADCSEL => (mkCLK v (EADCDIV c), e)
  | CLK_EADCDIV => (mkCLK (EADCSEL c) v, e)
  | EADC_CTL =>
      (c, mkEADC v (CALSR e) (CALCTL e) (SCTL e) (SCTL19 e) (WORD_FF0 e))
  | EADC_CALSR =>
      (c, mkEADC (CTL e) v (CALCTL e) (SCTL e) (SCTL19 e) (WORD_FF0 e))
  | EADC_CALCTL =>
      (c, mkEADC (CTL e) (CALSR e) v (SCTL e) (SCTL19 e) (WORD_FF0 e))
  | EADC_SCTL i =>
      (c, mkEADC (CTL e) (CALSR e) (CALCTL e) (upd (SCTL e) i v) (SCTL19 e) (WORD_FF0 e))
  | EADC_SCTL19 i =>
      (c, mkEADC (CTL e) (CALSR e) (CALCTL e) (SCTL e) (upd (SCTL19 e) i v) (WORD_FF0 e))
  | EADC_WORD_FF0 =>
      (c, mkEADC (CTL e) (CALSR e) (CALCTL e) (SCTL e) (SCTL19 e) v)
  end.

Definition store (r : reg) (v : Z) (m : machine) : machine :=
  let '(c, e) := write r v (CLK m) (eadc m) in
  mkMachine (SystemCoreClock m) (g_EADC_i32ErrCode m) c e (trace m ++ [Store r v]).

Definition set_ErrCode (v : Z) (m : machine) : machine :=
  mkMachine (SystemCoreClock m) v (CLK m) (eadc m) (trace m).

Section Driver.

Variable K : header.

(** The converter itself.  [hw t e] is the register block as the converter
    has changed it by the time of the next polling read, given the bus
    traffic [t] so far and the block's contents [e].  It is arbitrary: it
    may depend on the whole history (so it can react to a store, count
    reads, or never answer) and touches only the converter's own block.
    Between two polling reads the block holds what was last stored. *)
Variable hw : list event -> EADC_T -> EADC_T.

(** One volatile read made by a polling loop: the converter moves, the
    register is read, and the read is logged. *)
Definition poll (r : reg) (m : machine) : Z * machine :=
  let e := hw (trace m) (eadc m) in
  let m1 := mkMachine (SystemCoreClock m) (g_EADC_i32ErrCode m) (CLK m) e (trace m) in
  let v := load r m1 in
  (v, mkMachine (SystemCoreClock m) (g_EADC_i32ErrCode m) (CLK m) e (trace m ++ [Poll r v])).

(** The shape shared by the two loops of [EADC_Calibration]:
<<
    while (cond(reg)) { if (--u32Delay == 0) { g_EADC_i32ErrCode = EADC_TIMEOUT_ERR; break; } }
>>
    The pre-decrement wraps at 32 bits. *)
Equations? busy_wait (r : reg) (cond : Z -> bool) (u32Delay : Z) (m : machine)
  : machine by wf (Z.to_nat (u32 (u32Delay - 1))) lt :=
busy_wait r cond u32Delay m with poll r m := {
  | (v, m1) with cond v := {
    | false := m1
    | true with Z.eq_dec (u32 (u32Delay - 1)) 0 := {
      | left _ := set_ErrCode (EADC_TIMEOUT_ERR K) m1
      | right _ := busy_wait r cond (u32 (u32Delay - 1)) m1 } } }.
Proof.
  unfold u32 in *.
  assert (0 <= (u32Delay - 1) mod 2 ^ 32 < 2 ^ 32) by (apply Z.mod_pos_bound; lia).
  rewrite (Z.mod_small ((u32Delay - 1) mod 2 ^ 32 - 1)) by lia.
  lia.
Qed.

(** Modelled from the spec: the macro [EADC_CONV_RESET] of [eadc.h], which is
    not among the sources.  The spec calls it the reset command whose
    reset-in-progress bit the routine then polls; it is the store that sets
    ADCRST in CTL. *)
Definition EADC_CONV_RESET (m : machine) : machine :=
  store EADC_CTL (Z.lor (load EADC_CTL m) (EADC_CTL_ADCRST_Msk K)) m.

(** The conditions of the two loops: [(eadc->CTL & ADCRST_Msk) == ADCRST_Msk]
    and [(eadc->CALSR & CALIF_Msk) != CALIF_Msk]. *)
Definition in_reset (v : Z) : bool :=
  Z.land v (EADC_CTL_ADCRST_Msk K) =? EADC_CTL_ADCRST_Msk K.

Definition not_finished (v : Z) : bool :=
  negb (Z.land v (EADC_CALSR_CALIF_Msk K) =? EADC_CALSR_CALIF_Msk K).

Definition EADC_Calibration (m0 : machine) : machine :=
  let u32Delay := SystemCoreClock m0 in
  let m := set_ErrCode 0 m0 in
  (* record EADC clock settings *)
  let u32EADCClkSel := load CLK_EADCSEL m in
  let u32EADCClkDiv := load CLK_EADCDIV m in
  (* Set ECLK equal to PCLK according to calibration requirements *)
  let m := store CLK_EADCSEL
             (Z.lor (Z.land (load CLK_EADCSEL m) (CLK_EADCSEL_EADC0SEL_Msk K))
                    (CLK_EADCSEL_EADC0SEL_PCLK0 K)) m in
  let m := store CLK_EADCDIV
             (Z.land (load CLK_EADCDIV m) (CLK_EADCDIV_EADC0DIV_Msk K)) m in
  (* EADC Converter Enable *)
  let m := store EADC_CTL (Z.lor (load EADC_CTL m) (EADC_CTL_ADCEN_Msk K)) m in
  let m :=
    if Z.land (load EADC_CALSR m) (EADC_CALSR_CALIF_Msk K) =? 0 then
      (* Must reset EADC before EADC calibration *)
      let m := EADC_CONV_RESET m in
      let m := busy_wait EADC_CTL in_reset u32Delay m in
      let m := store EADC_CALSR
                 (Z.lor (load EADC_CALSR m) (EADC_CALSR_CALIF_Msk K)) m in
      let m := store EADC_CALCTL
                 (Z.lor (load EADC_CALCTL m) (EADC_CALCTL_CAL_Msk K)) m in
      let u32Delay := SystemCoreClock m / 20 in
      busy_wait EADC_CALSR not_finished u32Delay m
    else m in
  (* Restore EADC clock settings *)
  let m := store CLK_EADCSEL u32EADCClkSel m in
  store CLK_EADCDIV u32EADCClkDiv m.

Definition EADC_Open (u32InputMode : Z) (m : machine) : machine :=
  (* Add one cycle in the decode trigger event is used to improve EADC accuracy. *)
  let m := store EADC_WORD_FF0 (Z.lor (load EADC_WORD_FF0 m) (BIT8 K)) m in
  let m := store EADC_CTL (Z.land (load EADC_CTL m) (not32 (EADC_CTL_DIFFEN_Msk K))) m in
  let m := store EADC_CTL
             (Z.lor (load EADC_CTL m) (Z.lor u32InputMode (EADC_CTL_ADCEN_Msk K))) m in
  (* Start the EADC calibration function *)
  EADC_Calibration m.

Definition EADC_Close (m : machine) : machine :=
  store EADC_CTL (Z.land (load EADC_CTL m) (not32 (EADC_CTL_ADCEN_Msk K))) m.

Definition sample_clear_Msk : Z :=
  not32 (Z.lor (Z.lor (Z.lor (EADC_SCTL_EXTFEN_Msk K) (EADC_SCTL_EXTREN_Msk K))
                      (EADC_SCTL_TRGSEL_Msk K)) (EADC_SCTL_CHSEL_Msk K)).

Definition EADC_ConfigSampleModule
    (u32ModuleNum u32TriggerSrc u32Channel : Z) (m : machine) : machine :=
  if u32ModuleNum <? 19 then
    let w := EADC_SCTL u32ModuleNum in
    let m := store w (Z.land (load w m) sample_clear_Msk) m in
    store w (Z.lor (load w m) (Z.lor u32TriggerSrc u32Channel)) m
  else
    let w := EADC_SCTL19 (u32 (u32ModuleNum - 19)) in
    let m := store w (Z.land (load w m) sample_clear_Msk) m in
    store w (Z.lor (load w m) (Z.lor u32TriggerSrc u32Channel)) m.

Definition trigger_delay_clear_Msk : Z :=
  not32 (Z.lor (EADC_SCTL_TRGDLDIV_Msk K) (EADC_SCTL_TRGDLCNT_Msk K)).

Definition EADC_SetTriggerDelayTime
    (u32ModuleNum u32TriggerDelayTime u32DelayClockDivider : Z) (m : machine) : machine :=
  let bits := Z.lor (shl32 u32TriggerDelayTime (EADC_SCTL_TRGDLCNT_Pos K))
                    u32DelayClockDivider in
  if u32ModuleNum <? 19 then
    let w := EADC_SCTL u32ModuleNum in
    let m := store w (Z.land (load w m) trigger_delay_clear_Msk) m in
    store w (Z.lor (load w m) bits) m
  else
    let w := EADC_SCTL19 (u32 (u32ModuleNum - 19)) in
    let m := store w (Z.land (load w m) trigger_delay_clear_Msk) m in
    store w (Z.lor (load w m) bits) m.

Definition EADC_SetExtendSampleTime
    (u32ModuleNum u32ExtendSampleTime : Z) (m : machine) : machine :=
  let bits := shl32 u32ExtendSampleTime (EADC_SCTL_EXTSMPT_Pos K) in
  if u32ModuleNum <? 19 then
    let w := EADC_SCTL u32ModuleNum in
    let m := store w (Z.land (load w m) (not32 (EADC_SCTL_EXTSMPT_Msk K))) m in
    store w (Z.lor (load w m) bits) m
  else
    let w := EADC_SCTL19 (u32 (u32ModuleNum - 19)) in
    let m := store w (Z.land (load w m) (not32 (EADC_SCTL_EXTSMPT_Msk K))) m in
    store w (Z.lor (load w m) bits) m.

End Driver.

(** *** Observing a run *)

(** The number of pre-decrements after which a countdown seeded with
    [u32Delay] reaches zero: the seed itself, except that a seed of zero
    wraps and lasts 2^32 decrements. *)
Definition budget (u32Delay : Z) : Z := u32 (u32Delay - 1) + 1.

Definition reg_eqb (a b : reg) : bool :=
  match a, b with
  | CLK_EADCSEL, CLK_EADCSEL => true
  | CLK_EADCDIV, CLK_EADCDIV => true
  | EADC_CTL, EADC_CTL => true
  | EADC_CALSR, EADC_CALSR => true
  | EADC_CALCTL, EADC_CALCTL => true
  | EADC_SCTL i, EADC_SCTL j => i =? j
  | EADC_SCTL19 i, EADC_SCTL19 j => i =? j
  | EADC_WORD_FF0, EADC_WORD_FF0 => true
  | _, _ => false
  end.

(** A polling read of [r] that found the loop condition true, that is, one
    execution of the loop body. *)
Definition spin (r : reg) (cond : Z -> bool) (e : event) : bool :=
  match e with
  | Poll r' v => reg_eqb r r' && cond v
  | Store _ _ => false
  end.

(** How often the body of the loop polling [r] ran in the traffic [t]. *)
Definition iterations (r : reg) (cond : Z -> bool) (t : list event) : Z :=
  Z.of_nat (length (filter (spin r cond) t)).

(** How a wait seeded with [d] can end, in terms of the values [vs] its reads
    returned: either every one of its [budget d] reads found the condition
    true and the countdown ran out, or a read within the budget found it
    false. *)
Inductive wait_outcome (cond : Z -> bool) (d : Z) : list Z -> bool -> Prop :=
| Exhausted vs :
    Forall (fun v => cond v = true) vs ->
    Z.of_nat (length vs) = budget d ->
    wait_outcome cond d vs true
| Released vs v :
    Forall (fun v => cond v = true) vs ->
    cond v = false ->
    Z.of_nat (length vs) < budget d ->
    wait_outcome cond d (vs ++ [v]) false.

(** The values stored to [r] in the traffic [t], oldest first. *)
Definition stores_to (r : reg) (t : list event) : list Z :=
  flat_map (fun e => match e with
                     | Store r' v => if reg_eqb r r' then [v] else []
                     | Poll _ _ => []
                     end) t.

(** [m'] is [m] after a read-modify-write pair on word [i] counted from the
    base of [SCTL19], and nothing else. *)
Definition touches_only_SCTL19 (i : Z) (m m' : machine) : Prop :=
  (exists v1 v2,
     trace m' = trace m ++ [Store (EADC_SCTL19 i) v1; Store (EADC_SCTL19 i) v2]) /\
  (forall j, j <> i -> SCTL19 (eadc m') j = SCTL19 (eadc m) j) /\
  (forall j, SCTL (eadc m') j = SCTL (eadc m) j) /\
  CTL (eadc m') = CTL (eadc m) /\
  CALSR (eadc m') = CALSR (eadc m) /\
  CALCTL (eadc m') = CALCTL (eadc m) /\
  WORD_FF0 (eadc m') = WORD_FF0 (eadc m) /\
  CLK m' = CLK m /\
  g_EADC_i32ErrCode m' = g_EADC_i32ErrCode m /\
  SystemCoreClock m' = SystemCoreClock m.

(** The three stores with which [EADC_Calibration] begins and the two with
    which it ends, for a call entered in state [m]. *)
Definition prologue (K : header) (m : machine) : list event :=
  [ Store CLK_EADCSEL
      (Z.lor (Z.land (EADCSEL (CLK m)) (CLK_EADCSEL_EADC0SEL_Msk K))
             (CLK_EADCSEL_EADC0SEL_PCLK0 K));
    Store CLK_EADCDIV (Z.land (EADCDIV (CLK m)) (CLK_EADCDIV_EADC0DIV_Msk K));
    Store EADC_CTL (Z.lor (CTL (eadc m)) (EADC_CTL_ADCEN_Msk K)) ].

Definition epilogue (m : machine) : list event :=
  [ Store CLK_EADCSEL (EADCSEL (CLK m)); Store CLK_EADCDIV (EADCDIV (CLK m)) ].

(** The store [EADC_CONV_RESET] makes in a call entered in state [m]. *)
Definition reset_command (K : header) (m : machine) : event :=
  Store EADC_CTL
    (Z.lor (Z.lor (CTL (eadc m)) (EADC_CTL_ADCEN_Msk K)) (EADC_CTL_ADCRST_Msk K)).

End EADC.

(** ** The USCI-SPI driver, [usci_spi.c] *)

Module USPI.

(** The macros of [usci_spi_reg.h] and [usci_spi.h] that [USPI_Open] and
    [USPI_SetBusClock] use, taken as a parameter. *)
Record header := mkHeader {
  USPI_CTL_FUNMODE_Msk : Z;
  USPI_CTL_FUNMODE_Pos : Z;
  USPI_LINECTL_DWIDTH_Msk : Z;
  USPI_LINECTL_DWIDTH_Pos : Z;
  USPI_LINECTL_LSB_Msk : Z;
  USPI_LINECTL_CTLOINV_Msk : Z;
  USPI_CTLIN0_ININV_Msk : Z;
  USPI_PROTCTL_SCLKMODE_Msk : Z;
  USPI_PROTCTL_AUTOSS_Msk : Z;
  USPI_PROTCTL_SLAVE_Msk : Z;
  USPI_PROTCTL_PROTEN_Msk : Z;
  USPI_BRGEN_CLKDIV_Msk : Z;
  USPI_BRGEN_CLKDIV_Pos : Z;
  USPI_MASTER : Z
}.

(** The registers of the USCI block the two routines touch. *)
Record USPI_T := mkUSPI {
  CTL : Z;
  LINECTL : Z;
  CTLIN0 : Z;
  PROTCTL : Z;
  BRGEN : Z
}.

Definition set_CTL (v : Z) (u : USPI_T) : USPI_T :=
  mkUSPI v (LINECTL u) (CTLIN0 u) (PROTCTL u) (BRGEN u).
Definition set_LINECTL (v : Z) (u : USPI_T) : USPI_T :=
  mkUSPI (CTL u) v (CTLIN0 u) (PROTCTL u) (BRGEN u).
Definition set_CTLIN0 (v : Z) (u : USPI_T) : USPI_T :=
  mkUSPI (CTL u) (LINECTL u) v (PROTCTL u) (BRGEN u).
Definition set_PROTCTL (v : Z) (u : USPI_T) : USPI_T :=
  mkUSPI (CTL u) (LINECTL u) (CTLIN0 u) v (BRGEN u).
Definition set_BRGEN (v : Z) (u : USPI_T) : USPI_T :=
  mkUSPI (CTL u) (LINECTL u) (CTLIN0 u) (PROTCTL u) v.

(** A call either returns a value, or reaches an unsigned division whose
    divisor is zero.  Both carry the register block as the call left it. *)
Inductive result :=
| Returns (ret : Z) (uspi : USPI_T)
| DivisionByZero (uspi : USPI_T).

Definition block (r : result) : USPI_T :=
  match r with
  | Returns _ u => u
  | DivisionByZero u => u
  end.

(** Unsigned division; C leaves a zero divisor undefined, the model reports
    it. *)
Definition udiv (a b : Z) : option Z :=
  if b =? 0 then None else Some (a / b).

(** [((((u32Pclk / 2ul) * 10ul) / u32BusClock) + 5ul) / 10ul) - 1ul] in
    32-bit unsigned arithmetic. *)
Definition clock_divider (u32Pclk u32BusClock : Z) : option Z :=
  match udiv (u32 (u32Pclk / 2 * 10)) u32BusClock with
  | Some q => Some (u32 (u32 (q + 5) / 10 - 1))
  | None => None
  end.

(** [u32Pclk / ((u32ClkDiv + 1ul) << 1)] *)
Definition bus_clock (u32Pclk u32ClkDiv : Z) : option Z :=
  udiv u32Pclk (shl32 (u32 (u32ClkDiv + 1)) 1).

Section Driver.

Variable K : header.

(** What [CLK_GetPCLK1Freq()] of [clk.c] returns. *)
Variable PCLK1 : Z.

(** [is_USPI0] is the outcome of the test [uspi == USPI0]; [u32Pclk0] stands
    for the contents of the local [u32Pclk], which [USPI_Open] declares
    without an initial value. *)
Definition USPI_Open (is_USPI0 : bool) (u32Pclk0 : Z)
    (u32MasterSlave u32SPIMode u32DataWidth u32BusClock : Z)
    (uspi : USPI_T) : result :=
  let u32ClkDiv := 0 in
  let u32Pclk := if is_USPI0 then PCLK1 else u32Pclk0 in
  let u32UspiClk := 0 in
  match (if negb (u32BusClock =? 0) then clock_divider u32Pclk u32BusClock
         else Some u32ClkDiv) with
  | None => DivisionByZero uspi
  | Some u32ClkDiv =>
  (* Enable USCI_SPI protocol *)
  let uspi := set_CTL (Z.land (CTL uspi) (not32 (USPI_CTL_FUNMODE_Msk K))) uspi in
  let uspi := set_CTL (Z.lor (CTL uspi) (shl32 1 (USPI_CTL_FUNMODE_Pos K))) uspi in
  (* Data format configuration *)
  let u32DataWidth := if 16 <=? u32DataWidth then 0 else u32DataWidth in
  let uspi := set_LINECTL (Z.land (LINECTL uspi) (not32 (USPI_LINECTL_DWIDTH_Msk K))) uspi in
  let uspi := set_LINECTL
                (Z.lor (LINECTL uspi) (shl32 u32DataWidth (USPI_LINECTL_DWIDTH_Pos K)))
                uspi in
  (* MSB data format *)
  let uspi := set_LINECTL (Z.land (LINECTL uspi) (not32 (USPI_LINECTL_LSB_Msk K))) uspi in
  (* Set slave selection signal active low *)
  let uspi :=
    if u32MasterSlave =? USPI_MASTER K then
      set_LINECTL (Z.lor (LINECTL uspi) (USPI_LINECTL_CTLOINV_Msk K)) uspi
    else
      set_CTLIN0 (Z.lor (CTLIN0 uspi) (USPI_CTLIN0_ININV_Msk K)) uspi in
  (* Set operating mode and transfer timing *)
  let uspi := set_PROTCTL
                (Z.land (PROTCTL uspi)
                   (not32 (Z.lor (Z.lor (USPI_PROTCTL_SCLKMODE_Msk K)
                                        (USPI_PROTCTL_AUTOSS_Msk K))
                                 (USPI_PROTCTL_SLAVE_Msk K)))) uspi in
  let uspi := set_PROTCTL (Z.lor (PROTCTL uspi) (Z.lor u32MasterSlave u32SPIMode)) uspi in
  (* Set USCI_SPI bus clock *)
  let uspi := set_BRGEN (Z.land (BRGEN uspi) (not32 (USPI_BRGEN_CLKDIV_Msk K))) uspi in
  let uspi := set_BRGEN
                (Z.lor (BRGEN uspi) (shl32 u32ClkDiv (USPI_BRGEN_CLKDIV_Pos K))) uspi in
  let uspi := set_PROTCTL (Z.lor (PROTCTL uspi) (USPI_PROTCTL_PROTEN_Msk K)) uspi in
  if negb (u32BusClock =? 0) then
    match bus_clock u32Pclk u32ClkDiv with
    | Some u32UspiClk => Returns u32UspiClk uspi
    | None => DivisionByZero uspi
    end
  else Returns u32UspiClk uspi
  end.

Definition USPI_SetBusClock (is_USPI0 : bool) (u32BusClock : Z)
    (uspi : USPI_T) : result :=
  let u32Pclk := if is_USPI0 then PCLK1 else 0 in
  match clock_divider u32Pclk u32BusClock with
  | None => DivisionByZero uspi
  | Some u32ClkDiv =>
    (* Set USCI_SPI bus clock *)
    let uspi := set_BRGEN (Z.land (BRGEN uspi) (not32 (USPI_BRGEN_CLKDIV_Msk K))) uspi in
    let uspi := set_BRGEN
                  (Z.lor (BRGEN uspi) (shl32 u32ClkDiv (USPI_BRGEN_CLKDIV_Pos K))) uspi in
    match bus_clock u32Pclk u32ClkDiv with
    | Some ret => Returns ret uspi
    | None => DivisionByZero uspi
    end
  end.

End Driver.

(** *** The documented rounding *)

(** The nearest integer to [a / b], halves rounded up. *)
Definition nearest (a b : Z) : Z := (2 * a + b) / (2 * b).

(** The divider the documentation describes: the nearest integer to
    [(pclk / 2) / busclock], minus one. *)
Definition documented_divider (pclk busclock : Z) : Z :=
  nearest (pclk / 2) busclock - 1.

End USPI.

(** ** Sample configurations

    Concrete header values and machines on which the general results are
    exercised.  The EADC values put ADCEN and ADCRST at bits 0 and 1 of CTL,
    CALIF at bit 16 of CALSR, a two-bit clock-source field with PCLK0
    encoded as 2 and an eight-bit divider field; the timeout code is -1. *)

Module Sample.

Definition eadc_h : EADC.header :=
  EADC.mkHeader 0x3 0x2 0xFF 0x1 0x2 0x10000 0x2 (-1)
                0x20 0x10 0x1F0000 0x1F 0xC0 0xFF00 8 0xFF000000 24 0x100 0x100.

Definition uspi_h : USPI.header :=
  USPI.mkHeader 0x7 0 0xF00 8 0x1 0x80 0x4 0xC0 0x8 0x1 0x80000000
                0x3FF0000 16 0x0.

Definition no_hw : list EADC.event -> EADC.EADC_T -> EADC.EADC_T :=
  fun _ e => e.

(** A machine with the given core clock, clock-controller contents and
    CALSR, everything else zero and nothing on the bus yet. *)
Definition machine_with (scc sel div calsr : Z) : EADC.machine :=
  EADC.mkMachine scc 0 (EADC.mkCLK sel div)
    (EADC.mkEADC 0 calsr 0 (fun _ => 0) (fun _ => 0) 0) [].

Definition polls_in (t : list EADC.event) : nat :=
  length (filter (fun e => match e with EADC.Poll _ _ => true | _ => false end) t).

(** A converter that is slow by one read: it holds the reset bit for the
    first read of the first wait and the cleared flag for the first read of
    the second wait. *)
Definition slow_hw (t : list EADC.event) (e : EADC.EADC_T) : EADC.EADC_T :=
  match polls_in t with
  | O => e
  | 1%nat => EADC.mkEADC 0x1 (EADC.CALSR e) (EADC.CALCTL e) (EADC.SCTL e) (EADC.SCTL19 e) (EADC.WORD_FF0 e)
  | 2%nat => EADC.mkEADC 0x1 0 (EADC.CALCTL e) (EADC.SCTL e) (EADC.SCTL19 e) (EADC.WORD_FF0 e)
  | _ => EADC.mkEADC 0x1 0x10000 (EADC.CALCTL e) (EADC.SCTL e) (EADC.SCTL19 e) (EADC.WORD_FF0 e)
  end.

(** A converter that leaves reset at once, ignores the first calibration
    start and completes the second: the flag stays down until CALCTL has
    been written twice. *)
Definition late_hw (t : list EADC.event) (e : EADC.EADC_T) : EADC.EADC_T :=
  EADC.mkEADC 0x1
    (if (2 <=? length (EADC.stores_to EADC.EADC_CALCTL t))%nat then 0x10000 else 0)
    (EADC.CALCTL e) (EADC.SCTL e) (EADC.SCTL19 e) (EADC.WORD_FF0 e).

Definition uspi_zero : USPI.USPI_T := USPI.mkUSPI 0 0 0 0 0.

End Sample.

(** ** The sample-module words of the EADC, by module number *)

Module EADC_Modules.

(** The word a sample-module routine addresses for module number [n]:
    [SCTL[n]] below 19, [SCTL19[n - 19]] from 19 up. *)
Definition sample_word (n : Z) (e : EADC.EADC_T) : Z :=
  if n <? 19 then EADC.SCTL e n else EADC.SCTL19 e (n - 19).

(** [m'] is [m] after a read-modify-write pair on word [i] of [SCTL], and
    nothing else. *)
Definition touches_only_SCTL (i : Z) (m m' : EADC.machine) : Prop :=
  (exists v1 v2,
     EADC.trace m' =
       EADC.trace m ++ [EADC.Store (EADC.EADC_SCTL i) v1; EADC.Store (EADC.EADC_SCTL i) v2]) /\
  (forall j, j <> i -> EADC.SCTL (EADC.eadc m') j = EADC.SCTL (EADC.eadc m) j) /\
  (forall j, EADC.SCTL19 (EADC.eadc m') j = EADC.SCTL19 (EADC.eadc m) j) /\
  EADC.CTL (EADC.eadc m') = EADC.CTL (EADC.eadc m) /\
  EADC.CALSR (EADC.eadc m') = EADC.CALSR (EADC.eadc m) /\
  EADC.CALCTL (EADC.eadc m') = EADC.CALCTL (EADC.eadc m) /\
  EADC.WORD_FF0 (EADC.eadc m') = EADC.WORD_FF0 (EADC.eadc m) /\
  EADC.CLK m' = EADC.CLK m /\
  EADC.g_EADC_i32ErrCode m' = EADC.g_EADC_i32ErrCode m /\
  EADC.SystemCoreClock m' = EADC.SystemCoreClock m.

(** [m'] is [m] after a read-modify-write pair on the word of module [n],
    which lies inside its array, and nothing else. *)
Definition touches_only_module (n : Z) (m m' : EADC.machine) : Prop :=
  if n <? 19
  then 0 <= n < EADC.SCTL_size /\ touches_only_SCTL n m m'
  else 0 <= n - 19 < EADC.SCTL19_size /\ EADC.touches_only_SCTL19 (n - 19) m m'.

(** [m'] is the outcome of one of the three sample-module routines called
    on [m] with module number [n]. *)
Definition sample_routine (K : EADC.header) (n : Z) (m m' : EADC.machine) : Prop :=
  (exists trg ch, m' = EADC.EADC_ConfigSampleModule K n trg ch m) \/
  (exists t d, m' = EADC.EADC_SetTriggerDelayTime K n t d m) \/
  (exists t, m' = EADC.EADC_SetExtendSampleTime K n t m).

(** The four fields [EADC_ConfigSampleModule] clears. *)
Definition sample_fields (K : EADC.header) : Z :=
  Z.lor (Z.lor (Z.lor (EADC.EADC_SCTL_EXTFEN_Msk K) (EADC.EADC_SCTL_EXTREN_Msk K))
               (EADC.EADC_SCTL_TRGSEL_Msk K)) (EADC.EADC_SCTL_CHSEL_Msk K).

End EADC_Modules.

(** ** The rest of [usci_spi.c] *)

Module USPI_More.

(** Further macros of [usci_spi_reg.h], [usci_spi.h] used by the routines
    below, taken as a parameter. *)
Record more_header := mkMore {
  USPI_PROTCTL_SS_Msk : Z;
  USPI_SSINACT_INT_MASK : Z;
  USPI_SSACT_INT_MASK : Z;
  USPI_SLVTO_INT_MASK : Z;
  USPI_SLVBE_INT_MASK : Z;
  USPI_TXUDR_INT_MASK : Z;
  USPI_RXOV_INT_MASK : Z;
  USPI_TXST_INT_MASK : Z;
  USPI_TXEND_INT_MASK : Z;
  USPI_RXST_INT_MASK : Z;
  USPI_RXEND_INT_MASK : Z;
  USPI_PROTIEN_SSINAIEN_Msk : Z;
  USPI_PROTIEN_SSACTIEN_Msk : Z;
  USPI_PROTIEN_SLVTOIEN_Msk : Z;
  USPI_PROTIEN_SLVBEIEN_Msk : Z;
  USPI_BUFCTL_TXUDRIEN_Msk : Z;
  USPI_BUFCTL_RXOVIEN_Msk : Z;
  USPI_INTEN_TXSTIEN_Msk : Z;
  USPI_INTEN_TXENDIEN_Msk : Z;
  USPI_INTEN_RXSTIEN_Msk : Z;
  USPI_INTEN_RXENDIEN_Msk : Z;
  USPI_PROTSTS_SSINAIF_Msk : Z;
  USPI_PROTSTS_SSACTIF_Msk : Z;
  USPI_PROTSTS_SLVTOIF_Msk : Z;
  USPI_PROTSTS_SLVBEIF_Msk : Z;
  USPI_BUFSTS_TXUDRIF_Msk : Z;
  USPI_BUFSTS_RXOVIF_Msk : Z;
  USPI_PROTSTS_TXSTIF_Msk : Z;
  USPI_PROTSTS_TXENDIF_Msk : Z;
  USPI_PROTSTS_RXSTIF_Msk : Z;
  USPI_PROTSTS_RXENDIF_Msk : Z;
  USPI_BUSY_MASK : Z;
  USPI_RX_EMPTY_MASK : Z;
  USPI_RX_FULL_MASK : Z;
  USPI_TX_EMPTY_MASK : Z;
  USPI_TX_FULL_MASK : Z;
  USPI_SSLINE_STS_MASK : Z;
  USPI_PROTSTS_BUSY_Msk : Z;
  USPI_BUFSTS_RXEMPTY_Msk : Z;
  USPI_BUFSTS_RXFULL_Msk : Z;
  USPI_BUFSTS_TXEMPTY_Msk : Z;
  USPI_BUFSTS_TXFULL_Msk : Z;
  USPI_PROTSTS_SSLINE_Msk : Z
}.

(** The interrupt and status registers of the USCI block. *)
Record USPI_regs := mkRegs {
  PROTIEN : Z;
  BUFCTL : Z;
  INTEN : Z;
  PROTSTS : Z;
  BUFSTS : Z
}.

Definition set_PROTIEN (v : Z) (u : USPI_regs) : USPI_regs :=
  mkRegs v (BUFCTL u) (INTEN u) (PROTSTS u) (BUFSTS u).
Definition set_BUFCTL (v : Z) (u : USPI_regs) : USPI_regs :=
  mkRegs (PROTIEN u) v (INTEN u) (PROTSTS u) (BUFSTS u).
Definition set_INTEN (v : Z) (u : USPI_regs) : USPI_regs :=
  mkRegs (PROTIEN u) (BUFCTL u) v (PROTSTS u) (BUFSTS u).

(** [(u32Mask & X) == X] *)
Definition selects (u32Mask X : Z) : bool := Z.land u32Mask X =? X.

(** [if (b) x |= m;] and [if (b) x &= ~m;] as values. *)
Definition set_if (b : bool) (x m : Z) : Z := if b then Z.lor x m else x.
Definition clear_if (b : bool) (x m : Z) : Z := if b then Z.land x (not32 m) else x.

Section Driver.

Variable K : USPI.header.
Variable H : more_header.

(** What [CLK_GetPCLK1Freq()] of [clk.c] returns. *)
Variable PCLK1 : Z.

(** The register-lock interface of [sys.h], which [USPI_Close] calls: the
    system state and the three operations are parameters. *)
Variable SYS_T : Type.
Variable SYS_IsRegLocked : SYS_T -> Z.
Variable SYS_UnlockReg : SYS_T -> SYS_T.
Variable SYS_LockReg : SYS_T -> SYS_T.

Definition USPI_Close (sys : SYS_T) (uspi : USPI.USPI_T) : SYS_T * USPI.USPI_T :=
  let u32RegLockLevel := SYS_IsRegLocked sys in
  let sys := if negb (u32RegLockLevel =? 0) then SYS_UnlockReg sys else sys in
  let uspi := USPI.set_CTL
                (Z.land (USPI.CTL uspi) (not32 (USPI.USPI_CTL_FUNMODE_Msk K))) uspi in
  let sys := if negb (u32RegLockLevel =? 0) then SYS_LockReg sys else sys in
  (sys, uspi).

Definition USPI_DisableAutoSS (uspi : USPI.USPI_T) : USPI.USPI_T :=
  USPI.set_PROTCTL
    (Z.land (USPI.PROTCTL uspi)
            (not32 (Z.lor (USPI.USPI_PROTCTL_AUTOSS_Msk K) (USPI_PROTCTL_SS_Msk H))))
    uspi.

Definition USPI_EnableAutoSS (u32SSPinMask u32ActiveLevel : Z)
    (uspi : USPI.USPI_T) : USPI.USPI_T :=
  let uspi := USPI.set_LINECTL
                (Z.lor (Z.land (USPI.LINECTL uspi)
                               (not32 (USPI.USPI_LINECTL_CTLOINV_Msk K)))
                       u32ActiveLevel) uspi in
  USPI.set_PROTCTL (Z.lor (USPI.PROTCTL uspi) (USPI.USPI_PROTCTL_AUTOSS_Msk K)) uspi.

Definition USPI_GetBusClock (is_USPI0 : bool) (uspi : USPI.USPI_T) : USPI.result :=
  let u32BusClk := 0 in
  let u32ClkDiv := Z.shiftr (Z.land (USPI.BRGEN uspi) (USPI.USPI_BRGEN_CLKDIV_Msk K))
                            (USPI.USPI_BRGEN_CLKDIV_Pos K) in
  if is_USPI0 then
    match USPI.bus_clock PCLK1 u32ClkDiv with
    | Some u32BusClk => USPI.Returns u32BusClk uspi
    | None => USPI.DivisionByZero uspi
    end
  else USPI.Returns u32BusClk uspi.

Definition USPI_EnableInt (u32Mask : Z) (u : USPI_regs) : USPI_regs :=
  let u := if selects u32Mask (USPI_SSINACT_INT_MASK H)
           then set_PROTIEN (Z.lor (PROTIEN u) (USPI_PROTIEN_SSINAIEN_Msk H)) u else u in
  let u := if selects u32Mask (USPI_SSACT_INT_MASK H)
           then set_PROTIEN (Z.lor (PROTIEN u) (USPI_PROTIEN_SSACTIEN_Msk H)) u else u in
  let u := if selects u32Mask (USPI_SLVTO_INT_MASK H)
           then set_PROTIEN (Z.lor (PROTIEN u) (USPI_PROTIEN_SLVTOIEN_Msk H)) u else u in
  let u := if selects u32Mask (USPI_SLVBE_INT_MASK H)
           then set_PROTIEN (Z.lor (PROTIEN u) (USPI_PROTIEN_SLVBEIEN_Msk H)) u else u in
  let u := if selects u32Mask (USPI_TXUDR_INT_MASK H)
           then set_BUFCTL (Z.lor (BUFCTL u) (USPI_BUFCTL_TXUDRIEN_Msk H)) u else u in
  let u := if selects u32Mask (USPI_RXOV_INT_MASK H)
           then set_BUFCTL (Z.lor (BUFCTL u) (USPI_BUFCTL_RXOVIEN_Msk H)) u else u in
  let u := if selects u32Mask (USPI_TXST_INT_MASK H)
           then set_INTEN (Z.lor (INTEN u) (USPI_INTEN_TXSTIEN_Msk H)) u else u in
  let u := if selects u32Mask (USPI_TXEND_INT_MASK H)
           then set_INTEN (Z.lor (INTEN u) (USPI_INTEN_TXENDIEN_Msk H)) u else u in
  let u := if selects u32Mask (USPI_RXST_INT_MASK H)
           then set_INTEN (Z.lor (INTEN u) (USPI_INTEN_RXSTIEN_Msk H)) u else u in
  if selects u32Mask (USPI_RXEND_INT_MASK H)
  then set_INTEN (Z.lor (INTEN u) (USPI_INTEN_RXENDIEN_Msk H)) u else u.

Definition USPI_DisableInt (u32Mask : Z) (u : USPI_regs) : USPI_regs :=
  let u := if selects u32Mask (USPI_SSINACT_INT_MASK H)
           then set_PROTIEN (Z.land (PROTIEN u) (not32 (USPI_PROTIEN_SSINAIEN_Msk H))) u
           else u in
  let u := if selects u32Mask (USPI_SSACT_INT_MASK H)
           then set_PROTIEN (Z.land (PROTIEN u) (not32 (USPI_PROTIEN_SSACTIEN_Msk H))) u
           else u in
  let u := if selects u32Mask (USPI_SLVTO_INT_MASK H)
           then set_PROTIEN (Z.land (PROTIEN u) (not32 (USPI_PROTIEN_SLVTOIEN_Msk H))) u
           else u in
  let u := if selects u32Mask (USPI_SLVBE_INT_MASK H)
           then set_PROTIEN (Z.land (PROTIEN u) (not32 (USPI_PROTIEN_SLVBEIEN_Msk H))) u
           else u in
  let u := if selects u32Mask (USPI_TXUDR_INT_MASK H)
           then set_BUFCTL (Z.land (BUFCTL u) (not32 (USPI_BUFCTL_TXUDRIEN_Msk H))) u
           else u in
  let u := if selects u32Mask (USPI_RXOV_INT_MASK H)
           then set_BUFCTL (Z.land (BUFCTL u) (not32 (USPI_BUFCTL_RXOVIEN_Msk H))) u
           else u in
  let u := if selects u32Mask (USPI_TXST_INT_MASK H)
           then set_INTEN (Z.land (INTEN u) (not32 (USPI_INTEN_TXSTIEN_Msk H))) u
           else u in
  let u := if selects u32Mask (USPI_TXEND_INT_MASK H)
           then set_INTEN (Z.land (INTEN u) (not32 (USPI_INTEN_TXENDIEN_Msk H))) u
           else u in
  let u := if selects u32Mask (USPI_RXST_INT_MASK H)
           then set_INTEN (Z.land (INTEN u) (not32 (USPI_INTEN_RXSTIEN_Msk H))) u
           else u in
  if selects u32Mask (USPI_RXEND_INT_MASK H)
  then set_INTEN (Z.land (INTEN u) (not32 (USPI_INTEN_RXENDIEN_Msk H))) u
  else u.

Definition USPI_GetIntFlag (u32Mask : Z) (u : USPI_regs) : Z :=
  let u32IntFlag := 0 in
  (* Check slave selection signal inactive interrupt flag *)
  let u32TmpFlag := Z.land (PROTSTS u) (USPI_PROTSTS_SSINAIF_Msk H) in
  let u32IntFlag :=
    if selects u32Mask (USPI_SSINACT_INT_MASK H)
       && (u32TmpFlag =? USPI_PROTSTS_SSINAIF_Msk H)
    then Z.lor u32IntFlag (USPI_SSINACT_INT_MASK H) else u32IntFlag in
  (* Check slave selection signal active interrupt flag *)
  let u32TmpFlag := Z.land (PROTSTS u) (USPI_PROTSTS_SSACTIF_Msk H) in
  let u32IntFlag :=
    if selects u32Mask (USPI_SSACT_INT_MASK H)
       && (u32TmpFlag =? USPI_PROTSTS_SSACTIF_Msk H)
    then Z.lor u32IntFlag (USPI_SSACT_INT_MASK H) else u32IntFlag in
  (* Check slave time-out interrupt flag *)
  let u32TmpFlag := Z.land (PROTSTS u) (USPI_PROTSTS_SLVTOIF_Msk H) in
  let u32IntFlag :=
    if selects u32Mask (USPI_SLVTO_INT_MASK H)
       && negb (Z.land u32TmpFlag (USPI_PROTSTS_SLVTOIF_Msk H) =? 0)
    then Z.lor u32IntFlag (USPI_SLVTO_INT_MASK H) else u32IntFlag in
  (* Check slave bit count error interrupt flag *)
  let u32TmpFlag := Z.land (PROTSTS u) (USPI_PROTSTS_SLVBEIF_Msk H) in
  let u32IntFlag :=
    if selects u32Mask (USPI_SLVBE_INT_MASK H)
       && (u32TmpFlag =? USPI_PROTSTS_SLVBEIF_Msk H)
    then Z.lor u32IntFlag (USPI_SLVBE_INT_MASK H) else u32IntFlag in
  (* Check TX under run interrupt flag *)
  let u32TmpFlag := Z.land (BUFSTS u) (USPI_BUFSTS_TXUDRIF_Msk H) in
  let u32IntFlag :=
    if selects u32Mask (USPI_TXUDR_INT_MASK H)
       && (u32TmpFlag =? USPI_BUFSTS_TXUDRIF_Msk H)
    then Z.lor u32IntFlag (USPI_TXUDR_INT_MASK H) else u32IntFlag in
  (* Check RX overrun interrupt flag *)
  let u32TmpFlag := Z.land (BUFSTS u) (USPI_BUFSTS_RXOVIF_Msk H) in
  let u32IntFlag :=
    if selects u32Mask (USPI_RXOV_INT_MASK H)
       && (u32TmpFlag =? USPI_BUFSTS_RXOVIF_Msk H)
    then Z.lor u32IntFlag (USPI_RXOV_INT_MASK H) else u32IntFlag in
  (* Check TX start interrupt flag *)
  let u32TmpFlag := Z.land (PROTSTS u) (USPI_PROTSTS_TXSTIF_Msk H) in
  let u32IntFlag :=
    if selects u32Mask (USPI_TXST_INT_MASK H)
       && (u32TmpFlag =? USPI_PROTSTS_TXSTIF_Msk H)
    then Z.lor u32IntFlag (USPI_TXST_INT_MASK H) else u32IntFlag in
  (* Check TX end interrupt flag *)
  let u32TmpFlag := Z.land (PROTSTS u) (USPI_PROTSTS_TXENDIF_Msk H) in
  let u32IntFlag :=
    if selects u32Mask (USPI_TXEND_INT_MASK H)
       && (u32TmpFlag =? USPI_PROTSTS_TXENDIF_Msk H)
    then Z.lor u32IntFlag (USPI_TXEND_INT_MASK H) else u32IntFlag in
  (* Check RX start interrupt flag *)
  let u32TmpFlag := Z.land (PROTSTS u) (USPI_PROTSTS_RXSTIF_Msk H) in
  let u32IntFlag :=
    if selects u32Mask (USPI_RXST_INT_MASK H)
       && (u32TmpFlag =? USPI_PROTSTS_RXSTIF_Msk H)
    then Z.lor u32IntFlag (USPI_RXST_INT_MASK H) else u32IntFlag in
  (* Check RX end interrupt flag *)
  let u32TmpFlag := Z.land (PROTSTS u) (USPI_PROTSTS_RXENDIF_Msk H) in
  let u32IntFlag :=
    if selects u32Mask (USPI_RXEND_INT_MASK H)
       && (u32TmpFlag =? USPI_PROTSTS_RXENDIF_Msk H)
    then Z.lor u32IntFlag (USPI_RXEND_INT_MASK H) else u32IntFlag in
  u32IntFlag.

Definition USPI_GetStatus (u32Mask : Z) (u : USPI_regs) : Z :=
  let u32Flag := 0 in
  (* Check busy status *)
  let u32TmpFlag := Z.land (PROTSTS u) (USPI_PROTSTS_BUSY_Msk H) in
  let u32Flag :=
    if selects u32Mask (USPI_BUSY_MASK H) && (u32TmpFlag =? USPI_PROTSTS_BUSY_Msk H)
    then Z.lor u32Flag (USPI_BUSY_MASK H) else u32Flag in
  (* Check RX empty flag *)
  let u32TmpFlag := Z.land (BUFSTS u) (USPI_BUFSTS_RXEMPTY_Msk H) in
  let u32Flag :=
    if selects u32Mask (USPI_RX_EMPTY_MASK H) && (u32TmpFlag =? USPI_BUFSTS_RXEMPTY_Msk H)
    then Z.lor u32Flag (USPI_RX_EMPTY_MASK H) else u32Flag in
  (* Check RX full flag *)
  let u32TmpFlag := Z.land (BUFSTS u) (USPI_BUFSTS_RXFULL_Msk H) in
  let u32Flag :=
    if selects u32Mask (USPI_RX_FULL_MASK H) && (u32TmpFlag =? USPI_BUFSTS_RXFULL_Msk H)
    then Z.lor u32Flag (USPI_RX_FULL_MASK H) else u32Flag in
  (* Check TX empty flag *)
  let u32TmpFlag := Z.land (BUFSTS u) (USPI_BUFSTS_TXEMPTY_Msk H) in
  let u32Flag :=
    if selects u32Mask (USPI_TX_EMPTY_MASK H) && (u32TmpFlag =? USPI_BUFSTS_TXEMPTY_Msk H)
    then Z.lor u32Flag (USPI_TX_EMPTY_MASK H) else u32Flag in
  (* Check TX full flag *)
  let u32TmpFlag := Z.land (BUFSTS u) (USPI_BUFSTS_TXFULL_Msk H) in
  let u32Flag :=
    if selects u32Mask (USPI_TX_FULL_MASK H) && (u32TmpFlag =? USPI_BUFSTS_TXFULL_Msk H)
    then Z.lor u32Flag (USPI_TX_FULL_MASK H) else u32Flag in
  (* Check USCI_SPI_SS line status *)
  let u32TmpFlag := Z.land (PROTSTS u) (USPI_PROTSTS_SSLINE_Msk H) in
  let u32Flag :=
    if selects u32Mask (USPI_SSLINE_STS_MASK H) && (u32TmpFlag =? USPI_PROTSTS_SSLINE_Msk H)
    then Z.lor u32Flag (USPI_SSLINE_STS_MASK H) else u32Flag in
  u32Flag.

End Driver.

(** *** The ten interrupt sources and six status sources, as tables *)

Inductive source :=
| SSINACT | SSACT | SLVTO | SLVBE | TXUDR | RXOV | TXST | TXEND | RXST | RXEND.

(** The bit of [u32Mask] that selects a source. *)
Definition INT_MASK (H : more_header) (s : source) : Z :=
  match s with
  | SSINACT => USPI_SSINACT_INT_MASK H
  | SSACT => USPI_SSACT_INT_MASK H
  | SLVTO => USPI_SLVTO_INT_MASK H
  | SLVBE => USPI_SLVBE_INT_MASK H
  | TXUDR => USPI_TXUDR_INT_MASK H
  | RXOV => USPI_RXOV_INT_MASK H
  | TXST => USPI_TXST_INT_MASK H
  | TXEND => USPI_TXEND_INT_MASK H
  | RXST => USPI_RXST_INT_MASK H
  | RXEND => USPI_RXEND_INT_MASK H
  end.

(** The register that holds a source's enable bit, and the bit. *)
Definition enable_reg (s : source) (u : USPI_regs) : Z :=
  match s with
  | SSINACT | SSACT | SLVTO | SLVBE => PROTIEN u
  | TXUDR | RXOV => BUFCTL u
  | TXST | TXEND | RXST | RXEND => INTEN u
  end.

Definition enable_bit (H : more_header) (s : source) : Z :=
  match s with
  | SSINACT => USPI_PROTIEN_SSINAIEN_Msk H
  | SSACT => USPI_PROTIEN_SSACTIEN_Msk H
  | SLVTO => USPI_PROTIEN_SLVTOIEN_Msk H
  | SLVBE => USPI_PROTIEN_SLVBEIEN_Msk H
  | TXUDR => USPI_BUFCTL_TXUDRIEN_Msk H
  | RXOV => USPI_BUFCTL_RXOVIEN_Msk H
  | TXST => USPI_INTEN_TXSTIEN_Msk H
  | TXEND => USPI_INTEN_TXENDIEN_Msk H
  | RXST => USPI_INTEN_RXSTIEN_Msk H
  | RXEND => USPI_INTEN_RXENDIEN_Msk H
  end.

(** Whether a source's flag is up, as [USPI_GetIntFlag] tests it: all bits
    of the flag mask set, except for the slave time-out flag, where any bit
    of the mask counts. *)
Definition raised (H : more_header) (s : source) (u : USPI_regs) : bool :=
  match s with
  | SSINACT => Z.land (PROTSTS u) (USPI_PROTSTS_SSINAIF_Msk H) =? USPI_PROTSTS_SSINAIF_Msk H
  | SSACT => Z.land (PROTSTS u) (USPI_PROTSTS_SSACTIF_Msk H) =? USPI_PROTSTS_SSACTIF_Msk H
  | SLVTO => negb (Z.land (Z.land (PROTSTS u) (USPI_PROTSTS_SLVTOIF_Msk H))
                          (USPI_PROTSTS_SLVTOIF_Msk H) =? 0)
  | SLVBE => Z.land (PROTSTS u) (USPI_PROTSTS_SLVBEIF_Msk H) =? USPI_PROTSTS_SLVBEIF_Msk H
  | TXUDR => Z.land (BUFSTS u) (USPI_BUFSTS_TXUDRIF_Msk H) =? USPI_BUFSTS_TXUDRIF_Msk H
  | RXOV => Z.land (BUFSTS u) (USPI_BUFSTS_RXOVIF_Msk H) =? USPI_BUFSTS_RXOVIF_Msk H
  | TXST => Z.land (PROTSTS u) (USPI_PROTSTS_TXSTIF_Msk H) =? USPI_PROTSTS_TXSTIF_Msk H
  | TXEND => Z.land (PROTSTS u) (USPI_PROTSTS_TXENDIF_Msk H) =? USPI_PROTSTS_TXENDIF_Msk H
  | RXST => Z.land (PROTSTS u) (USPI_PROTSTS_RXSTIF_Msk H) =? USPI_PROTSTS_RXSTIF_Msk H
  | RXEND => Z.land (PROTSTS u) (USPI_PROTSTS_RXENDIF_Msk H) =? USPI_PROTSTS_RXENDIF_Msk H
  end.

Inductive status := BUSY | RX_EMPTY | RX_FULL | TX_EMPTY | TX_FULL | SSLINE_STS.

Definition STATUS_MASK (H : more_header) (s : status) : Z :=
  match s with
  | BUSY => USPI_BUSY_MASK H
  | RX_EMPTY => USPI_RX_EMPTY_MASK H
  | RX_FULL => USPI_RX_FULL_MASK H
  | TX_EMPTY => USPI_TX_EMPTY_MASK H
  | TX_FULL => USPI_TX_FULL_MASK H
  | SSLINE_STS => USPI_SSLINE_STS_MASK H
  end.

Definition status_up (H : more_header) (s : status) (u : USPI_regs) : bool :=
  match s with
  | BUSY => Z.land (PROTSTS u) (USPI_PROTSTS_BUSY_Msk H) =? USPI_PROTSTS_BUSY_Msk H
  | RX_EMPTY => Z.land (BUFSTS u) (USPI_BUFSTS_RXEMPTY_Msk H) =? USPI_BUFSTS_RXEMPTY_Msk H
  | RX_FULL => Z.land (BUFSTS u) (USPI_BUFSTS_RXFULL_Msk H) =? USPI_BUFSTS_RXFULL_Msk H
  | TX_EMPTY => Z.land (BUFSTS u) (USPI_BUFSTS_TXEMPTY_Msk H) =? USPI_BUFSTS_TXEMPTY_Msk H
  | TX_FULL => Z.land (BUFSTS u) (USPI_BUFSTS_TXFULL_Msk H) =? USPI_BUFSTS_TXFULL_Msk H
  | SSLINE_STS => Z.land (PROTSTS u) (USPI_PROTSTS_SSLINE_Msk H) =? USPI_PROTSTS_SSLINE_Msk H
  end.

End USPI_More.

(** ** The macros of [hsotg.h] and [otg.h] *)

Module HSOTG.

(** The macros of [hsotg_reg.h] that [hsotg.h] uses, taken as a
    parameter. *)
Record header := mkHeader {
  HSOTG_CTL_OTGEN_Msk : Z;
  HSOTG_CTL_WKEN_Msk : Z;
  HSOTG_PHYCTL_OTGPHYEN_Msk : Z;
  HSOTG_PHYCTL_IDDETEN_Msk : Z;
  HSOTG_PHYCTL_VBENPOL_Msk : Z;
  HSOTG_PHYCTL_VBENPOL_Pos : Z;
  HSOTG_PHYCTL_VBSTSPOL_Msk : Z;
  HSOTG_PHYCTL_VBSTSPOL_Pos : Z;
  HSOTG_PHYCTL_OCPOL_Msk : Z;
  HSOTG_PHYCTL_OCPOL_Pos : Z;
  HSOTG_PHYCTL_FSEL_Msk : Z;
  HSOTG_PHYCTL_FSEL_Pos : Z
}.

Record HSOTG_T := mkHSOTG {
  CTL : Z;
  PHYCTL : Z;
  INTEN : Z;
  INTSTS : Z;
  STATUS : Z
}.

Definition set_CTL (v : Z) (o : HSOTG_T) : HSOTG_T :=
  mkHSOTG v (PHYCTL o) (INTEN o) (INTSTS o) (STATUS o).
Definition set_PHYCTL (v : Z) (o : HSOTG_T) : HSOTG_T :=
  mkHSOTG (CTL o) v (INTEN o) (INTSTS o) (STATUS o).
Definition set_INTEN (v : Z) (o : HSOTG_T) : HSOTG_T :=
  mkHSOTG (CTL o) (PHYCTL o) v (INTSTS o) (STATUS o).
Definition set_INTSTS (v : Z) (o : HSOTG_T) : HSOTG_T :=
  mkHSOTG (CTL o) (PHYCTL o) (INTEN o) v (STATUS o).

Definition HSOTG_VBUS_EN_ACTIVE_HIGH : Z := 0.
Definition HSOTG_VBUS_EN_ACTIVE_LOW : Z := 1.
Definition HSOTG_VBUS_ST_VALID_HIGH : Z := 0.
Definition HSOTG_VBUS_ST_VALID_LOW : Z := 1.
Definition HSOTG_VBUS_OC_VALID_HIGH : Z := 1.
Definition HSOTG_VBUS_OC_VALID_LOW : Z := 0.

Section Macros.

Variable K : header.

Definition HSOTG_PHYCTL_FSEL_19_2M : Z := shl32 0 (HSOTG_PHYCTL_FSEL_Pos K).
Definition HSOTG_PHYCTL_FSEL_20_0M : Z := shl32 1 (HSOTG_PHYCTL_FSEL_Pos K).
Definition HSOTG_PHYCTL_FSEL_24_0M : Z := shl32 2 (HSOTG_PHYCTL_FSEL_Pos K).
Definition HSOTG_PHYCTL_FSEL_16_0M : Z := shl32 3 (HSOTG_PHYCTL_FSEL_Pos K).
Definition HSOTG_PHYCTL_FSEL_26_0M : Z := shl32 6 (HSOTG_PHYCTL_FSEL_Pos K).
Definition HSOTG_PHYCTL_FSEL_32_0M : Z := shl32 7 (HSOTG_PHYCTL_FSEL_Pos K).

Definition HSOTG_ENABLE (o : HSOTG_T) : HSOTG_T :=
  set_CTL (Z.lor (CTL o) (HSOTG_CTL_OTGEN_Msk K)) o.
Definition HSOTG_DISABLE (o : HSOTG_T) : HSOTG_T :=
  set_CTL (Z.land (CTL o) (not32 (HSOTG_CTL_OTGEN_Msk K))) o.
Definition HSOTG_ENABLE_PHY (o : HSOTG_T) : HSOTG_T :=
  set_PHYCTL (Z.lor (PHYCTL o) (HSOTG_PHYCTL_OTGPHYEN_Msk K)) o.
Definition HSOTG_DISABLE_PHY (o : HSOTG_T) : HSOTG_T :=
  set_PHYCTL (Z.land (PHYCTL o) (not32 (HSOTG_PHYCTL_OTGPHYEN_Msk K))) o.
Definition HSOTG_ENABLE_ID_DETECT (o : HSOTG_T) : HSOTG_T :=
  set_PHYCTL (Z.lor (PHYCTL o) (HSOTG_PHYCTL_IDDETEN_Msk K)) o.
Definition HSOTG_DISABLE_ID_DETECT (o : HSOTG_T) : HSOTG_T :=
  set_PHYCTL (Z.land (PHYCTL o) (not32 (HSOTG_PHYCTL_IDDETEN_Msk K))) o.
Definition HSOTG_ENABLE_WAKEUP (o : HSOTG_T) : HSOTG_T :=
  set_CTL (Z.lor (CTL o) (HSOTG_CTL_WKEN_Msk K)) o.
Definition HSOTG_DISABLE_WAKEUP (o : HSOTG_T) : HSOTG_T :=
  set_CTL (Z.land (CTL o) (not32 (HSOTG_CTL_WKEN_Msk K))) o.
Definition HSOTG_SET_VBUS_EN_POL (u32Pol : Z) (o : HSOTG_T) : HSOTG_T :=
  set_PHYCTL (Z.lor (Z.land (PHYCTL o) (not32 (HSOTG_PHYCTL_VBENPOL_Msk K)))
                    (shl32 u32Pol (HSOTG_PHYCTL_VBENPOL_Pos K))) o.
Definition HSOTG_SET_VBUS_STS_POL (u32Pol : Z) (o : HSOTG_T) : HSOTG_T :=
  set_PHYCTL (Z.lor (Z.land (PHYCTL o) (not32 (HSOTG_PHYCTL_VBSTSPOL_Msk K)))
                    (shl32 u32Pol (HSOTG_PHYCTL_VBSTSPOL_Pos K))) o.
Definition HSOTG_SET_VBUS_OC_POL (u32Pol : Z) (o : HSOTG_T) : HSOTG_T :=
  set_PHYCTL (Z.lor (Z.land (PHYCTL o) (not32 (HSOTG_PHYCTL_OCPOL_Msk K)))
                    (shl32 u32Pol (HSOTG_PHYCTL_OCPOL_Pos K))) o.
Definition HSOTG_SET_PHY_REF_CLK (u32RefClock : Z) (o : HSOTG_T) : HSOTG_T :=
  set_PHYCTL (Z.lor (Z.land (PHYCTL o) (not32 (HSOTG_PHYCTL_FSEL_Msk K))) u32RefClock) o.

End Macros.

Definition HSOTG_ENABLE_INT (u32Mask : Z) (o : HSOTG_T) : HSOTG_T :=
  set_INTEN (Z.lor (INTEN o) u32Mask) o.
Definition HSOTG_DISABLE_INT (u32Mask : Z) (o : HSOTG_T) : HSOTG_T :=
  set_INTEN (Z.land (INTEN o) (not32 u32Mask)) o.
Definition HSOTG_GET_INT_FLAG (u32Mask : Z) (o : HSOTG_T) : Z :=
  Z.land (INTSTS o) u32Mask.
Definition HSOTG_CLR_INT_FLAG (u32Mask : Z) (o : HSOTG_T) : HSOTG_T :=
  set_INTSTS u32Mask o.
Definition HSOTG_GET_STATUS (u32Mask : Z) (o : HSOTG_T) : Z :=
  Z.land (STATUS o) u32Mask.

(** The six reference-clock selectors the header defines. *)
Definition ref_clocks (K : header) : list Z :=
  [ HSOTG_PHYCTL_FSEL_19_2M K; HSOTG_PHYCTL_FSEL_20_0M K; HSOTG_PHYCTL_FSEL_24_0M K;
    HSOTG_PHYCTL_FSEL_16_0M K; HSOTG_PHYCTL_FSEL_26_0M K; HSOTG_PHYCTL_FSEL_32_0M K ].

End HSOTG.

Module OTG.

(** The macros of [otg_reg.h] that [otg.h] uses, taken as a parameter. *)
Record header := mkHeader {
  OTG_CTL_OTGEN_Msk : Z;
  OTG_CTL_WKEN_Msk : Z;
  OTG_PHYCTL_OTGPHYEN_Msk : Z;
  OTG_PHYCTL_IDDETEN_Msk : Z;
  OTG_PHYCTL_VBENPOL_Msk : Z;
  OTG_PHYCTL_VBENPOL_Pos : Z;
  OTG_PHYCTL_VBSTSPOL_Msk : Z;
  OTG_PHYCTL_VBSTSPOL_Pos : Z
}.

Record OTG_T := mkOTG {
  CTL : Z;
  PHYCTL : Z;
  INTEN : Z;
  INTSTS : Z;
  STATUS : Z
}.

Definition set_CTL (v : Z) (o : OTG_T) : OTG_T :=
  mkOTG v (PHYCTL o) (INTEN o) (INTSTS o) (STATUS o).
Definition set_PHYCTL (v : Z) (o : OTG_T) : OTG_T :=
  mkOTG (CTL o) v (INTEN o) (INTSTS o) (STATUS o).
Definition set_INTEN (v : Z) (o : OTG_T) : OTG_T :=
  mkOTG (CTL o) (PHYCTL o) v (INTSTS o) (STATUS o).
Definition set_INTSTS (v : Z) (o : OTG_T) : OTG_T :=
  mkOTG (CTL o) (PHYCTL o) (INTEN o) v (STATUS o).

Definition OTG_VBUS_EN_ACTIVE_HIGH : Z := 0.
Definition OTG_VBUS_EN_ACTIVE_LOW : Z := 1.
Definition OTG_VBUS_ST_VALID_HIGH : Z := 0.
Definition OTG_VBUS_ST_VALID_LOW : Z := 1.

Section Macros.

Variable K : header.

Definition OTG_ENABLE (o : OTG_T) : OTG_T :=
  set_CTL (Z.lor (CTL o) (OTG_CTL_OTGEN_Msk K)) o.
Definition OTG_DISABLE (o : OTG_T) : OTG_T :=
  set_CTL (Z.land (CTL o) (not32 (OTG_CTL_OTGEN_Msk K))) o.
Definition OTG_ENABLE_PHY (o : OTG_T) : OTG_T :=
  set_PHYCTL (Z.lor (PHYCTL o) (OTG_PHYCTL_OTGPHYEN_Msk K)) o.
Definition OTG_DISABLE_PHY (o : OTG_T) : OTG_T :=
  set_PHYCTL (Z.land (PHYCTL o) (not32 (OTG_PHYCTL_OTGPHYEN_Msk K))) o.
Definition OTG_ENABLE_ID_DETECT (o : OTG_T) : OTG_T :=
  set_PHYCTL (Z.lor (PHYCTL o) (OTG_PHYCTL_IDDETEN_Msk K)) o.
Definition OTG_DISABLE_ID_DETECT (o : OTG_T) : OTG_T :=
  set_PHYCTL (Z.land (PHYCTL o) (not32 (OTG_PHYCTL_IDDETEN_Msk K))) o.
Definition OTG_ENABLE_WAKEUP (o : OTG_T) : OTG_T :=
  set_CTL (Z.lor (CTL o) (OTG_CTL_WKEN_Msk K)) o.
Definition OTG_DISABLE_WAKEUP (o : OTG_T) : OTG_T :=
  set_CTL (Z.land (CTL o) (not32 (OTG_CTL_WKEN_Msk K))) o.
Definition OTG_SET_VBUS_EN_POL (u32Pol : Z) (o : OTG_T) : OTG_T :=
  set_PHYCTL (Z.lor (Z.land (PHYCTL o) (not32 (OTG_PHYCTL_VBENPOL_Msk K)))
                    (shl32 u32Pol (OTG_PHYCTL_VBENPOL_Pos K))) o.
Definition OTG_SET_VBUS_STS_POL (u32Pol : Z) (o : OTG_T) : OTG_T :=
  set_PHYCTL (Z.lor (Z.land (PHYCTL o) (not32 (OTG_PHYCTL_VBSTSPOL_Msk K)))
                    (shl32 u32Pol (OTG_PHYCTL_VBSTSPOL_Pos K))) o.

End Macros.

Definition OTG_ENABLE_INT (u32Mask : Z) (o : OTG_T) : OTG_T :=
  set_INTEN (Z.lor (INTEN o) u32Mask) o.
Definition OTG_DISABLE_INT (u32Mask : Z) (o : OTG_T) : OTG_T :=
  set_INTEN (Z.land (INTEN o) (not32 u32Mask)) o.
Definition OTG_GET_INT_FLAG (u32Mask : Z) (o : OTG_T) : Z :=
  Z.land (INTSTS o) u32Mask.
Definition OTG_CLR_INT_FLAG (u32Mask : Z) (o : OTG_T) : OTG_T :=
  set_INTSTS u32Mask o.
Definition OTG_GET_STATUS (u32Mask : Z) (o : OTG_T) : Z :=
  Z.land (STATUS o) u32Mask.

End OTG.

(** ** More sample configurations *)

Module Sample_More.

Definition more_h : USPI_More.more_header :=
  USPI_More.mkMore 0x4
    0x001 0x002 0x004 0x008 0x010 0x020 0x040 0x080 0x100 0x200
    0x1 0x2 0x4 0x8 0x40 0x80 0x2 0x4 0x8 0x10
    0x10 0x20 0x40 0x80 0x800 0x8 0x2 0x4 0x8 0x10
    0x01 0x02 0x04 0x08 0x10 0x20
    0x20000 0x1 0x2 0x100 0x200 0x40000.

Definition hsotg_h : HSOTG.header :=
  HSOTG.mkHeader 0x10 0x20 0x1 0x2 0x10 4 0x20 5 0x40 6 0x700 8.

Definition otg_h : OTG.header :=
  OTG.mkHeader 0x10 0x20 0x1 0x2 0x10 4 0x20 5.

End Sample_More.

(** * Properties of the EADC driver *)

Section EADC_Properties.
Import EADC.
Variable K : header.
Variable hw : list event -> EADC_T -> EADC_T.

Lemma budget_range d : 1 <= budget d <= 2 ^ 32.
Proof.
  unfold budget, u32.
  pose proof (Z.mod_pos_bound (d - 1) (2 ^ 32)). lia.
Qed.

Lemma budget_step d : u32 (d - 1) <> 0 -> budget (u32 (d - 1)) = budget d - 1.
Proof.
  unfold budget, u32. intros H.
  pose proof (Z.mod_pos_bound (d - 1) (2 ^ 32)).
  rewrite (Z.mod_small ((d - 1) mod 2 ^ 32 - 1)) by lia. lia.
Qed.

Lemma budget_seed d : 1 <= d < 2 ^ 32 -> budget d = d.
Proof.
  intros H. unfold budget, u32. rewrite Z.mod_small by lia. lia.
Qed.

(** What a wait does: it only adds polling reads of its register to the
    trace, leaves the clock controller and the core clock alone, and sets
    the error code exactly when its countdown runs out. *)
Lemma busy_wait_run r cond d m :
  exists vs b,
    trace (busy_wait K hw r cond d m) = trace m ++ map (Poll r) vs /\
    CLK (busy_wait K hw r cond d m) = CLK m /\
    SystemCoreClock (busy_wait K hw r cond d m) = SystemCoreClock m /\
    wait_outcome cond d vs b /\
    g_EADC_i32ErrCode (busy_wait K hw r cond d m) =
      (if b then EADC_TIMEOUT_ERR K else g_EADC_i32ErrCode m).
Proof.
  funelim (busy_wait K hw r cond d m); clear Heqcall.
  - cbn [trace CLK SystemCoreClock g_EADC_i32ErrCode].
    match goal with |- context [Poll r ?x] => set (v := x) in * end.
    exists [v], false. repeat split; auto.
    apply (Released cond u32Delay [] v); auto.
    cbn. pose proof (budget_range u32Delay). lia.
  - cbn [trace CLK SystemCoreClock g_EADC_i32ErrCode set_ErrCode].
    match goal with |- context [Poll r ?x] => set (v := x) in * end.
    exists [v], true. repeat split; auto.
    apply Exhausted; auto. cbn. unfold budget. lia.
  - match goal with IH : exists _, _ |- _ =>
      destruct IH as (vs & b & Ht & Hc & Hs & Ho & He) end.
    cbn [trace CLK SystemCoreClock g_EADC_i32ErrCode] in *.
    match type of Ht with context [Poll r ?x] => set (v := x) in * end.
    exists (v :: vs), b. rewrite Ht, <- app_assoc. repeat split; auto.
    destruct Ho as [vs Ha Hl | vs w Ha Hw Hl]; rewrite budget_step in Hl by assumption.
    + apply Exhausted; auto. cbn [length]. lia.
    + apply (Released cond u32Delay (v :: vs) w); auto. cbn [length]. lia.
Qed.

Lemma CLK_eta c : mkCLK (EADCSEL c) (EADCDIV c) = c.
Proof. destruct c; reflexivity. Qed.

(** The call when the finished flag is already up: five stores, no wait. *)
Lemma Calibration_skip m :
  Z.land (CALSR (eadc m)) (EADC_CALSR_CALIF_Msk K) <> 0 ->
  EADC_Calibration K hw m =
    mkMachine (SystemCoreClock m) 0 (CLK m)
      (mkEADC (Z.lor (CTL (eadc m)) (EADC_CTL_ADCEN_Msk K))
              (CALSR (eadc m)) (CALCTL (eadc m)) (SCTL (eadc m)) (SCTL19 (eadc m))
              (WORD_FF0 (eadc m)))
      (trace m ++ prologue K m ++ epilogue m).
Proof.
  intros H. unfold EADC_Calibration.
  cbn [set_ErrCode store load write CLK eadc trace SystemCoreClock g_EADC_i32ErrCode
       EADCSEL EADCDIV CTL CALSR CALCTL SCTL SCTL19 WORD_FF0].
  apply Z.eqb_neq in H. rewrite H.
  cbn [set_ErrCode store load write CLK eadc trace SystemCoreClock g_EADC_i32ErrCode
       EADCSEL EADCDIV CTL CALSR CALCTL SCTL SCTL19 WORD_FF0].
  rewrite CLK_eta. unfold prologue, epilogue.
  repeat rewrite <- app_assoc. reflexivity.
Qed.

(** The call when the flag is down: reset, first wait, the two calibration
    stores, second wait, restore; the error code is the timeout code when a
    wait ran out and zero otherwise. *)
Lemma Calibration_run m :
  Z.land (CALSR (eadc m)) (EADC_CALSR_CALIF_Msk K) = 0 ->
  exists vs1 b1 vs2 b2 x y,
    trace (EADC_Calibration K hw m) =
      trace m ++ prologue K m ++ [reset_command K m] ++ map (Poll EADC_CTL) vs1 ++
      [Store EADC_CALSR x; Store EADC_CALCTL y] ++ map (Poll EADC_CALSR) vs2 ++
      epilogue m /\
    CLK (EADC_Calibration K hw m) = CLK m /\
    SystemCoreClock (EADC_Calibration K hw m) = SystemCoreClock m /\
    wait_outcome (in_reset K) (SystemCoreClock m) vs1 b1 /\
    wait_outcome (not_finished K) (SystemCoreClock m / 20) vs2 b2 /\
    g_EADC_i32ErrCode (EADC_Calibration K hw m) =
      (if b1 || b2 then EADC_TIMEOUT_ERR K else 0).
Proof.
  intros H. unfold EADC_Calibration, EADC_CONV_RESET.
  cbn [set_ErrCode store load write CLK eadc trace SystemCoreClock g_EADC_i32ErrCode
       EADCSEL EADCDIV CTL CALSR CALCTL SCTL SCTL19 WORD_FF0].
  apply Z.eqb_eq in H. rewrite H.
  match goal with |- context [busy_wait K hw EADC_CTL (in_reset K) ?d ?m1] =>
    destruct (busy_wait_run EADC_CTL (in_reset K) d m1) as (vs1 & b1 & Ht1 & Hc1 & Hs1 & Ho1 & He1);
    set (mA := busy_wait K hw EADC_CTL (in_reset K) d m1) in *
  end.
  cbn [set_ErrCode store load write CLK eadc trace SystemCoreClock g_EADC_i32ErrCode
       EADCSEL EADCDIV CTL CALSR CALCTL SCTL SCTL19 WORD_FF0] in *.
  match goal with |- context [busy_wait K hw EADC_CALSR (not_finished K) ?d ?m1] =>
    destruct (busy_wait_run EADC_CALSR (not_finished K) d m1) as (vs2 & b2 & Ht2 & Hc2 & Hs2 & Ho2 & He2);
    set (mB := busy_wait K hw EADC_CALSR (not_finished K) d m1) in *
  end.
  cbn [set_ErrCode store load write CLK eadc trace SystemCoreClock g_EADC_i32ErrCode
       EADCSEL EADCDIV CTL CALSR CALCTL SCTL SCTL19 WORD_FF0] in *.
  exists vs1, b1, vs2, b2.
  eexists. eexists.
  rewrite Hs1 in *.
  repeat split.
  - rewrite Ht2, Ht1. unfold prologue, epilogue, reset_command.
    repeat rewrite <- app_assoc. cbn [app]. reflexivity.
  - rewrite CLK_eta. reflexivity.
  - rewrite Hs2. reflexivity.
  - exact Ho1.
  - exact Ho2.
  - rewrite He2, He1. destruct b1, b2; reflexivity.
Qed.

End EADC_Properties.

(** ** Counting loop iterations in a trace *)

Section Iterations.
Import EADC.

Lemma reg_eqb_refl r : reg_eqb r r = true.
Proof. destruct r; cbn; auto using Z.eqb_refl. Qed.

Lemma iterations_app r c a b :
  iterations r c (a ++ b) = iterations r c a + iterations r c b.
Proof.
  unfold iterations. rewrite filter_app, length_app. lia.
Qed.

Lemma iterations_polls r c vs :
  iterations r c (map (Poll r) vs) = Z.of_nat (length (filter c vs)).
Proof.
  unfold iterations. f_equal.
  induction vs as [|v vs IH]; cbn; auto.
  rewrite reg_eqb_refl. cbn. destruct (c v); cbn; auto.
Qed.

Lemma iterations_polls_other r r' c vs :
  reg_eqb r r' = false -> iterations r c (map (Poll r') vs) = 0.
Proof.
  intros H. unfold iterations.
  induction vs as [|v vs IH]; cbn; auto.
  rewrite H. cbn. exact IH.
Qed.

Lemma filter_all (c : Z -> bool) vs :
  Forall (fun v => c v = true) vs -> filter c vs = vs.
Proof.
  induction 1 as [|v vs Hv _ IH]; cbn; auto.
  rewrite Hv, IH. reflexivity.
Qed.

(** The body of a wait runs once for each read that found the condition
    true: [budget d] times when the countdown ran out, fewer otherwise. *)
Lemma outcome_count c d vs b :
  wait_outcome c d vs b ->
  0 <= Z.of_nat (length (filter c vs)) <= budget d /\
  Z.of_nat (length vs) <= budget d /\
  (Z.of_nat (length (filter c vs)) =? budget d) = b.
Proof.
  intros [vs' Ha Hl | vs' v Ha Hv Hl].
  - rewrite filter_all by assumption. rewrite Hl, Z.eqb_refl. lia.
  - rewrite filter_app, filter_all by assumption. cbn. rewrite Hv.
    rewrite app_nil_r, length_app. cbn [length].
    split; [lia|]. split; [lia|]. apply Z.eqb_neq. lia.
Qed.

End Iterations.

Section EADC_Calibration_Summary.
Import EADC.
Variable K : header.
Variable hw : list event -> EADC_T -> EADC_T.

(** Everything an observer learns from one call of [EADC_Calibration]. *)
Lemma Calibration_summary m :
  exists evs,
    trace (EADC_Calibration K hw m) = trace m ++ evs /\
    CLK (EADC_Calibration K hw m) = CLK m /\
    SystemCoreClock (EADC_Calibration K hw m) = SystemCoreClock m /\
    0 <= iterations EADC_CTL (in_reset K) evs <= budget (SystemCoreClock m) /\
    0 <= iterations EADC_CALSR (not_finished K) evs <= budget (SystemCoreClock m / 20) /\
    g_EADC_i32ErrCode (EADC_Calibration K hw m) =
      (if (iterations EADC_CTL (in_reset K) evs =? budget (SystemCoreClock m))
          || (iterations EADC_CALSR (not_finished K) evs =? budget (SystemCoreClock m / 20))
       then EADC_TIMEOUT_ERR K else 0) /\
    (Z.land (CALSR (eadc m)) (EADC_CALSR_CALIF_Msk K) <> 0 ->
     evs = prologue K m ++ epilogue m) /\
    (Z.land (CALSR (eadc m)) (EADC_CALSR_CALIF_Msk K) = 0 ->
     exists vs1 vs2 x y,
       evs = prologue K m ++ [reset_command K m] ++ map (Poll EADC_CTL) vs1 ++
             [Store EADC_CALSR x; Store EADC_CALCTL y] ++
             map (Poll EADC_CALSR) vs2 ++ epilogue m).
Proof.
  destruct (Z.eq_dec (Z.land (CALSR (eadc m)) (EADC_CALSR_CALIF_Msk K)) 0) as [H|H].
  - destruct (Calibration_run K hw m H)
      as (vs1 & b1 & vs2 & b2 & x & y & Ht & Hc & Hs & Ho1 & Ho2 & He).
    destruct (outcome_count _ _ _ _ Ho1) as (Hi1 & _ & Hb1).
    destruct (outcome_count _ _ _ _ Ho2) as (Hi2 & _ & Hb2).
    eexists. split; [exact Ht|].
    assert (I1 : iterations EADC_CTL (in_reset K)
              (prologue K m ++ [reset_command K m] ++ map (Poll EADC_CTL) vs1 ++
               [Store EADC_CALSR x; Store EADC_CALCTL y] ++
               map (Poll EADC_CALSR) vs2 ++ epilogue m)
            = Z.of_nat (length (filter (in_reset K) vs1))).
    { repeat rewrite iterations_app. rewrite iterations_polls.
      rewrite iterations_polls_other by reflexivity.
      unfold iterations; cbn; lia. }
    assert (I2 : iterations EADC_CALSR (not_finished K)
              (prologue K m ++ [reset_command K m] ++ map (Poll EADC_CTL) vs1 ++
               [Store EADC_CALSR x; Store EADC_CALCTL y] ++
               map (Poll EADC_CALSR) vs2 ++ epilogue m)
            = Z.of_nat (length (filter (not_finished K) vs2))).
    { repeat rewrite iterations_app. rewrite iterations_polls.
      rewrite iterations_polls_other by reflexivity.
      unfold iterations; cbn; lia. }
    rewrite I1, I2, Hb1, Hb2.
    split; [exact Hc|]. split; [exact Hs|]. split; [exact Hi1|]. split; [exact Hi2|].
    split; [exact He|]. split.
    + intros H'. contradiction.
    + intros _. exists vs1, vs2, x, y. reflexivity.
  - rewrite (Calibration_skip K hw m H).
    cbn [trace CLK SystemCoreClock g_EADC_i32ErrCode].
    eexists. split; [reflexivity|].
    pose proof (budget_range (SystemCoreClock m)).
    pose proof (budget_range (SystemCoreClock m / 20)).
    assert (I1 : iterations EADC_CTL (in_reset K) (prologue K m ++ epilogue m) = 0)
      by reflexivity.
    assert (I2 : iterations EADC_CALSR (not_finished K) (prologue K m ++ epilogue m) = 0)
      by reflexivity.
    rewrite I1, I2.
    split; [reflexivity|]. split; [reflexivity|]. split; [lia|]. split; [lia|]. split.
    + destruct (Z.eqb_spec 0 (budget (SystemCoreClock m))); [lia|].
      destruct (Z.eqb_spec 0 (budget (SystemCoreClock m / 20))); [lia|]. reflexivity.
    + split; [reflexivity|]. intros H'. contradiction.
Qed.

End EADC_Calibration_Summary.

(** ** The claims about [EADC_Calibration] *)

Section EADC_Calibration_Claims.
Import EADC.
Variable K : header.
Variable hw : list event -> EADC_T -> EADC_T.

(** The loop of [busy_wait], one turn at a time. *)
Lemma busy_wait_loop r cond d m :
  busy_wait K hw r cond d m =
    (let '(v, m1) := poll hw r m in
     if cond v then
       if u32 (d - 1) =? 0 then set_ErrCode (EADC_TIMEOUT_ERR K) m1
       else busy_wait K hw r cond (u32 (d - 1)) m1
     else m1).
Proof.
  rewrite busy_wait_unfold_eq. unfold busy_wait_unfold.
  destruct (poll hw r m) as [v m1]. cbn.
  destruct (cond v); cbn; auto.
  destruct (Z.eq_dec (u32 (d - 1)) 0) as [e|n]; cbn.
  - rewrite e. reflexivity.
  - apply Z.eqb_neq in n. rewrite n. reflexivity.
Qed.

(** C1. When CALIF is already set in CALSR on entry, the call makes exactly
    five stores: the two that reprogram the clock, the one that sets ADCEN,
    and the two that restore the clock.  CTL is stored once (the enable, not
    the reset command), CALCTL and CALSR are not stored at all (no
    calibration start), and EADCSEL and EADCDIV hold their entry values on
    return. *)
Theorem EADC_Calibration_already_finished m :
  Z.land (CALSR (eadc m)) (EADC_CALSR_CALIF_Msk K) <> 0 ->
  exists evs,
    trace (EADC_Calibration K hw m) = trace m ++ evs /\
    evs = prologue K m ++ epilogue m /\
    stores_to EADC_CTL evs = [Z.lor (CTL (eadc m)) (EADC_CTL_ADCEN_Msk K)] /\
    stores_to EADC_CALCTL evs = [] /\
    stores_to EADC_CALSR evs = [] /\
    EADCSEL (CLK (EADC_Calibration K hw m)) = EADCSEL (CLK m) /\
    EADCDIV (CLK (EADC_Calibration K hw m)) = EADCDIV (CLK m).
Proof.
  intros H. rewrite (Calibration_skip K hw m H).
  exists (prologue K m ++ epilogue m).
  cbn [trace CLK]. repeat split; reflexivity.
Qed.

(** C2. Whatever the registers hold on entry and whatever the converter does
    while it is polled, the last two bus accesses of the call store the
    values EADCSEL and EADCDIV had on entry back into them, and on return the
    two registers hold those values. *)
Theorem EADC_Calibration_restores_clock m :
  EADCSEL (CLK (EADC_Calibration K hw m)) = EADCSEL (CLK m) /\
  EADCDIV (CLK (EADC_Calibration K hw m)) = EADCDIV (CLK m) /\
  exists t,
    trace (EADC_Calibration K hw m) =
      t ++ [Store CLK_EADCSEL (EADCSEL (CLK m)); Store CLK_EADCDIV (EADCDIV (CLK m))].
Proof.
  destruct (Calibration_summary K hw m)
    as (evs & Ht & Hc & _ & _ & _ & _ & Hskip & Hrun).
  rewrite Hc. split; [reflexivity|]. split; [reflexivity|].
  rewrite Ht.
  destruct (Z.eq_dec (Z.land (CALSR (eadc m)) (EADC_CALSR_CALIF_Msk K)) 0) as [H|H].
  - destruct (Hrun H) as (vs1 & vs2 & x & y & ->).
    eexists. unfold epilogue. repeat rewrite app_assoc. reflexivity.
  - rewrite (Hskip H).
    eexists. unfold epilogue. repeat rewrite app_assoc. reflexivity.
Qed.


(** C4. The clock set-up stores [(EADCSEL & EADC0SEL_Msk) | PCLK0] and
    [EADCDIV & EADC0DIV_Msk]: the masks are not complemented, so the old
    source bits stay in the source field and the old divider stays in the
    divider field.  Whenever the old source field has a bit that PCLK0's
    encoding lacks, the source programmed for calibration is not PCLK0, and
    whenever the old divider is not zero, the divider is not cleared. *)
Theorem EADC_Calibration_keeps_clock_fields m :
  Z.lor (Z.land (EADCSEL (CLK m)) (CLK_EADCSEL_EADC0SEL_Msk K))
        (Z.land (CLK_EADCSEL_EADC0SEL_PCLK0 K) (CLK_EADCSEL_EADC0SEL_Msk K))
    <> Z.land (CLK_EADCSEL_EADC0SEL_PCLK0 K) (CLK_EADCSEL_EADC0SEL_Msk K) ->
  Z.land (EADCDIV (CLK m)) (CLK_EADCDIV_EADC0DIV_Msk K) <> 0 ->
  exists sel div rest,
    trace (EADC_Calibration K hw m) =
      trace m ++ Store CLK_EADCSEL sel :: Store CLK_EADCDIV div :: rest /\
    Z.land sel (CLK_EADCSEL_EADC0SEL_Msk K)
      <> Z.land (CLK_EADCSEL_EADC0SEL_PCLK0 K) (CLK_EADCSEL_EADC0SEL_Msk K) /\
    Z.land div (CLK_EADCDIV_EADC0DIV_Msk K)
      = Z.land (EADCDIV (CLK m)) (CLK_EADCDIV_EADC0DIV_Msk K) /\
    Z.land div (CLK_EADCDIV_EADC0DIV_Msk K) <> 0.
Proof.
  intros Hsel Hdiv.
  assert (Hd : Z.land (Z.land (EADCDIV (CLK m)) (CLK_EADCDIV_EADC0DIV_Msk K))
                      (CLK_EADCDIV_EADC0DIV_Msk K)
               = Z.land (EADCDIV (CLK m)) (CLK_EADCDIV_EADC0DIV_Msk K))
    by (rewrite <- Z.land_assoc, Z.land_diag; reflexivity).
  assert (Hs : Z.land (Z.lor (Z.land (EADCSEL (CLK m)) (CLK_EADCSEL_EADC0SEL_Msk K))
                             (CLK_EADCSEL_EADC0SEL_PCLK0 K))
                      (CLK_EADCSEL_EADC0SEL_Msk K)
               = Z.lor (Z.land (EADCSEL (CLK m)) (CLK_EADCSEL_EADC0SEL_Msk K))
                       (Z.land (CLK_EADCSEL_EADC0SEL_PCLK0 K) (CLK_EADCSEL_EADC0SEL_Msk K)))
    by (rewrite Z.land_lor_distr_l, <- Z.land_assoc, Z.land_diag; reflexivity).
  destruct (Calibration_summary K hw m)
    as (evs & Ht & _ & _ & _ & _ & _ & Hskip & Hrun).
  assert (Hp : exists rest,
             evs = Store CLK_EADCSEL
                     (Z.lor (Z.land (EADCSEL (CLK m)) (CLK_EADCSEL_EADC0SEL_Msk K))
                            (CLK_EADCSEL_EADC0SEL_PCLK0 K))
                   :: Store CLK_EADCDIV
                        (Z.land (EADCDIV (CLK m)) (CLK_EADCDIV_EADC0DIV_Msk K))
                   :: rest).
  { destruct (Z.eq_dec (Z.land (CALSR (eadc m)) (EADC_CALSR_CALIF_Msk K)) 0) as [H|H].
    - destruct (Hrun H) as (vs1 & vs2 & x & y & ->). unfold prologue. cbn [app].
      eexists. reflexivity.
    - rewrite (Hskip H). unfold prologue. cbn [app]. eexists. reflexivity. }
  destruct Hp as (rest & ->).
  eexists _, _, rest. split; [exact Ht|].
  rewrite Hs, Hd. auto.
Qed.

End EADC_Calibration_Claims.

Section EADC_Claims_Continued.
Import EADC.
Variable K : header.
Variable hw : list event -> EADC_T -> EADC_T.

(** C6, as amended.  The error code is not sticky: [EADC_Calibration] (and
    [EADC_Open], which ends with it) clears the code on entry, so the outcome
    of a call does not depend on the value the code had before, and after the
    call the code is either zero or the timeout code of that call.
    [EADC_Close] never writes it, nor do the three sample-module routines
    called with a module number from 0 to 27. *)
Theorem EADC_Calibration_error_code_fresh m v :
  EADC_Calibration K hw (set_ErrCode v m) = EADC_Calibration K hw m /\
  (g_EADC_i32ErrCode (EADC_Calibration K hw m) = 0 \/
   g_EADC_i32ErrCode (EADC_Calibration K hw m) = EADC_TIMEOUT_ERR K) /\
  (forall mode, EADC_Open K hw mode (set_ErrCode v m) = EADC_Open K hw mode m) /\
  g_EADC_i32ErrCode (EADC_Close K m) = g_EADC_i32ErrCode m /\
  (forall n t c, 0 <= n <= 27 ->
     g_EADC_i32ErrCode (EADC_ConfigSampleModule K n t c m) = g_EADC_i32ErrCode m) /\
  (forall n t d, 0 <= n <= 27 ->
     g_EADC_i32ErrCode (EADC_SetTriggerDelayTime K n t d m) = g_EADC_i32ErrCode m) /\
  (forall n t, 0 <= n <= 27 ->
     g_EADC_i32ErrCode (EADC_SetExtendSampleTime K n t m) = g_EADC_i32ErrCode m).
Proof.
  split; [reflexivity|]. split.
  - destruct (Calibration_summary K hw m) as (evs & _ & _ & _ & _ & _ & He & _).
    rewrite He.
    destruct (_ || _); auto.
  - split; [intros mode; reflexivity|]. split; [reflexivity|].
    repeat split; intros;
      unfold EADC_ConfigSampleModule, EADC_SetTriggerDelayTime, EADC_SetExtendSampleTime;
      destruct (_ <? 19); reflexivity.
Qed.

(** C7, as amended.  Both waits are bounded for every converter and every
    core clock: neither loop body runs more than 2^32 times
    ([EADC_Calibration] is a total function, so the call always returns).
    The body of the reset wait runs at most [SystemCoreClock] times when the
    core clock is at least 1, and the body of the calibration wait at most
    [SystemCoreClock / 20] times when the core clock is at least 20. *)
Theorem EADC_Calibration_waits_bounded m :
  exists evs,
    trace (EADC_Calibration K hw m) = trace m ++ evs /\
    iterations EADC_CTL (in_reset K) evs <= 2 ^ 32 /\
    iterations EADC_CALSR (not_finished K) evs <= 2 ^ 32 /\
    (1 <= SystemCoreClock m < 2 ^ 32 ->
     iterations EADC_CTL (in_reset K) evs <= SystemCoreClock m) /\
    (20 <= SystemCoreClock m < 2 ^ 32 ->
     iterations EADC_CALSR (not_finished K) evs <= SystemCoreClock m / 20).
Proof.
  destruct (Calibration_summary K hw m) as (evs & Ht & _ & _ & Hi1 & Hi2 & _).
  pose proof (budget_range (SystemCoreClock m)) as B1.
  pose proof (budget_range (SystemCoreClock m / 20)) as B2.
  exists evs. split; [exact Ht|].
  split; [lia|]. split; [lia|]. split; intros Hr.
  - rewrite budget_seed in Hi1 by lia. lia.
  - rewrite budget_seed in Hi2.
    + lia.
    + split.
      * apply Z.div_le_lower_bound; lia.
      * apply Z.div_lt_upper_bound; lia.
Qed.

Lemma upd_other a i v1 v2 j : j <> i -> upd (upd a i v1) i v2 j = a j.
Proof.
  intros H. unfold upd. apply Z.eqb_neq in H. rewrite H. reflexivity.
Qed.

Lemma upd_same a i v : upd a i v i = v.
Proof. unfold upd. rewrite Z.eqb_refl. reflexivity. Qed.

(** A read-modify-write pair on a word of [SCTL19]. *)
Lemma rmw_SCTL19 i c s m :
  let w := EADC_SCTL19 i in
  let m1 := store w (Z.land (load w m) c) m in
  let m' := store w (Z.lor (load w m1) s) m1 in
  touches_only_SCTL19 i m m' /\
  SCTL19 (eadc m') i = Z.lor (Z.land (SCTL19 (eadc m) i) c) s.
Proof.
  cbn -[Z.land Z.lor]. unfold touches_only_SCTL19. cbn -[Z.land Z.lor].
  rewrite !upd_same. split; [|reflexivity].
  split.
  { eexists _, _. rewrite <- app_assoc. reflexivity. }
  split; [intros j Hj; apply upd_other; exact Hj|].
  repeat split; reflexivity.
Qed.

End EADC_Claims_Continued.

(** ** Concrete runs *)

Section EADC_Runs.
Import EADC Sample.

(** C1, on a machine whose CALSR has CALIF set. *)
Lemma EADC_Calibration_already_finished_run :
  Z.land (CALSR (eadc (machine_with 20 1 7 0x10000))) (EADC_CALSR_CALIF_Msk eadc_h) <> 0 /\
  exists evs,
    trace (EADC_Calibration eadc_h no_hw (machine_with 20 1 7 0x10000)) =
      trace (machine_with 20 1 7 0x10000) ++ evs /\
    stores_to EADC_CTL evs = [1] /\ stores_to EADC_CALCTL evs = [].
Proof.
  assert (H : Z.land (CALSR (eadc (machine_with 20 1 7 0x10000)))
                     (EADC_CALSR_CALIF_Msk eadc_h) <> 0)
    by (vm_compute; discriminate).
  split; [exact H|].
  destruct (EADC_Calibration_already_finished eadc_h no_hw _ H)
    as (evs & Ht & _ & Hc & Hk & _).
  exists evs. split; [exact Ht|]. split; [exact Hc | exact Hk].
Defined.


(** C4, at EADCSEL = 1 and EADCDIV = 7: the source field is programmed to 3
    where PCLK0 is 2, and the divider field stays 7. *)
Lemma EADC_Calibration_keeps_clock_fields_run :
  exists sel div rest,
    trace (EADC_Calibration eadc_h no_hw (machine_with 20 1 7 0x10000)) =
      trace (machine_with 20 1 7 0x10000) ++
      Store CLK_EADCSEL sel :: Store CLK_EADCDIV div :: rest /\
    Z.land sel (CLK_EADCSEL_EADC0SEL_Msk eadc_h)
      <> Z.land (CLK_EADCSEL_EADC0SEL_PCLK0 eadc_h) (CLK_EADCSEL_EADC0SEL_Msk eadc_h) /\
    Z.land div (CLK_EADCDIV_EADC0DIV_Msk eadc_h) <> 0.
Proof.
  destruct (EADC_Calibration_keeps_clock_fields eadc_h no_hw (machine_with 20 1 7 0x10000))
    as (sel & div & rest & Ht & Hs & _ & Hd).
  - vm_compute. discriminate.
  - vm_compute. discriminate.
  - exists sel, div, rest. split; [exact Ht|]. split; [exact Hs | exact Hd].
Defined.

(** C4, evaluated: what the call stores at EADCSEL = 1 and EADCDIV = 7. *)
Example EADC_Calibration_clock_setup_at_1_7 :
  trace (EADC_Calibration eadc_h no_hw (machine_with 20 1 7 0x10000)) =
    [ Store CLK_EADCSEL 3; Store CLK_EADCDIV 7; Store EADC_CTL 1;
      Store CLK_EADCSEL 1; Store CLK_EADCDIV 7 ].
Proof. vm_compute. reflexivity. Qed.

(** C5 refuted: module number 28 is not ignored.  The call writes the word
    that follows the nine words of [SCTL19]. *)
Lemma sample_module_28_is_written :
  SCTL19 (eadc (machine_with 0 0 0 0)) 9 = 0 /\
  SCTL19 (eadc (EADC_ConfigSampleModule eadc_h 28 0 1 (machine_with 0 0 0 0))) 9 = 1 /\
  trace (EADC_ConfigSampleModule eadc_h 28 0 1 (machine_with 0 0 0 0)) =
    [Store (EADC_SCTL19 9) 0; Store (EADC_SCTL19 9) 1] /\
  ~ 9 < SCTL19_size /\
  EADC_ConfigSampleModule eadc_h 28 0 1 (machine_with 0 0 0 0) <> machine_with 0 0 0 0.
Proof.
  split; [reflexivity|]. split; [vm_compute; reflexivity|].
  split; [vm_compute; reflexivity|]. split; [unfold SCTL19_size; lia|].
  intros H. apply (f_equal trace) in H. vm_compute in H. discriminate.
Qed.

(** C6 refuted: a first call times out, a second call on the same machine
    succeeds, and the error code is zero again although nobody cleared it. *)
Lemma error_code_cleared_by_next_call :
  g_EADC_i32ErrCode (EADC_Calibration eadc_h late_hw (machine_with 20 1 7 0)) = -1 /\
  EADC_TIMEOUT_ERR eadc_h = -1 /\
  g_EADC_i32ErrCode
    (EADC_Calibration eadc_h late_hw
       (EADC_Calibration eadc_h late_hw (machine_with 20 1 7 0))) = 0.
Proof.
  split; [vm_compute; reflexivity|]. split; [reflexivity|]. vm_compute. reflexivity.
Qed.

(** C6, at module number 27: the sample-module routine leaves an error code
    of -1 in place. *)
Lemma EADC_Calibration_error_code_fresh_run :
  0 <= 27 <= 27 /\
  g_EADC_i32ErrCode
    (EADC_ConfigSampleModule eadc_h 27 0 1 (set_ErrCode (-1) (machine_with 20 1 7 0))) = -1.
Proof.
  assert (H : 0 <= 27 <= 27) by lia.
  split; [exact H|].
  destruct (EADC_Calibration_error_code_fresh eadc_h no_hw
              (set_ErrCode (-1) (machine_with 20 1 7 0)) 0)
    as (_ & _ & _ & _ & Hc & _).
  exact (Hc 27 0 1 H).
Defined.

(** C7 refuted: with a core clock of 0 both countdowns start at zero and
    wrap; the converter of [slow_hw] makes each loop body run once, which is
    more than [SystemCoreClock] and [SystemCoreClock / 20] iterations. *)
Lemma zero_core_clock_exceeds_bound :
  SystemCoreClock (machine_with 0 1 7 0) = 0 /\
  iterations EADC_CTL (in_reset eadc_h)
    (trace (EADC_Calibration eadc_h slow_hw (machine_with 0 1 7 0))) = 1 /\
  iterations EADC_CALSR (not_finished eadc_h)
    (trace (EADC_Calibration eadc_h slow_hw (machine_with 0 1 7 0))) = 1.
Proof.
  split; [reflexivity|].
  unfold EADC_Calibration, EADC_CONV_RESET.
  cbn -[busy_wait].
  rewrite busy_wait_loop. cbn -[busy_wait].
  rewrite busy_wait_loop. cbn -[busy_wait].
  rewrite busy_wait_loop. cbn -[busy_wait].
  rewrite busy_wait_loop. cbn -[busy_wait].
  vm_compute. auto.
Qed.

(** C7, at a core clock of 20. *)
Lemma EADC_Calibration_waits_bounded_run :
  exists evs,
    trace (EADC_Calibration eadc_h no_hw (machine_with 20 1 7 0)) = evs /\
    iterations EADC_CTL (in_reset eadc_h) evs <= 20 /\
    iterations EADC_CALSR (not_finished eadc_h) evs <= 1.
Proof.
  destruct (EADC_Calibration_waits_bounded eadc_h no_hw (machine_with 20 1 7 0))
    as (evs & Ht & _ & _ & H1 & H2).
  exists evs. split; [exact Ht|]. split.
  - apply H1. cbn. lia.
  - apply H2. cbn. lia.
Defined.

End EADC_Runs.

(** * Properties of the USCI-SPI driver *)

Section USPI_Clock.
Import USPI.
Variable K : header.
Variable PCLK1 : Z.

(** The times-ten, plus-five, over-ten scheme is rounding to nearest. *)
Lemma scheme_is_nearest h b :
  0 < b -> (h * 10 / b + 5) / 10 = nearest h b.
Proof.
  intros Hb. unfold nearest.
  rewrite <- Z.div_add by lia.
  rewrite Z.div_div by lia.
  replace (h * 10 + 5 * b) with (5 * (2 * h + b)) by lia.
  replace (b * 10) with (5 * (2 * b)) by lia.
  apply Z.div_mul_cancel_l; lia.
Qed.

(** The arithmetic of both helpers when nothing wraps and the rounded
    quotient is at least one. *)
Lemma clock_divider_exact bus :
  0 < bus -> bus <= 2 * (PCLK1 / 2) -> PCLK1 / 2 * 10 < 2 ^ 32 ->
  clock_divider PCLK1 bus = Some (documented_divider PCLK1 bus) /\
  bus_clock PCLK1 (documented_divider PCLK1 bus) =
    Some (PCLK1 / (2 * (documented_divider PCLK1 bus + 1))).
Proof.
  intros Hb Hle Hov.
  unfold clock_divider, bus_clock, documented_divider, udiv, shl32, u32.
  rewrite <- (scheme_is_nearest (PCLK1 / 2) bus Hb).
  set (h := PCLK1 / 2) in *.
  assert (Hh : 1 <= h) by lia.
  assert (Hq5 : 5 <= h * 10 / bus) by (apply Z.div_le_lower_bound; lia).
  assert (Hqu : h * 10 / bus <= h * 10)
    by (apply Z.div_le_upper_bound; nia).
  set (q := h * 10 / bus) in *.
  assert (Hr1 : 1 <= (q + 5) / 10) by (apply Z.div_le_lower_bound; lia).
  assert (Hru : (q + 5) / 10 < 429496730) by (apply Z.div_lt_upper_bound; lia).
  set (r := (q + 5) / 10) in *.
  destruct (Z.eqb_spec bus 0) as [|_]; [lia|].
  rewrite (Z.mod_small (h * 10)) by lia. fold q.
  rewrite (Z.mod_small (q + 5)) by lia. fold r.
  rewrite (Z.mod_small (r - 1)) by lia.
  split; [reflexivity|].
  replace (r - 1 + 1) with r by lia.
  rewrite (Z.mod_small r) by lia.
  rewrite Z.shiftl_mul_pow2 by lia. change (2 ^ 1) with 2.
  rewrite (Z.mod_small (r * 2)) by lia.
  destruct (Z.eqb_spec (r * 2) 0) as [|_]; [lia|].
  rewrite (Z.mul_comm r 2). reflexivity.
Qed.

(** C8, as amended.  For a bus clock that is not zero and not above the
    peripheral clock (rounded down to even), and a peripheral clock small
    enough for [(pclk / 2) * 10] to fit 32 bits, both helpers compute the
    divider as the nearest integer to [(pclk / 2) / busclock] minus one and
    return [pclk / (2 * (divider + 1))].  [USPI_Open] returns 0 for a bus
    clock of 0. *)
Theorem bus_clock_rounding bus uspi p0 ms mode dw :
  0 < bus -> bus <= 2 * (PCLK1 / 2) -> PCLK1 / 2 * 10 < 2 ^ 32 ->
  clock_divider PCLK1 bus = Some (documented_divider PCLK1 bus) /\
  (exists u',
     USPI_SetBusClock K PCLK1 true bus uspi =
       Returns (PCLK1 / (2 * (documented_divider PCLK1 bus + 1))) u') /\
  (exists u',
     USPI_Open K PCLK1 true p0 ms mode dw bus uspi =
       Returns (PCLK1 / (2 * (documented_divider PCLK1 bus + 1))) u') /\
  (exists u', USPI_Open K PCLK1 true p0 ms mode dw 0 uspi = Returns 0 u').
Proof.
  intros Hb Hle Hov.
  destruct (clock_divider_exact bus Hb Hle Hov) as (Hd & Hc).
  split; [exact Hd|].
  assert (Hnz : (bus =? 0) = false) by (apply Z.eqb_neq; lia).
  split; [|split].
  - unfold USPI_SetBusClock. rewrite Hd, Hc. eexists. reflexivity.
  - unfold USPI_Open. rewrite Hnz. cbn [negb]. rewrite Hd, Hc. eexists. reflexivity.
  - unfold USPI_Open. rewrite Z.eqb_refl. cbn [negb]. eexists. reflexivity.
Qed.

(** C9.  [USPI_SetBusClock] reaches the division by [u32BusClock] without a
    test, so a bus clock of 0 is a division by zero that happens before any
    register is written; [USPI_Open] tests [u32BusClock != 0] around the same
    computation, skips it and returns 0. *)
Theorem zero_bus_clock_unguarded (is_USPI0 : bool) uspi p0 ms mode dw :
  clock_divider (if is_USPI0 then PCLK1 else 0) 0 = None /\
  USPI_SetBusClock K PCLK1 is_USPI0 0 uspi = DivisionByZero uspi /\
  exists u', USPI_Open K PCLK1 is_USPI0 p0 ms mode dw 0 uspi = Returns 0 u'.
Proof.
  split; [reflexivity|]. split; [reflexivity|].
  unfold USPI_Open. rewrite Z.eqb_refl. cbn [negb]. eexists. reflexivity.
Qed.

End USPI_Clock.

(** ** Bits of 32-bit words *)

Section Bits.

Lemma testbit_u32 x i : 0 <= i < 32 -> Z.testbit (u32 x) i = Z.testbit x i.
Proof. intros H. unfold u32. apply Z.mod_pow2_bits_low. lia. Qed.

Lemma testbit_not32 x i : 0 <= i < 32 -> Z.testbit (not32 x) i = negb (Z.testbit x i).
Proof.
  intros H. unfold not32. rewrite testbit_u32 by assumption.
  apply Z.lnot_spec. lia.
Qed.

Lemma testbit_shl32 x p i :
  0 <= i < 32 -> Z.testbit (shl32 x p) i = Z.testbit x (i - p).
Proof.
  intros H. unfold shl32. rewrite testbit_u32 by assumption.
  apply Z.shiftl_spec. lia.
Qed.

Lemma testbit_15 j : Z.testbit 15 j = (0 <=? j) && (j <? 4).
Proof.
  change 15 with (Z.ones 4).
  destruct (Z.leb_spec 0 j); cbn [andb].
  - destruct (Z.ltb_spec j 4).
    + apply Z.ones_spec_low. lia.
    + apply Z.ones_spec_high. lia.
  - apply Z.testbit_neg_r. lia.
Qed.

Lemma testbit_nibble x j : 0 <= x < 16 -> ~ 0 <= j < 4 -> Z.testbit x j = false.
Proof.
  intros Hx Hj.
  destruct (Z.leb_spec 0 j).
  - rewrite <- (Z.mod_small x (2 ^ 4)) by (change (2 ^ 4) with 16; lia).
    apply Z.mod_pow2_bits_high. lia.
  - apply Z.testbit_neg_r. lia.
Qed.

Lemma disjoint_bit a b j :
  Z.land a b = 0 -> Z.testbit b j = true -> Z.testbit a j = false.
Proof.
  intros H Hb.
  assert (Hz : Z.testbit (Z.land a b) j = false) by (rewrite H; apply Z.testbit_0_l).
  rewrite Z.land_spec, Hb, andb_true_r in Hz. exact Hz.
Qed.

End Bits.

Section USPI_DataWidth.
Import USPI.
Variable K : header.
Variable PCLK1 : Z.

(** What [USPI_Open] leaves in LINECTL, whichever way the call ends. *)
Lemma USPI_Open_LINECTL (is_USPI0 : bool) p0 ms mode dw bus uspi :
  LINECTL (block (USPI_Open K PCLK1 is_USPI0 p0 ms mode dw bus uspi)) =
    (let w := if 16 <=? dw then 0 else dw in
     let l := Z.land (Z.lor (Z.land (LINECTL uspi) (not32 (USPI_LINECTL_DWIDTH_Msk K)))
                            (shl32 w (USPI_LINECTL_DWIDTH_Pos K)))
                     (not32 (USPI_LINECTL_LSB_Msk K)) in
     if ms =? USPI_MASTER K then Z.lor l (USPI_LINECTL_CTLOINV_Msk K) else l).
Proof.
  unfold USPI_Open.
  destruct (Z.eqb_spec bus 0) as [Hb|Hb]; cbn [negb].
  - destruct (ms =? USPI_MASTER K); reflexivity.
  - unfold clock_divider, udiv. apply Z.eqb_neq in Hb. rewrite Hb.
    destruct (bus_clock _ _); destruct (ms =? USPI_MASTER K); reflexivity.
Qed.

(** C10.  With DWIDTH a four-bit field inside the word that LSB and CTLOINV
    do not overlap: [USPI_Open] leaves 0 in DWIDTH for a data width of 16 or
    more and the data width itself below 16, and every bit of LINECTL outside
    DWIDTH, LSB and (in master mode) CTLOINV is as it was. *)
Theorem USPI_Open_data_width (is_USPI0 : bool) p0 ms mode dw bus uspi :
  0 <= USPI_LINECTL_DWIDTH_Pos K ->
  USPI_LINECTL_DWIDTH_Pos K + 4 <= 32 ->
  USPI_LINECTL_DWIDTH_Msk K = Z.shiftl 15 (USPI_LINECTL_DWIDTH_Pos K) ->
  Z.land (USPI_LINECTL_LSB_Msk K) (USPI_LINECTL_DWIDTH_Msk K) = 0 ->
  Z.land (USPI_LINECTL_CTLOINV_Msk K) (USPI_LINECTL_DWIDTH_Msk K) = 0 ->
  0 <= dw ->
  Z.shiftr
    (Z.land (LINECTL (block (USPI_Open K PCLK1 is_USPI0 p0 ms mode dw bus uspi)))
            (USPI_LINECTL_DWIDTH_Msk K))
    (USPI_LINECTL_DWIDTH_Pos K) = (if 16 <=? dw then 0 else dw) /\
  (forall i,
     0 <= i < 32 ->
     Z.testbit (USPI_LINECTL_DWIDTH_Msk K) i = false ->
     Z.testbit (USPI_LINECTL_LSB_Msk K) i = false ->
     (ms = USPI_MASTER K -> Z.testbit (USPI_LINECTL_CTLOINV_Msk K) i = false) ->
     Z.testbit (LINECTL (block (USPI_Open K PCLK1 is_USPI0 p0 ms mode dw bus uspi))) i =
     Z.testbit (LINECTL uspi) i).
Proof.
  intros HP0 HP4 HM HLSB HCTLO Hdw.
  rewrite USPI_Open_LINECTL. cbv zeta.
  set (w := if 16 <=? dw then 0 else dw).
  assert (Hw : 0 <= w < 16) by (unfold w; destruct (Z.leb_spec 16 dw); lia).
  set (P := USPI_LINECTL_DWIDTH_Pos K) in *.
  assert (HMbit : forall j, 0 <= j ->
            Z.testbit (USPI_LINECTL_DWIDTH_Msk K) j = (0 <=? j - P) && (j - P <? 4)).
  { intros j Hj. rewrite HM, Z.shiftl_spec by assumption. apply testbit_15. }
  set (l := Z.land (Z.lor (Z.land (LINECTL uspi) (not32 (USPI_LINECTL_DWIDTH_Msk K)))
                          (shl32 w P)) (not32 (USPI_LINECTL_LSB_Msk K))).
  assert (Hl_in : forall j, 0 <= j < 4 -> Z.testbit l (j + P) = Z.testbit w j).
  { intros j Hj. unfold l.
    assert (Hm : Z.testbit (USPI_LINECTL_DWIDTH_Msk K) (j + P) = true).
    { rewrite HMbit by lia. replace (j + P - P) with j by lia.
      destruct (Z.leb_spec 0 j); destruct (Z.ltb_spec j 4); reflexivity || lia. }
    rewrite Z.land_spec, Z.lor_spec, Z.land_spec.
    rewrite !testbit_not32, testbit_shl32 by lia.
    rewrite Hm, (disjoint_bit _ _ _ HLSB Hm).
    replace (j + P - P) with j by lia.
    cbn [negb]. rewrite andb_false_r, andb_true_r. reflexivity. }
  assert (Hl_out : forall i, 0 <= i < 32 ->
            Z.testbit (USPI_LINECTL_DWIDTH_Msk K) i = false ->
            Z.testbit (USPI_LINECTL_LSB_Msk K) i = false ->
            Z.testbit l i = Z.testbit (LINECTL uspi) i).
  { intros i Hi Hm Hs. unfold l.
    rewrite Z.land_spec, Z.lor_spec, Z.land_spec.
    rewrite !testbit_not32, testbit_shl32 by lia.
    rewrite Hm, Hs. cbn [negb]. rewrite !andb_true_r.
    rewrite (testbit_nibble w (i - P) Hw).
    - apply orb_false_r.
    - rewrite HMbit in Hm by lia.
      destruct (Z.leb_spec 0 (i - P)); destruct (Z.ltb_spec (i - P) 4);
        cbn in Hm; try discriminate; lia. }
  split.
  - apply Z.bits_inj'. intros n Hn.
    rewrite Z.shiftr_spec, Z.land_spec by assumption.
    rewrite HMbit by lia. replace (n + P - P) with n by lia.
    destruct (Z.leb_spec 0 n); [|lia]. cbn [andb].
    destruct (Z.ltb_spec n 4) as [H4|H4].
    + rewrite andb_true_r.
      assert (Hm : Z.testbit (USPI_LINECTL_DWIDTH_Msk K) (n + P) = true).
      { rewrite HMbit by lia. replace (n + P - P) with n by lia.
        destruct (Z.leb_spec 0 n); destruct (Z.ltb_spec n 4); reflexivity || lia. }
      destruct (ms =? USPI_MASTER K).
      * rewrite Z.lor_spec, Hl_in by lia.
        rewrite (disjoint_bit _ _ _ HCTLO Hm). apply orb_false_r.
      * apply Hl_in. lia.
    + rewrite andb_false_r. symmetry. apply testbit_nibble; [exact Hw | lia].
  - intros i Hi Hm Hs Hc.
    destruct (Z.eqb_spec ms (USPI_MASTER K)) as [E|E].
    + rewrite Z.lor_spec, (Hc E), orb_false_r. apply Hl_out; assumption.
    + apply Hl_out; assumption.
Qed.

End USPI_DataWidth.

Section USPI_Runs.
Import USPI Sample.

(** C8 refuted.  A bus clock above the peripheral clock rounds the quotient
    to zero; the divider wraps to 0xFFFFFFFF and the helper divides by zero
    instead of returning a frequency.  A peripheral clock for which
    [(pclk / 2) * 10] overflows 32 bits yields a divider that is not the
    documented one. *)
Lemma bus_clock_rounding_fails :
  clock_divider 100000000 120000000 = Some 0xFFFFFFFF /\
  documented_divider 100000000 120000000 = -1 /\
  USPI_SetBusClock uspi_h 100000000 true 120000000 uspi_zero
    = DivisionByZero (mkUSPI 0 0 0 0 0xFFFF0000) /\
  clock_divider 1000000000 1000000 = Some 70 /\
  documented_divider 1000000000 1000000 = 499 /\
  USPI_SetBusClock uspi_h 1000000000 true 1000000 uspi_zero
    = Returns 7042253 (mkUSPI 0 0 0 0 0x460000).
Proof. vm_compute. repeat split; reflexivity. Qed.

(** C8, at a peripheral clock of 100 MHz and a bus clock of 3 MHz. *)
Lemma bus_clock_rounding_run :
  clock_divider 100000000 3000000 = Some 16 /\
  exists u', USPI_SetBusClock uspi_h 100000000 true 3000000 uspi_zero
             = Returns 2941176 u'.
Proof.
  destruct (bus_clock_rounding uspi_h 100000000 3000000 uspi_zero 0 0 0 8)
    as (Hd & Hs & _); [lia | vm_compute; discriminate | vm_compute; reflexivity |].
  split; [exact Hd | exact Hs].
Defined.

(** C10, with DWIDTH at bits 8..11, LSB at bit 0 and CTLOINV at bit 7. *)
Lemma USPI_Open_data_width_run :
  Z.shiftr
    (Z.land (LINECTL (block (USPI_Open uspi_h 100000000 true 0 0 0 20 1000000
                               (mkUSPI 0 0xFFFFFFFF 0 0 0))))
            (USPI_LINECTL_DWIDTH_Msk uspi_h))
    (USPI_LINECTL_DWIDTH_Pos uspi_h) = 0.
Proof.
  refine (proj1 (USPI_Open_data_width uspi_h 100000000 true 0 0 0 20 1000000
                   (mkUSPI 0 0xFFFFFFFF 0 0 0) _ _ _ _ _ _)).
  - vm_compute. discriminate.
  - vm_compute. discriminate.
  - reflexivity.
  - reflexivity.
  - reflexivity.
  - lia.
Defined.

End USPI_Runs.

(** * Further properties *)

(** ** More about the bits of 32-bit words *)

Section More_Bits.

Lemma testbit_not32_nonneg x i :
  0 <= i -> Z.testbit (not32 x) i = (i <? 32) && negb (Z.testbit x i).
Proof.
  intros Hi. destruct (Z.ltb_spec i 32); cbn [andb].
  - apply testbit_not32. lia.
  - unfold not32, u32. apply Z.mod_pow2_bits_high. lia.
Qed.

Lemma testbit_shl32_nonneg x p i :
  0 <= i -> Z.testbit (shl32 x p) i = (i <? 32) && Z.testbit x (i - p).
Proof.
  intros Hi. destruct (Z.ltb_spec i 32); cbn [andb].
  - apply testbit_shl32. lia.
  - unfold shl32, u32. apply Z.mod_pow2_bits_high. lia.
Qed.

Lemma testbit_field_mask w pos i :
  0 <= w -> 0 <= i ->
  Z.testbit (Z.shiftl (Z.ones w) pos) i = (0 <=? i - pos) && (i - pos <? w).
Proof.
  intros Hw Hi. rewrite Z.shiftl_spec by assumption.
  destruct (Z.leb_spec 0 (i - pos)); cbn [andb].
  - destruct (Z.ltb_spec (i - pos) w).
    + apply Z.ones_spec_low. lia.
    + apply Z.ones_spec_high. lia.
  - apply Z.testbit_neg_r. lia.
Qed.

Lemma testbit_small v w j : 0 <= v < 2 ^ w -> w <= j -> Z.testbit v j = false.
Proof.
  intros Hv Hj.
  assert (0 <= w) by (destruct (Z.leb_spec 0 w); [assumption | rewrite Z.pow_neg_r in Hv; lia]).
  rewrite <- (Z.mod_small v (2 ^ w)) by assumption.
  apply Z.mod_pow2_bits_high. lia.
Qed.

(** Clearing a mask and then reading it gives zero; setting it and reading
    it gives the mask. *)
Lemma land_cleared x m : Z.land (Z.land x (not32 m)) m = 0.
Proof.
  apply Z.bits_inj'. intros i Hi.
  rewrite !Z.land_spec, testbit_not32_nonneg, Z.bits_0 by assumption.
  destruct (Z.testbit x i), (Z.testbit m i), (i <? 32); reflexivity.
Qed.

Lemma land_set x m : Z.land (Z.lor x m) m = m.
Proof.
  apply Z.bits_inj'. intros i Hi.
  rewrite Z.land_spec, Z.lor_spec.
  destruct (Z.testbit x i), (Z.testbit m i); reflexivity.
Qed.

Lemma land_set_keeps x m k : Z.land x k = k -> Z.land (Z.lor x m) k = k.
Proof.
  intros Hk. apply Z.bits_inj'. intros i Hi.
  apply (f_equal (fun z => Z.testbit z i)) in Hk.
  rewrite Z.land_spec in Hk. rewrite Z.land_spec, Z.lor_spec.
  destruct (Z.testbit x i), (Z.testbit m i), (Z.testbit k i); cbn in *; congruence.
Qed.

Lemma land_clear_keeps x m k : Z.land x k = 0 -> Z.land (Z.land x (not32 m)) k = 0.
Proof.
  intros Hk. apply Z.bits_inj'. intros i Hi.
  apply (f_equal (fun z => Z.testbit z i)) in Hk.
  rewrite Z.land_spec, Z.bits_0 in Hk.
  rewrite !Z.land_spec, Z.bits_0.
  destruct (Z.testbit x i), (Z.testbit k i); cbn in *; try congruence.
  apply andb_false_r.
Qed.

(** Writing a field: [(x & ~mask) | (v << pos)] for a field of [w] bits at
    [pos] inside the word.  Reading the field back gives [v] cut to [w]
    bits; when [v] fits, no bit outside the field changes. *)
Lemma field_read x v w pos mask :
  0 <= w -> 0 <= pos -> pos + w <= 32 -> mask = Z.shiftl (Z.ones w) pos ->
  Z.shiftr (Z.land (Z.lor (Z.land x (not32 mask)) (shl32 v pos)) mask) pos = v mod 2 ^ w.
Proof.
  intros Hw Hp Hin ->. apply Z.bits_inj'. intros n Hn.
  rewrite Z.shiftr_spec, Z.land_spec, Z.lor_spec, Z.land_spec by assumption.
  rewrite testbit_not32_nonneg, testbit_shl32_nonneg, testbit_field_mask by lia.
  replace (n + pos - pos) with n by lia.
  destruct (Z.leb_spec 0 n); [|lia]. cbn [andb].
  destruct (Z.ltb_spec n w).
  - rewrite Z.mod_pow2_bits_low by lia.
    destruct (Z.ltb_spec (n + pos) 32); [|lia].
    cbn. rewrite andb_false_r, andb_true_r. reflexivity.
  - rewrite Z.mod_pow2_bits_high by lia. apply andb_false_r.
Qed.

Lemma field_frame x v w pos mask i :
  0 <= w -> 0 <= pos -> mask = Z.shiftl (Z.ones w) pos ->
  0 <= v < 2 ^ w -> 0 <= i < 32 -> Z.testbit mask i = false ->
  Z.testbit (Z.lor (Z.land x (not32 mask)) (shl32 v pos)) i = Z.testbit x i.
Proof.
  intros Hw Hp -> Hv Hi Hm.
  rewrite Z.lor_spec, Z.land_spec, testbit_not32, testbit_shl32, Hm by assumption.
  cbn [negb]. rewrite andb_true_r.
  rewrite testbit_field_mask in Hm by lia.
  destruct (Z.leb_spec 0 (i - pos)).
  - destruct (Z.ltb_spec (i - pos) w); [discriminate|].
    rewrite (testbit_small v w) by (assumption || lia). apply orb_false_r.
  - rewrite (Z.testbit_neg_r v (i - pos)) by lia. apply orb_false_r.
Qed.

(** The same field written with a value already in place:
    [(x & ~mask) | c] with [c] inside the mask. *)
Lemma masked_write_read x c mask :
  Z.land c mask = c -> Z.land (Z.lor (Z.land x (not32 mask)) c) mask = c.
Proof.
  intros Hc. apply Z.bits_inj'. intros i Hi.
  apply (f_equal (fun z => Z.testbit z i)) in Hc. rewrite Z.land_spec in Hc.
  rewrite Z.land_spec, Z.lor_spec, Z.land_spec, testbit_not32_nonneg by assumption.
  destruct (Z.testbit x i), (Z.testbit c i), (Z.testbit mask i), (i <? 32);
    cbn in *; congruence.
Qed.

Lemma masked_write_frame x c mask i :
  Z.land c mask = c -> 0 <= i < 32 -> Z.testbit mask i = false ->
  Z.testbit (Z.lor (Z.land x (not32 mask)) c) i = Z.testbit x i.
Proof.
  intros Hc Hi Hm.
  apply (f_equal (fun z => Z.testbit z i)) in Hc. rewrite Z.land_spec, Hm in Hc.
  rewrite Z.lor_spec, Z.land_spec, testbit_not32, Hm by assumption.
  destruct (Z.testbit x i), (Z.testbit c i); cbn in *; congruence.
Qed.

End More_Bits.

(** ** More about the EADC driver *)

Section EADC_More_Properties.
Import EADC EADC_Modules.
Variable K : header.
Variable hw : list event -> EADC_T -> EADC_T.

(** X1.  [EADC_Open] stores the word at 0xFF0 with BIT8 set, clears DIFFEN,
    sets the input mode and ADCEN, and then calibrates.  Whatever the
    converter does, the last two bus accesses restore EADCSEL and EADCDIV,
    the clock controller is as on entry, and the error code is zero or the
    timeout code. *)
Theorem EADC_Open_keeps_clock mode m :
  CLK (EADC_Open K hw mode m) = CLK m /\
  SystemCoreClock (EADC_Open K hw mode m) = SystemCoreClock m /\
  (g_EADC_i32ErrCode (EADC_Open K hw mode m) = 0 \/
   g_EADC_i32ErrCode (EADC_Open K hw mode m) = EADC_TIMEOUT_ERR K) /\
  exists evs,
    trace (EADC_Open K hw mode m) =
      trace m ++
      [ Store EADC_WORD_FF0 (Z.lor (WORD_FF0 (eadc m)) (BIT8 K));
        Store EADC_CTL (Z.land (CTL (eadc m)) (not32 (EADC_CTL_DIFFEN_Msk K)));
        Store EADC_CTL
          (Z.lor (Z.land (CTL (eadc m)) (not32 (EADC_CTL_DIFFEN_Msk K)))
                 (Z.lor mode (EADC_CTL_ADCEN_Msk K))) ] ++
      evs ++ epilogue m.
Proof.
  unfold EADC_Open.
  cbn [store load write CLK eadc trace SystemCoreClock g_EADC_i32ErrCode
       EADCSEL EADCDIV CTL CALSR CALCTL SCTL SCTL19 WORD_FF0].
  match goal with |- context [EADC_Calibration K hw ?m3] => set (mo := m3) end.
  destruct (Calibration_summary K hw mo)
    as (evs & Ht & Hc & Hs & _ & _ & He & Hskip & Hrun).
  rewrite Hc, Hs, He, Ht.
  split; [reflexivity|]. split; [reflexivity|]. split.
  - destruct (_ || _); auto.
  - unfold mo at 1. cbn [trace]. 
    destruct (Z.eq_dec (Z.land (CALSR (eadc mo)) (EADC_CALSR_CALIF_Msk K)) 0) as [E|E].
    + destruct (Hrun E) as (vs1 & vs2 & x & y & ->).
      exists (prologue K mo ++ [reset_command K mo] ++ map (Poll EADC_CTL) vs1 ++
              [Store EADC_CALSR x; Store EADC_CALCTL y] ++ map (Poll EADC_CALSR) vs2).
      change (epilogue mo) with (epilogue m).
      rewrite <- !app_assoc. reflexivity.
    + rewrite (Hskip E). exists (prologue K mo).
      change (epilogue mo) with (epilogue m).
      rewrite <- !app_assoc. reflexivity.
Qed.

(** What [EADC_Open] leaves when the finished flag is already up. *)
Lemma EADC_Open_skip mode m :
  Z.land (CALSR (eadc m)) (EADC_CALSR_CALIF_Msk K) <> 0 ->
  g_EADC_i32ErrCode (EADC_Open K hw mode m) = 0 /\
  CTL (eadc (EADC_Open K hw mode m)) =
    Z.lor (Z.lor (Z.land (CTL (eadc m)) (not32 (EADC_CTL_DIFFEN_Msk K)))
                 (Z.lor mode (EADC_CTL_ADCEN_Msk K)))
          (EADC_CTL_ADCEN_Msk K) /\
  WORD_FF0 (eadc (EADC_Open K hw mode m)) = Z.lor (WORD_FF0 (eadc m)) (BIT8 K) /\
  CALSR (eadc (EADC_Open K hw mode m)) = CALSR (eadc m) /\
  CALCTL (eadc (EADC_Open K hw mode m)) = CALCTL (eadc m) /\
  CLK (EADC_Open K hw mode m) = CLK m.
Proof.
  intros Hf. unfold EADC_Open.
  rewrite Calibration_skip by exact Hf.
  repeat split; reflexivity.
Qed.

(** X2.  When CALIF is set on entry, the input mode lies inside DIFFEN and
    ADCEN lies outside it: after [EADC_Open] the error code is zero, ADCEN
    is set, DIFFEN reads back the input mode, BIT8 is set in the word at
    0xFF0, and every other bit of CTL is as it was. *)
Theorem EADC_Open_when_calibrated mode m :
  Z.land (CALSR (eadc m)) (EADC_CALSR_CALIF_Msk K) <> 0 ->
  Z.land mode (EADC_CTL_DIFFEN_Msk K) = mode ->
  Z.land (EADC_CTL_ADCEN_Msk K) (EADC_CTL_DIFFEN_Msk K) = 0 ->
  g_EADC_i32ErrCode (EADC_Open K hw mode m) = 0 /\
  Z.land (CTL (eadc (EADC_Open K hw mode m))) (EADC_CTL_ADCEN_Msk K)
    = EADC_CTL_ADCEN_Msk K /\
  Z.land (CTL (eadc (EADC_Open K hw mode m))) (EADC_CTL_DIFFEN_Msk K) = mode /\
  Z.land (WORD_FF0 (eadc (EADC_Open K hw mode m))) (BIT8 K) = BIT8 K /\
  (forall i, 0 <= i < 32 ->
     Z.testbit (EADC_CTL_DIFFEN_Msk K) i = false ->
     Z.testbit (EADC_CTL_ADCEN_Msk K) i = false ->
     Z.testbit (CTL (eadc (EADC_Open K hw mode m))) i = Z.testbit (CTL (eadc m)) i).
Proof.
  intros Hf Hmode Hdis.
  destruct (EADC_Open_skip mode m Hf) as (He & Hc & Hw & _).
  rewrite He, Hc, Hw.
  split; [reflexivity|]. split; [apply land_set|]. split; [|split; [apply land_set|]].
  - apply Z.bits_inj'. intros i Hi.
    apply (f_equal (fun z => Z.testbit z i)) in Hmode.
    apply (f_equal (fun z => Z.testbit z i)) in Hdis.
    rewrite Z.land_spec in Hmode. rewrite Z.land_spec, Z.bits_0 in Hdis.
    rewrite Z.land_spec, !Z.lor_spec, Z.land_spec, testbit_not32_nonneg by assumption.
    destruct (Z.testbit (CTL (eadc m)) i), (Z.testbit mode i),
      (Z.testbit (EADC_CTL_DIFFEN_Msk K) i), (Z.testbit (EADC_CTL_ADCEN_Msk K) i),
      (i <? 32); cbn in *; congruence.
  - intros i Hi Hd Ha.
    apply (f_equal (fun z => Z.testbit z i)) in Hmode.
    rewrite Z.land_spec, Hd, andb_false_r in Hmode.
    rewrite !Z.lor_spec, Z.land_spec, testbit_not32, Hd, Ha, <- Hmode by assumption.
    cbn. rewrite andb_true_r, !orb_false_r. reflexivity.
Qed.

(** X3.  [EADC_Close] clears ADCEN, whatever CTL held, changes no other bit
    of CTL, and touches no other register, the clock controller or the
    error code. *)
Theorem EADC_Close_clears_ADCEN m :
  Z.land (CTL (eadc (EADC_Close K m))) (EADC_CTL_ADCEN_Msk K) = 0 /\
  (forall i, 0 <= i < 32 ->
     Z.testbit (EADC_CTL_ADCEN_Msk K) i = false ->
     Z.testbit (CTL (eadc (EADC_Close K m))) i = Z.testbit (CTL (eadc m)) i) /\
  CALSR (eadc (EADC_Close K m)) = CALSR (eadc m) /\
  CALCTL (eadc (EADC_Close K m)) = CALCTL (eadc m) /\
  WORD_FF0 (eadc (EADC_Close K m)) = WORD_FF0 (eadc m) /\
  SCTL (eadc (EADC_Close K m)) = SCTL (eadc m) /\
  SCTL19 (eadc (EADC_Close K m)) = SCTL19 (eadc m) /\
  CLK (EADC_Close K m) = CLK m /\
  g_EADC_i32ErrCode (EADC_Close K m) = g_EADC_i32ErrCode m.
Proof.
  unfold EADC_Close.
  cbn [store load write CLK eadc trace SystemCoreClock g_EADC_i32ErrCode
       EADCSEL EADCDIV CTL CALSR CALCTL SCTL SCTL19 WORD_FF0].
  split; [apply land_cleared|]. split; [|repeat split; reflexivity].
  intros i Hi Ha.
  rewrite Z.land_spec, testbit_not32, Ha by assumption.
  apply andb_true_r.
Qed.

(** X4.  Closing a converter that [EADC_Open] found calibrated: ADCEN is
    clear again, DIFFEN still reads back the input mode, the error code is
    still zero and the clock controller is as before the two calls. *)
Theorem EADC_Close_after_Open mode m :
  Z.land (CALSR (eadc m)) (EADC_CALSR_CALIF_Msk K) <> 0 ->
  Z.land mode (EADC_CTL_DIFFEN_Msk K) = mode ->
  Z.land (EADC_CTL_ADCEN_Msk K) (EADC_CTL_DIFFEN_Msk K) = 0 ->
  0 <= mode < 2 ^ 32 ->
  Z.land (CTL (eadc (EADC_Close K (EADC_Open K hw mode m)))) (EADC_CTL_ADCEN_Msk K) = 0 /\
  Z.land (CTL (eadc (EADC_Close K (EADC_Open K hw mode m)))) (EADC_CTL_DIFFEN_Msk K)
    = mode /\
  g_EADC_i32ErrCode (EADC_Close K (EADC_Open K hw mode m)) = 0 /\
  CLK (EADC_Close K (EADC_Open K hw mode m)) = CLK m.
Proof.
  intros Hf Hmode Hdis Hr.
  destruct (EADC_Open_skip mode m Hf) as (He & Hc & _ & _ & _ & Hk).
  unfold EADC_Close.
  cbn [store load write CLK eadc trace SystemCoreClock g_EADC_i32ErrCode
       EADCSEL EADCDIV CTL CALSR CALCTL SCTL SCTL19 WORD_FF0].
  split; [apply land_cleared|]. split; [|split; assumption].
  rewrite Hc.
  apply Z.bits_inj'. intros i Hi.
  apply (f_equal (fun z => Z.testbit z i)) in Hdis.
  apply (f_equal (fun z => Z.testbit z i)) in Hmode.
  rewrite Z.land_spec, Z.bits_0 in Hdis. rewrite Z.land_spec in Hmode.
  rewrite !Z.land_spec, !Z.lor_spec, Z.land_spec, !testbit_not32_nonneg by assumption.
  destruct (Z.ltb_spec i 32).
  - destruct (Z.testbit (CTL (eadc m)) i), (Z.testbit mode i),
      (Z.testbit (EADC_CTL_DIFFEN_Msk K) i), (Z.testbit (EADC_CTL_ADCEN_Msk K) i);
      cbn in *; congruence.
  - rewrite (testbit_small mode 32) by (assumption || lia).
    cbn. rewrite !andb_false_r. reflexivity.
Qed.

(** A read-modify-write pair on a word of [SCTL]. *)
Lemma rmw_SCTL i c s m :
  touches_only_SCTL i m
    (store (EADC_SCTL i)
       (Z.lor (load (EADC_SCTL i) (store (EADC_SCTL i) (Z.land (load (EADC_SCTL i) m) c) m)) s)
       (store (EADC_SCTL i) (Z.land (load (EADC_SCTL i) m) c) m)) /\
  SCTL (eadc
    (store (EADC_SCTL i)
       (Z.lor (load (EADC_SCTL i) (store (EADC_SCTL i) (Z.land (load (EADC_SCTL i) m) c) m)) s)
       (store (EADC_SCTL i) (Z.land (load (EADC_SCTL i) m) c) m))) i
  = Z.lor (Z.land (SCTL (eadc m) i) c) s.
Proof.
  cbn -[Z.land Z.lor]. unfold touches_only_SCTL. cbn -[Z.land Z.lor].
  rewrite !upd_same. split; [|reflexivity].
  split.
  { eexists _, _. rewrite <- app_assoc. reflexivity. }
  split; [intros j Hj; apply upd_other; exact Hj|].
  repeat split; reflexivity.
Qed.

(** The addressed word after any of the three routines, with the pair of
    stores that produced it.  The frame half is drawn on for module numbers
    0 to 27 only. *)
Lemma sample_routine_word n c s m :
  0 <= n < 2 ^ 32 ->
  let m' :=
    if n <? 19 then
      store (EADC_SCTL n)
        (Z.lor (load (EADC_SCTL n) (store (EADC_SCTL n) (Z.land (load (EADC_SCTL n) m) c) m)) s)
        (store (EADC_SCTL n) (Z.land (load (EADC_SCTL n) m) c) m)
    else
      store (EADC_SCTL19 (u32 (n - 19)))
        (Z.lor (load (EADC_SCTL19 (u32 (n - 19)))
                  (store (EADC_SCTL19 (u32 (n - 19)))
                     (Z.land (load (EADC_SCTL19 (u32 (n - 19))) m) c) m)) s)
        (store (EADC_SCTL19 (u32 (n - 19)))
           (Z.land (load (EADC_SCTL19 (u32 (n - 19))) m) c) m) in
  sample_word n (eadc m') = Z.lor (Z.land (sample_word n (eadc m)) c) s /\
  (if n <? 19 then touches_only_SCTL n m m' else touches_only_SCTL19 (n - 19) m m').
Proof.
  intros Hn. unfold sample_word.
  destruct (Z.ltb_spec n 19) as [L|L]; cbv zeta.
  - destruct (rmw_SCTL n c s m) as (Ht & Hv). split; assumption.
  - assert (Hu : u32 (n - 19) = n - 19) by (unfold u32; apply Z.mod_small; lia).
    rewrite Hu.
    destruct (rmw_SCTL19 (n - 19) c s m) as (Ht & Hv). split; assumption.
Qed.

(** Each routine is a read-modify-write pair on the word of its module. *)
Lemma sample_routine_rmw n m m' :
  0 <= n < 2 ^ 32 -> sample_routine K n m m' ->
  exists c s,
    sample_word n (eadc m') = Z.lor (Z.land (sample_word n (eadc m)) c) s /\
    (if n <? 19 then touches_only_SCTL n m m' else touches_only_SCTL19 (n - 19) m m').
Proof.
  intros Hn [(trg & ch & ->) | [(t & d & ->) | (t & ->)]].
  - exists (sample_clear_Msk K), (Z.lor trg ch).
    exact (sample_routine_word n _ _ m Hn).
  - exists (trigger_delay_clear_Msk K),
      (Z.lor (shl32 t (EADC_SCTL_TRGDLCNT_Pos K)) d).
    exact (sample_routine_word n _ _ m Hn).
  - exists (not32 (EADC_SCTL_EXTSMPT_Msk K)), (shl32 t (EADC_SCTL_EXTSMPT_Pos K)).
    exact (sample_routine_word n _ _ m Hn).
Qed.

(** X5.  For a module number from 0 to 27 each of the three routines
    addresses a word inside its array ([SCTL[n]] below 19, [SCTL19[n - 19]]
    from 19 up), performs one read-modify-write pair on it and changes
    nothing else: the words of all other modules, CTL, CALSR, CALCTL, the
    clock controller and the error code are as before. *)
Theorem sample_module_in_range n m m' :
  0 <= n <= 27 ->
  sample_routine K n m m' ->
  touches_only_module n m m' /\
  (forall n', 0 <= n' <= 27 -> n' <> n ->
     sample_word n' (eadc m') = sample_word n' (eadc m)).
Proof.
  intros Hn Hr.
  destruct (sample_routine_rmw n m m') as (c & s & _ & Ht); [lia | exact Hr |].
  unfold touches_only_module, sample_word, SCTL_size, SCTL19_size.
  destruct (Z.ltb_spec n 19) as [L|L].
  - split; [split; [lia | exact Ht]|].
    destruct Ht as (_ & Ho & H19 & _).
    intros n' Hn' Hne. destruct (n' <? 19); [apply Ho; exact Hne | apply H19].
  - split; [split; [lia | exact Ht]|].
    destruct Ht as (_ & Ho & Hs & _).
    intros n' Hn' Hne. destruct (Z.ltb_spec n' 19); [apply Hs | apply Ho; lia].
Qed.

(** X6.  Two calls of [EADC_ConfigSampleModule] on the same module: the bits
    of the first call's arguments that lie outside the four cleared fields
    survive the second call, the rest of the first call is overwritten.  So
    when the first call's arguments lie inside the cleared fields the last
    call wins, and repeating a call changes nothing. *)
Theorem ConfigSampleModule_twice n t1 c1 t2 c2 m :
  0 <= n < 2 ^ 32 ->
  sample_word n (eadc (EADC_ConfigSampleModule K n t2 c2
                         (EADC_ConfigSampleModule K n t1 c1 m))) =
    Z.lor (Z.lor (Z.land (sample_word n (eadc m)) (not32 (sample_fields K)))
                 (Z.land (Z.lor t1 c1) (not32 (sample_fields K))))
          (Z.lor t2 c2) /\
  (Z.land (Z.lor t1 c1) (sample_fields K) = Z.lor t1 c1 ->
   sample_word n (eadc (EADC_ConfigSampleModule K n t2 c2
                          (EADC_ConfigSampleModule K n t1 c1 m))) =
   sample_word n (eadc (EADC_ConfigSampleModule K n t2 c2 m))) /\
  sample_word n (eadc (EADC_ConfigSampleModule K n t1 c1
                         (EADC_ConfigSampleModule K n t1 c1 m))) =
  sample_word n (eadc (EADC_ConfigSampleModule K n t1 c1 m)).
Proof.
  intros Hn.
  assert (W : forall t c m0,
             sample_word n (eadc (EADC_ConfigSampleModule K n t c m0)) =
             Z.lor (Z.land (sample_word n (eadc m0)) (not32 (sample_fields K)))
                   (Z.lor t c)).
  { intros t c m0. exact (proj1 (sample_routine_word n _ _ m0 Hn)). }
  rewrite !W.
  set (x := sample_word n (eadc m)). set (M := sample_fields K).
  set (v1 := Z.lor t1 c1). set (v2 := Z.lor t2 c2).
  split; [|split].
  - apply Z.bits_inj'. intros i Hi.
    rewrite !Z.lor_spec, !Z.land_spec, !Z.lor_spec, !Z.land_spec,
      testbit_not32_nonneg by assumption.
    destruct (Z.testbit x i), (Z.testbit v1 i), (Z.testbit v2 i),
      (Z.testbit M i), (i <? 32); reflexivity.
  - intros Hsub. apply Z.bits_inj'. intros i Hi.
    apply (f_equal (fun z => Z.testbit z i)) in Hsub. rewrite Z.land_spec in Hsub.
    rewrite !Z.lor_spec, !Z.land_spec, !Z.lor_spec, !Z.land_spec,
      testbit_not32_nonneg by assumption.
    destruct (Z.testbit x i), (Z.testbit v1 i), (Z.testbit v2 i),
      (Z.testbit M i), (i <? 32); cbn in *; congruence.
  - apply Z.bits_inj'. intros i Hi.
    rewrite !Z.lor_spec, !Z.land_spec, !Z.lor_spec, !Z.land_spec,
      testbit_not32_nonneg by assumption.
    destruct (Z.testbit x i), (Z.testbit v1 i), (Z.testbit M i), (i <? 32); reflexivity.
Qed.

(** X7.  With EXTSMPT an eight-bit field inside the word:
    [EADC_SetExtendSampleTime] leaves the low eight bits of the requested
    time in EXTSMPT, and when the time is at most 255 it changes no bit
    outside that field. *)
Theorem SetExtendSampleTime_field n t m :
  0 <= n < 2 ^ 32 ->
  0 <= EADC_SCTL_EXTSMPT_Pos K ->
  EADC_SCTL_EXTSMPT_Pos K + 8 <= 32 ->
  EADC_SCTL_EXTSMPT_Msk K = Z.shiftl (Z.ones 8) (EADC_SCTL_EXTSMPT_Pos K) ->
  Z.shiftr (Z.land (sample_word n (eadc (EADC_SetExtendSampleTime K n t m)))
                   (EADC_SCTL_EXTSMPT_Msk K))
           (EADC_SCTL_EXTSMPT_Pos K) = t mod 2 ^ 8 /\
  (0 <= t < 2 ^ 8 ->
   forall i, 0 <= i < 32 -> Z.testbit (EADC_SCTL_EXTSMPT_Msk K) i = false ->
     Z.testbit (sample_word n (eadc (EADC_SetExtendSampleTime K n t m))) i =
     Z.testbit (sample_word n (eadc m)) i).
Proof.
  intros Hn Hp Hin HM.
  assert (W : sample_word n (eadc (EADC_SetExtendSampleTime K n t m)) =
              Z.lor (Z.land (sample_word n (eadc m)) (not32 (EADC_SCTL_EXTSMPT_Msk K)))
                    (shl32 t (EADC_SCTL_EXTSMPT_Pos K)))
    by exact (proj1 (sample_routine_word n _ _ m Hn)).
  rewrite W. split.
  - apply field_read; (lia || assumption).
  - intros Ht i Hi Hm. apply (field_frame _ _ 8); (lia || assumption).
Qed.

(** X8.  With TRGDLCNT an eight-bit field inside the word, TRGDLDIV apart
    from it and the divider selector inside TRGDLDIV:
    [EADC_SetTriggerDelayTime] with a delay of at most 255 leaves the delay
    in TRGDLCNT and the selector in TRGDLDIV, and changes no bit outside the
    two fields. *)
Theorem SetTriggerDelayTime_fields n t d m :
  0 <= n < 2 ^ 32 ->
  0 <= EADC_SCTL_TRGDLCNT_Pos K ->
  EADC_SCTL_TRGDLCNT_Pos K + 8 <= 32 ->
  EADC_SCTL_TRGDLCNT_Msk K = Z.shiftl (Z.ones 8) (EADC_SCTL_TRGDLCNT_Pos K) ->
  Z.land (EADC_SCTL_TRGDLDIV_Msk K) (EADC_SCTL_TRGDLCNT_Msk K) = 0 ->
  Z.land d (EADC_SCTL_TRGDLDIV_Msk K) = d ->
  0 <= t < 2 ^ 8 ->
  Z.shiftr (Z.land (sample_word n (eadc (EADC_SetTriggerDelayTime K n t d m)))
                   (EADC_SCTL_TRGDLCNT_Msk K))
           (EADC_SCTL_TRGDLCNT_Pos K) = t /\
  Z.land (sample_word n (eadc (EADC_SetTriggerDelayTime K n t d m)))
         (EADC_SCTL_TRGDLDIV_Msk K) = d /\
  (forall i, 0 <= i < 32 ->
     Z.testbit (EADC_SCTL_TRGDLCNT_Msk K) i = false ->
     Z.testbit (EADC_SCTL_TRGDLDIV_Msk K) i = false ->
     Z.testbit (sample_word n (eadc (EADC_SetTriggerDelayTime K n t d m))) i =
     Z.testbit (sample_word n (eadc m)) i).
Proof.
  intros Hn Hp Hin HM Hdis Hd Ht.
  assert (W : sample_word n (eadc (EADC_SetTriggerDelayTime K n t d m)) =
              Z.lor (Z.land (sample_word n (eadc m)) (trigger_delay_clear_Msk K))
                    (Z.lor (shl32 t (EADC_SCTL_TRGDLCNT_Pos K)) d))
    by exact (proj1 (sample_routine_word n _ _ m Hn)).
  rewrite W. unfold trigger_delay_clear_Msk.
  set (x := sample_word n (eadc m)).
  set (P := EADC_SCTL_TRGDLCNT_Pos K) in *.
  set (C := EADC_SCTL_TRGDLCNT_Msk K) in *.
  set (D := EADC_SCTL_TRGDLDIV_Msk K) in *.
  assert (Cbit : forall j, 0 <= j -> Z.testbit C j = (0 <=? j - P) && (j - P <? 8))
    by (intros j Hj; rewrite HM; apply testbit_field_mask; lia).
  assert (Dd : forall j, Z.testbit d j = true -> Z.testbit D j = true).
  { intros j Hj. apply (f_equal (fun z => Z.testbit z j)) in Hd.
    rewrite Z.land_spec, Hj in Hd. cbn in Hd. exact Hd. }
  assert (DC : forall j, Z.testbit D j = true -> Z.testbit C j = false).
  { intros j Hj. apply (f_equal (fun z => Z.testbit z j)) in Hdis.
    rewrite Z.land_spec, Z.bits_0, Hj in Hdis. exact Hdis. }
  assert (Tbit : forall j, 0 <= j < 32 -> Z.testbit C j = false ->
            Z.testbit (shl32 t P) j = false).
  { intros j Hj Hc. rewrite testbit_shl32 by assumption.
    rewrite Cbit in Hc by lia.
    destruct (Z.leb_spec 0 (j - P)).
    - destruct (Z.ltb_spec (j - P) 8); [discriminate|].
      apply (testbit_small t 8); (assumption || lia).
    - apply Z.testbit_neg_r. lia. }
  split; [|split].
  - rewrite <- (Z.mod_small t (2 ^ 8)) at 2 by assumption.
    apply Z.bits_inj'. intros j Hj.
    rewrite Z.shiftr_spec, Z.land_spec, !Z.lor_spec, Z.land_spec by assumption.
    rewrite testbit_not32_nonneg, Z.lor_spec, testbit_shl32_nonneg, Cbit by lia.
    replace (j + P - P) with j by lia.
    destruct (Z.leb_spec 0 j); [|lia]. cbn [andb].
    destruct (Z.ltb_spec j 8).
    + rewrite Z.mod_pow2_bits_low by lia.
      destruct (Z.ltb_spec (j + P) 32); [|lia].
      destruct (Z.testbit d (j + P)) eqn:Ed.
      * apply Dd, DC in Ed. rewrite Cbit in Ed by lia.
        replace (j + P - P) with j in Ed by lia.
        destruct (Z.leb_spec 0 j); destruct (Z.ltb_spec j 8); discriminate || lia.
      * destruct (Z.testbit D (j + P)), (Z.testbit x (j + P)), (Z.testbit t j);
          reflexivity.
    + rewrite Z.mod_pow2_bits_high by lia. apply andb_false_r.
  - apply Z.bits_inj'. intros j Hj.
    rewrite Z.land_spec, !Z.lor_spec, Z.land_spec by assumption.
    rewrite testbit_not32_nonneg, Z.lor_spec by assumption.
    destruct (Z.testbit D j) eqn:ED.
    + destruct (Z.ltb_spec j 32).
      * rewrite (Tbit j) by (lia || auto).
        destruct (Z.testbit x j), (Z.testbit C j), (Z.testbit d j); reflexivity.
      * rewrite testbit_shl32_nonneg by assumption.
        destruct (Z.ltb_spec j 32); [lia|].
        destruct (Z.testbit x j), (Z.testbit C j), (Z.testbit d j); reflexivity.
    + destruct (Z.testbit d j) eqn:Ed; [apply Dd in Ed; congruence|].
      rewrite !andb_false_r. reflexivity.
  - intros i Hi Hc HD.
    rewrite !Z.lor_spec, Z.land_spec, testbit_not32, Z.lor_spec, Hc, HD by assumption.
    rewrite (Tbit i) by assumption.
    destruct (Z.testbit d i) eqn:Ed; [apply Dd in Ed; congruence|].
    cbn. rewrite andb_true_r, orb_false_r. reflexivity.
Qed.

End EADC_More_Properties.

(** ** Module numbers past 27 *)

Section EADC_Unchecked_Module.
Import EADC EADC_Modules.
Variable K : header.

Lemma trace_store w v m : trace (store w v m) = trace m ++ [Store w v].
Proof. unfold store. destruct (write w v (CLK m) (eadc m)). reflexivity. Qed.

(** The two stores of a read-modify-write pair on a register [w], as they
    appear on the bus: the first carries the word read with the bits of
    [msk] cleared, the second carries the word read back with the bits of
    [s] set.  This holds whatever the reads return. *)
Lemma rmw_stores w msk s m :
  exists v1 v2,
    trace (store w (Z.lor (load w (store w (Z.land (load w m) (not32 msk)) m)) s)
             (store w (Z.land (load w m) (not32 msk)) m)) =
      trace m ++ [Store w v1; Store w v2] /\
    Z.land v1 msk = 0 /\
    Z.land v2 s = s.
Proof.
  exists (Z.land (load w m) (not32 msk)),
         (Z.lor (load w (store w (Z.land (load w m) (not32 msk)) m)) s).
  split; [|split].
  - rewrite !trace_store, <- app_assoc. reflexivity.
  - apply land_cleared.
  - apply land_set.
Qed.

(** C5, as amended.  The three routines do not check the upper end of the
    module number.  For a module number [n] from 28 up each of them takes
    its second branch and issues exactly two stores, both addressed at word
    [n - 19] counted from the base of [SCTL19], an index past the nine words
    of that array.  The first store carries a word in which the fields of
    the routine are clear, the second a word in which the requested bits are
    set.  Nothing is said about the state afterwards: it depends on what
    lies at that address. *)
Theorem sample_module_number_unchecked n m :
  28 <= n < 2 ^ 32 ->
  SCTL19_size <= n - 19 /\
  (forall trg ch, exists v1 v2,
     trace (EADC_ConfigSampleModule K n trg ch m) =
       trace m ++ [Store (EADC_SCTL19 (n - 19)) v1; Store (EADC_SCTL19 (n - 19)) v2] /\
     Z.land v1 (sample_fields K) = 0 /\
     Z.land v2 (Z.lor trg ch) = Z.lor trg ch) /\
  (forall t d, exists v1 v2,
     trace (EADC_SetTriggerDelayTime K n t d m) =
       trace m ++ [Store (EADC_SCTL19 (n - 19)) v1; Store (EADC_SCTL19 (n - 19)) v2] /\
     Z.land v1 (Z.lor (EADC_SCTL_TRGDLDIV_Msk K) (EADC_SCTL_TRGDLCNT_Msk K)) = 0 /\
     Z.land v2 (Z.lor (shl32 t (EADC_SCTL_TRGDLCNT_Pos K)) d) =
       Z.lor (shl32 t (EADC_SCTL_TRGDLCNT_Pos K)) d) /\
  (forall t, exists v1 v2,
     trace (EADC_SetExtendSampleTime K n t m) =
       trace m ++ [Store (EADC_SCTL19 (n - 19)) v1; Store (EADC_SCTL19 (n - 19)) v2] /\
     Z.land v1 (EADC_SCTL_EXTSMPT_Msk K) = 0 /\
     Z.land v2 (shl32 t (EADC_SCTL_EXTSMPT_Pos K)) = shl32 t (EADC_SCTL_EXTSMPT_Pos K)).
Proof.
  intros Hn.
  assert (Hlt : (n <? 19) = false) by (apply Z.ltb_ge; lia).
  assert (Hu : u32 (n - 19) = n - 19) by (unfold u32; apply Z.mod_small; lia).
  split; [unfold SCTL19_size; lia|].
  unfold EADC_ConfigSampleModule, EADC_SetTriggerDelayTime, EADC_SetExtendSampleTime,
    sample_clear_Msk, trigger_delay_clear_Msk, sample_fields.
  rewrite Hlt, Hu.
  split; [|split]; intros; apply rmw_stores.
Qed.

End EADC_Unchecked_Module.

Section EADC_Unchecked_Module_Runs.
Import EADC Sample.

(** C5, at module number 28. *)
Lemma sample_module_number_unchecked_run :
  28 <= 28 < 2 ^ 32 /\
  exists v1 v2,
    trace (EADC_ConfigSampleModule eadc_h 28 0 1 (machine_with 0 0 0 0)) =
      trace (machine_with 0 0 0 0) ++ [Store (EADC_SCTL19 9) v1; Store (EADC_SCTL19 9) v2].
Proof.
  assert (H : 28 <= 28 < 2 ^ 32) by lia.
  split; [exact H|].
  destruct (sample_module_number_unchecked eadc_h 28 (machine_with 0 0 0 0) H)
    as (_ & Hc & _).
  destruct (Hc 0 1) as (v1 & v2 & Ht & _).
  exists v1, v2. exact Ht.
Defined.

End EADC_Unchecked_Module_Runs.

(** ** More about the USCI-SPI driver *)

Section USPI_More_Clock.
Import USPI USPI_More.
Variable K : header.
Variable PCLK1 : Z.

Lemma bus_clock_of_small c :
  0 <= c < 2 ^ 10 -> bus_clock PCLK1 c = Some (PCLK1 / (2 * (c + 1))).
Proof.
  intros Hc. unfold bus_clock, udiv, shl32, u32.
  change (2 ^ 10) with 1024 in Hc.
  rewrite (Z.mod_small (c + 1)) by lia.
  rewrite Z.shiftl_mul_pow2 by lia. change (2 ^ 1) with 2.
  rewrite (Z.mod_small ((c + 1) * 2)) by lia.
  destruct (Z.eqb_spec ((c + 1) * 2) 0); [lia|].
  rewrite (Z.mul_comm (c + 1) 2). reflexivity.
Qed.

(** The CLKDIV field of any BRGEN value is below 2^10. *)
Lemma CLKDIV_field_range b :
  0 <= USPI_BRGEN_CLKDIV_Pos K ->
  USPI_BRGEN_CLKDIV_Msk K = Z.shiftl (Z.ones 10) (USPI_BRGEN_CLKDIV_Pos K) ->
  0 <= Z.shiftr (Z.land b (USPI_BRGEN_CLKDIV_Msk K)) (USPI_BRGEN_CLKDIV_Pos K) < 2 ^ 10.
Proof.
  intros Hp HM.
  set (f := Z.shiftr (Z.land b (USPI_BRGEN_CLKDIV_Msk K)) (USPI_BRGEN_CLKDIV_Pos K)).
  assert (Hf : f = f mod 2 ^ 10).
  { apply Z.bits_inj'. intros n Hn.
    destruct (Z.ltb_spec n 10).
    - rewrite Z.mod_pow2_bits_low by lia. reflexivity.
    - rewrite Z.mod_pow2_bits_high by lia. unfold f.
      rewrite Z.shiftr_spec, Z.land_spec, HM, testbit_field_mask by lia.
      replace (n + USPI_BRGEN_CLKDIV_Pos K - USPI_BRGEN_CLKDIV_Pos K) with n by lia.
      destruct (Z.ltb_spec n 10); [lia|]. rewrite !andb_false_r. reflexivity. }
  rewrite Hf. apply Z.mod_pos_bound. lia.
Qed.

(** X9.  With CLKDIV a ten-bit field inside BRGEN, [USPI_GetBusClock] never
    divides by zero and leaves the registers alone: on USPI0 it returns
    [PCLK1 / (2 * (c + 1))] for the field value [c], which is below 1024; on
    any other handle it returns 0. *)
Theorem USPI_GetBusClock_total uspi :
  0 <= USPI_BRGEN_CLKDIV_Pos K ->
  USPI_BRGEN_CLKDIV_Msk K = Z.shiftl (Z.ones 10) (USPI_BRGEN_CLKDIV_Pos K) ->
  (exists c,
     0 <= c < 2 ^ 10 /\
     c = Z.shiftr (Z.land (BRGEN uspi) (USPI_BRGEN_CLKDIV_Msk K))
                  (USPI_BRGEN_CLKDIV_Pos K) /\
     USPI_GetBusClock K PCLK1 true uspi = Returns (PCLK1 / (2 * (c + 1))) uspi) /\
  USPI_GetBusClock K PCLK1 false uspi = Returns 0 uspi.
Proof.
  intros Hp HM. split; [|reflexivity].
  eexists. split; [apply (CLKDIV_field_range (BRGEN uspi)); assumption|].
  split; [reflexivity|].
  unfold USPI_GetBusClock.
  rewrite bus_clock_of_small by (apply CLKDIV_field_range; assumption).
  reflexivity.
Qed.

(** X10.  Under the conditions of the rounding result and with CLKDIV a
    ten-bit field inside BRGEN: after [USPI_SetBusClock], [USPI_GetBusClock]
    computes the frequency from the low ten bits of the divider.  When the
    divider is below 1024 it returns the frequency [USPI_SetBusClock]
    returned; a larger divider is cut to its low ten bits. *)
Theorem USPI_GetBusClock_after_SetBusClock bus uspi :
  0 < bus -> bus <= 2 * (PCLK1 / 2) -> PCLK1 / 2 * 10 < 2 ^ 32 ->
  0 <= USPI_BRGEN_CLKDIV_Pos K ->
  USPI_BRGEN_CLKDIV_Pos K + 10 <= 32 ->
  USPI_BRGEN_CLKDIV_Msk K = Z.shiftl (Z.ones 10) (USPI_BRGEN_CLKDIV_Pos K) ->
  exists u',
    USPI_SetBusClock K PCLK1 true bus uspi =
      Returns (PCLK1 / (2 * (documented_divider PCLK1 bus + 1))) u' /\
    USPI_GetBusClock K PCLK1 true u' =
      Returns (PCLK1 / (2 * (documented_divider PCLK1 bus mod 2 ^ 10 + 1))) u' /\
    (documented_divider PCLK1 bus < 2 ^ 10 ->
     USPI_GetBusClock K PCLK1 true u' =
       Returns (PCLK1 / (2 * (documented_divider PCLK1 bus + 1))) u').
Proof.
  intros Hb Hle Hov Hp Hin HM.
  destruct (clock_divider_exact PCLK1 bus Hb Hle Hov) as (Hd & Hc).
  set (d := documented_divider PCLK1 bus) in *.
  assert (Hd0 : 0 <= d).
  { unfold clock_divider, udiv in Hd.
    destruct (bus =? 0); [discriminate|]. injection Hd as Hd.
    rewrite <- Hd. unfold u32. apply Z.mod_pos_bound. lia. }
  unfold USPI_SetBusClock. rewrite Hd, Hc.
  eexists. split; [reflexivity|].
  assert (G : USPI_GetBusClock K PCLK1 true
                (set_BRGEN
                   (Z.lor (BRGEN (set_BRGEN (Z.land (BRGEN uspi)
                                    (not32 (USPI_BRGEN_CLKDIV_Msk K))) uspi))
                          (shl32 d (USPI_BRGEN_CLKDIV_Pos K)))
                   (set_BRGEN (Z.land (BRGEN uspi) (not32 (USPI_BRGEN_CLKDIV_Msk K))) uspi))
              = Returns (PCLK1 / (2 * (d mod 2 ^ 10 + 1)))
                  (set_BRGEN
                     (Z.lor (BRGEN (set_BRGEN (Z.land (BRGEN uspi)
                                      (not32 (USPI_BRGEN_CLKDIV_Msk K))) uspi))
                            (shl32 d (USPI_BRGEN_CLKDIV_Pos K)))
                     (set_BRGEN (Z.land (BRGEN uspi) (not32 (USPI_BRGEN_CLKDIV_Msk K))) uspi))).
  { unfold USPI_GetBusClock. cbn [BRGEN set_BRGEN].
    rewrite (field_read _ d 10) by (lia || assumption).
    rewrite bus_clock_of_small by (apply Z.mod_pos_bound; lia).
    reflexivity. }
  split; [exact G|].
  intros Hfit. rewrite G. rewrite (Z.mod_small d) by lia. reflexivity.
Qed.

End USPI_More_Clock.

Section USPI_More_Setup.
Import USPI USPI_More.
Variable K : header.
Variable H : more_header.
Variable PCLK1 : Z.

(** What [USPI_Open] leaves in CTL, CTLIN0 and PROTCTL, whichever way the
    call ends. *)
Lemma USPI_Open_registers (is_USPI0 : bool) p0 ms mode dw bus uspi :
  CTL (block (USPI_Open K PCLK1 is_USPI0 p0 ms mode dw bus uspi)) =
    Z.lor (Z.land (CTL uspi) (not32 (USPI_CTL_FUNMODE_Msk K)))
          (shl32 1 (USPI_CTL_FUNMODE_Pos K)) /\
  CTLIN0 (block (USPI_Open K PCLK1 is_USPI0 p0 ms mode dw bus uspi)) =
    (if ms =? USPI_MASTER K then CTLIN0 uspi
     else Z.lor (CTLIN0 uspi) (USPI_CTLIN0_ININV_Msk K)) /\
  PROTCTL (block (USPI_Open K PCLK1 is_USPI0 p0 ms mode dw bus uspi)) =
    Z.lor (Z.lor (Z.land (PROTCTL uspi)
                    (not32 (Z.lor (Z.lor (USPI_PROTCTL_SCLKMODE_Msk K)
                                         (USPI_PROTCTL_AUTOSS_Msk K))
                                  (USPI_PROTCTL_SLAVE_Msk K))))
                 (Z.lor ms mode))
          (USPI_PROTCTL_PROTEN_Msk K).
Proof.
  unfold USPI_Open.
  destruct (Z.eqb_spec bus 0) as [Hb|Hb]; cbn [negb].
  - destruct (ms =? USPI_MASTER K); repeat split; reflexivity.
  - unfold clock_divider, udiv. apply Z.eqb_neq in Hb. rewrite Hb.
    destruct (bus_clock _ _); destruct (ms =? USPI_MASTER K); repeat split; reflexivity.
Qed.

(** X11.  With the one-bit function-mode value inside FUNMODE, the mode
    selectors inside the three fields [USPI_Open] clears, and PROTEN outside
    them: after [USPI_Open], however the call ends, FUNMODE selects the SPI
    protocol, PROTEN is set, the three fields read back the master/slave and
    timing selectors, the slave-select inversion is set in LINECTL (master)
    or CTLIN0 (any other mode), and no other bit of CTL or PROTCTL has
    changed. *)
Theorem USPI_Open_configures (is_USPI0 : bool) p0 ms mode dw bus uspi :
  Z.land (shl32 1 (USPI_CTL_FUNMODE_Pos K)) (USPI_CTL_FUNMODE_Msk K)
    = shl32 1 (USPI_CTL_FUNMODE_Pos K) ->
  Z.land (Z.lor ms mode)
         (Z.lor (Z.lor (USPI_PROTCTL_SCLKMODE_Msk K) (USPI_PROTCTL_AUTOSS_Msk K))
                (USPI_PROTCTL_SLAVE_Msk K)) = Z.lor ms mode ->
  Z.land (USPI_PROTCTL_PROTEN_Msk K)
         (Z.lor (Z.lor (USPI_PROTCTL_SCLKMODE_Msk K) (USPI_PROTCTL_AUTOSS_Msk K))
                (USPI_PROTCTL_SLAVE_Msk K)) = 0 ->
  Z.land (CTL (block (USPI_Open K PCLK1 is_USPI0 p0 ms mode dw bus uspi)))
         (USPI_CTL_FUNMODE_Msk K) = shl32 1 (USPI_CTL_FUNMODE_Pos K) /\
  Z.land (PROTCTL (block (USPI_Open K PCLK1 is_USPI0 p0 ms mode dw bus uspi)))
         (USPI_PROTCTL_PROTEN_Msk K) = USPI_PROTCTL_PROTEN_Msk K /\
  Z.land (PROTCTL (block (USPI_Open K PCLK1 is_USPI0 p0 ms mode dw bus uspi)))
         (Z.lor (Z.lor (USPI_PROTCTL_SCLKMODE_Msk K) (USPI_PROTCTL_AUTOSS_Msk K))
                (USPI_PROTCTL_SLAVE_Msk K)) = Z.lor ms mode /\
  (if ms =? USPI_MASTER K
   then Z.land (LINECTL (block (USPI_Open K PCLK1 is_USPI0 p0 ms mode dw bus uspi)))
               (USPI_LINECTL_CTLOINV_Msk K) = USPI_LINECTL_CTLOINV_Msk K
   else Z.land (CTLIN0 (block (USPI_Open K PCLK1 is_USPI0 p0 ms mode dw bus uspi)))
               (USPI_CTLIN0_ININV_Msk K) = USPI_CTLIN0_ININV_Msk K) /\
  (forall i, 0 <= i < 32 ->
     Z.testbit (USPI_CTL_FUNMODE_Msk K) i = false ->
     Z.testbit (CTL (block (USPI_Open K PCLK1 is_USPI0 p0 ms mode dw bus uspi))) i =
     Z.testbit (CTL uspi) i) /\
  (forall i, 0 <= i < 32 ->
     Z.testbit (Z.lor (Z.lor (USPI_PROTCTL_SCLKMODE_Msk K) (USPI_PROTCTL_AUTOSS_Msk K))
                      (USPI_PROTCTL_SLAVE_Msk K)) i = false ->
     Z.testbit (USPI_PROTCTL_PROTEN_Msk K) i = false ->
     Z.testbit (PROTCTL (block (USPI_Open K PCLK1 is_USPI0 p0 ms mode dw bus uspi))) i =
     Z.testbit (PROTCTL uspi) i).
Proof.
  intros HF HM HP.
  destruct (USPI_Open_registers is_USPI0 p0 ms mode dw bus uspi) as (Hc & Hi & Hp).
  rewrite Hc, Hi, Hp, USPI_Open_LINECTL. cbv zeta.
  set (F := Z.lor (Z.lor (USPI_PROTCTL_SCLKMODE_Msk K) (USPI_PROTCTL_AUTOSS_Msk K))
                  (USPI_PROTCTL_SLAVE_Msk K)) in *.
  set (v := Z.lor ms mode) in *.
  split; [apply masked_write_read; exact HF|].
  split; [apply land_set|].
  split; [|split; [|split]].
  - apply Z.bits_inj'. intros i Hi0.
    apply (f_equal (fun z => Z.testbit z i)) in HM.
    apply (f_equal (fun z => Z.testbit z i)) in HP.
    rewrite Z.land_spec in HM. rewrite Z.land_spec, Z.bits_0 in HP.
    rewrite Z.land_spec, !Z.lor_spec, Z.land_spec, testbit_not32_nonneg by assumption.
    destruct (Z.testbit (PROTCTL uspi) i), (Z.testbit v i),
      (Z.testbit F i), (Z.testbit (USPI_PROTCTL_PROTEN_Msk K) i), (i <? 32);
      cbn in *; congruence.
  - destruct (ms =? USPI_MASTER K); apply land_set.
  - intros i Hi0 Hm. apply masked_write_frame; assumption.
  - intros i Hi0 Hm He.
    rewrite Z.lor_spec, He, orb_false_r.
    apply masked_write_frame; assumption.
Qed.

Variable SYS_T : Type.
Variable SYS_IsRegLocked : SYS_T -> Z.
Variable SYS_UnlockReg : SYS_T -> SYS_T.
Variable SYS_LockReg : SYS_T -> SYS_T.

(** X12.  [USPI_Close] clears FUNMODE and changes no other bit of CTL and no
    other register.  It unlocks and re-locks the protected registers only
    when they were locked on entry; when they were unlocked it calls
    neither.  Closing after [USPI_Open] leaves CTL as closing alone does,
    when the function-mode value lies inside FUNMODE. *)
Theorem USPI_Close_clears_FUNMODE sys uspi :
  Z.land (CTL (snd (USPI_Close K SYS_T SYS_IsRegLocked SYS_UnlockReg SYS_LockReg sys uspi)))
         (USPI_CTL_FUNMODE_Msk K) = 0 /\
  (forall i, 0 <= i < 32 ->
     Z.testbit (USPI_CTL_FUNMODE_Msk K) i = false ->
     Z.testbit
       (CTL (snd (USPI_Close K SYS_T SYS_IsRegLocked SYS_UnlockReg SYS_LockReg sys uspi))) i
     = Z.testbit (CTL uspi) i) /\
  snd (USPI_Close K SYS_T SYS_IsRegLocked SYS_UnlockReg SYS_LockReg sys uspi) =
    set_CTL (Z.land (CTL uspi) (not32 (USPI_CTL_FUNMODE_Msk K))) uspi /\
  (SYS_IsRegLocked sys = 0 ->
   fst (USPI_Close K SYS_T SYS_IsRegLocked SYS_UnlockReg SYS_LockReg sys uspi) = sys) /\
  (SYS_IsRegLocked sys <> 0 ->
   fst (USPI_Close K SYS_T SYS_IsRegLocked SYS_UnlockReg SYS_LockReg sys uspi) =
   SYS_LockReg (SYS_UnlockReg sys)) /\
  (forall (is_USPI0 : bool) p0 ms mode dw bus,
     Z.land (shl32 1 (USPI_CTL_FUNMODE_Pos K)) (USPI_CTL_FUNMODE_Msk K)
       = shl32 1 (USPI_CTL_FUNMODE_Pos K) ->
     CTL (snd (USPI_Close K SYS_T SYS_IsRegLocked SYS_UnlockReg SYS_LockReg sys
                 (block (USPI_Open K PCLK1 is_USPI0 p0 ms mode dw bus uspi)))) =
     CTL (snd (USPI_Close K SYS_T SYS_IsRegLocked SYS_UnlockReg SYS_LockReg sys uspi))).
Proof.
  unfold USPI_Close. cbn [fst snd CTL set_CTL].
  split; [apply land_cleared|].
  split.
  { intros i Hi Hm. rewrite Z.land_spec, testbit_not32, Hm by assumption.
    apply andb_true_r. }
  split; [reflexivity|].
  split; [intros ->; reflexivity|].
  split.
  { intros Hl. apply Z.eqb_neq in Hl. rewrite Hl. reflexivity. }
  intros is_USPI0 p0 ms mode dw bus HF.
  destruct (USPI_Open_registers is_USPI0 p0 ms mode dw bus uspi) as (Hc & _).
  rewrite Hc.
  apply Z.bits_inj'. intros i Hi.
  apply (f_equal (fun z => Z.testbit z i)) in HF. rewrite Z.land_spec in HF.
  rewrite !Z.land_spec, Z.lor_spec, Z.land_spec, testbit_not32_nonneg by assumption.
  destruct (Z.testbit (CTL uspi) i), (Z.testbit (shl32 1 (USPI_CTL_FUNMODE_Pos K)) i),
    (Z.testbit (USPI_CTL_FUNMODE_Msk K) i), (i <? 32); cbn in *; congruence.
Qed.

(** X13.  With the active level inside CTLOINV: [USPI_EnableAutoSS] sets
    AUTOSS and makes CTLOINV read back the active level, whatever its
    (unused) pin-mask argument; [USPI_DisableAutoSS] afterwards leaves
    AUTOSS and SS clear, keeps the active level, and restores every other
    bit of PROTCTL. *)
Theorem USPI_AutoSS_round (pins1 pins2 level : Z) uspi :
  Z.land level (USPI_LINECTL_CTLOINV_Msk K) = level ->
  Z.land (PROTCTL (USPI_EnableAutoSS K pins1 level uspi)) (USPI_PROTCTL_AUTOSS_Msk K)
    = USPI_PROTCTL_AUTOSS_Msk K /\
  Z.land (LINECTL (USPI_EnableAutoSS K pins1 level uspi)) (USPI_LINECTL_CTLOINV_Msk K)
    = level /\
  USPI_EnableAutoSS K pins1 level uspi = USPI_EnableAutoSS K pins2 level uspi /\
  Z.land (PROTCTL (USPI_DisableAutoSS K H (USPI_EnableAutoSS K pins1 level uspi)))
         (Z.lor (USPI_PROTCTL_AUTOSS_Msk K) (USPI_PROTCTL_SS_Msk H)) = 0 /\
  LINECTL (USPI_DisableAutoSS K H (USPI_EnableAutoSS K pins1 level uspi)) =
    LINECTL (USPI_EnableAutoSS K pins1 level uspi) /\
  (forall i, 0 <= i < 32 ->
     Z.testbit (Z.lor (USPI_PROTCTL_AUTOSS_Msk K) (USPI_PROTCTL_SS_Msk H)) i = false ->
     Z.testbit (PROTCTL (USPI_DisableAutoSS K H (USPI_EnableAutoSS K pins1 level uspi))) i
     = Z.testbit (PROTCTL uspi) i).
Proof.
  intros Hl. unfold USPI_DisableAutoSS, USPI_EnableAutoSS.
  cbn [PROTCTL LINECTL set_PROTCTL set_LINECTL].
  split; [apply land_set|].
  split; [apply masked_write_read; exact Hl|].
  split; [reflexivity|].
  split; [apply land_cleared|].
  split; [reflexivity|].
  intros i Hi Hm.
  rewrite Z.land_spec, testbit_not32, Hm, Z.lor_spec by assumption.
  rewrite Z.lor_spec in Hm. apply orb_false_elim in Hm. destruct Hm as (Ha & _).
  rewrite Ha. cbn. rewrite andb_true_r, orb_false_r. reflexivity.
Qed.

End USPI_More_Setup.

Section USPI_More_Interrupts.
Import USPI_More.
Variable H : more_header.

(** The three enable registers after [USPI_EnableInt], one conditional
    set per source in the order of the code. *)
Lemma USPI_EnableInt_registers mask u :
  PROTIEN (USPI_EnableInt H mask u) =
    set_if (selects mask (USPI_SLVBE_INT_MASK H))
      (set_if (selects mask (USPI_SLVTO_INT_MASK H))
        (set_if (selects mask (USPI_SSACT_INT_MASK H))
          (set_if (selects mask (USPI_SSINACT_INT_MASK H))
             (PROTIEN u) (USPI_PROTIEN_SSINAIEN_Msk H))
          (USPI_PROTIEN_SSACTIEN_Msk H))
        (USPI_PROTIEN_SLVTOIEN_Msk H))
      (USPI_PROTIEN_SLVBEIEN_Msk H) /\
  BUFCTL (USPI_EnableInt H mask u) =
    set_if (selects mask (USPI_RXOV_INT_MASK H))
      (set_if (selects mask (USPI_TXUDR_INT_MASK H))
         (BUFCTL u) (USPI_BUFCTL_TXUDRIEN_Msk H))
      (USPI_BUFCTL_RXOVIEN_Msk H) /\
  INTEN (USPI_EnableInt H mask u) =
    set_if (selects mask (USPI_RXEND_INT_MASK H))
      (set_if (selects mask (USPI_RXST_INT_MASK H))
        (set_if (selects mask (USPI_TXEND_INT_MASK H))
          (set_if (selects mask (USPI_TXST_INT_MASK H))
             (INTEN u) (USPI_INTEN_TXSTIEN_Msk H))
          (USPI_INTEN_TXENDIEN_Msk H))
        (USPI_INTEN_RXSTIEN_Msk H))
      (USPI_INTEN_RXENDIEN_Msk H) /\
  PROTSTS (USPI_EnableInt H mask u) = PROTSTS u /\
  BUFSTS (USPI_EnableInt H mask u) = BUFSTS u.
Proof.
  unfold USPI_EnableInt, set_if.
  destruct (selects mask (USPI_SSINACT_INT_MASK H)),
    (selects mask (USPI_SSACT_INT_MASK H)),
    (selects mask (USPI_SLVTO_INT_MASK H)),
    (selects mask (USPI_SLVBE_INT_MASK H)),
    (selects mask (USPI_TXUDR_INT_MASK H)),
    (selects mask (USPI_RXOV_INT_MASK H)),
    (selects mask (USPI_TXST_INT_MASK H)),
    (selects mask (USPI_TXEND_INT_MASK H)),
    (selects mask (USPI_RXST_INT_MASK H)),
    (selects mask (USPI_RXEND_INT_MASK H)); repeat split; reflexivity.
Qed.

Lemma USPI_DisableInt_registers mask u :
  PROTIEN (USPI_DisableInt H mask u) =
    clear_if (selects mask (USPI_SLVBE_INT_MASK H))
      (clear_if (selects mask (USPI_SLVTO_INT_MASK H))
        (clear_if (selects mask (USPI_SSACT_INT_MASK H))
          (clear_if (selects mask (USPI_SSINACT_INT_MASK H))
             (PROTIEN u) (USPI_PROTIEN_SSINAIEN_Msk H))
          (USPI_PROTIEN_SSACTIEN_Msk H))
        (USPI_PROTIEN_SLVTOIEN_Msk H))
      (USPI_PROTIEN_SLVBEIEN_Msk H) /\
  BUFCTL (USPI_DisableInt H mask u) =
    clear_if (selects mask (USPI_RXOV_INT_MASK H))
      (clear_if (selects mask (USPI_TXUDR_INT_MASK H))
         (BUFCTL u) (USPI_BUFCTL_TXUDRIEN_Msk H))
      (USPI_BUFCTL_RXOVIEN_Msk H) /\
  INTEN (USPI_DisableInt H mask u) =
    clear_if (selects mask (USPI_RXEND_INT_MASK H))
      (clear_if (selects mask (USPI_RXST_INT_MASK H))
        (clear_if (selects mask (USPI_TXEND_INT_MASK H))
          (clear_if (selects mask (USPI_TXST_INT_MASK H))
             (INTEN u) (USPI_INTEN_TXSTIEN_Msk H))
          (USPI_INTEN_TXENDIEN_Msk H))
        (USPI_INTEN_RXSTIEN_Msk H))
      (USPI_INTEN_RXENDIEN_Msk H) /\
  PROTSTS (USPI_DisableInt H mask u) = PROTSTS u /\
  BUFSTS (USPI_DisableInt H mask u) = BUFSTS u.
Proof.
  unfold USPI_DisableInt, clear_if.
  destruct (selects mask (USPI_SSINACT_INT_MASK H)),
    (selects mask (USPI_SSACT_INT_MASK H)),
    (selects mask (USPI_SLVTO_INT_MASK H)),
    (selects mask (USPI_SLVBE_INT_MASK H)),
    (selects mask (USPI_TXUDR_INT_MASK H)),
    (selects mask (USPI_RXOV_INT_MASK H)),
    (selects mask (USPI_TXST_INT_MASK H)),
    (selects mask (USPI_TXEND_INT_MASK H)),
    (selects mask (USPI_RXST_INT_MASK H)),
    (selects mask (USPI_RXEND_INT_MASK H)); repeat split; reflexivity.
Qed.

Lemma set_if_here x m : Z.land (set_if true x m) m = m.
Proof. apply land_set. Qed.

Lemma set_if_keeps b x m k : Z.land x k = k -> Z.land (set_if b x m) k = k.
Proof. destruct b; cbn; [apply land_set_keeps | auto]. Qed.

Lemma set_if_grows b x m i :
  Z.testbit x i = true -> Z.testbit (set_if b x m) i = true.
Proof.
  intros Hx. destruct b; cbn; [|exact Hx].
  rewrite Z.lor_spec, Hx. reflexivity.
Qed.

Lemma clear_if_here x m : Z.land (clear_if true x m) m = 0.
Proof. apply land_cleared. Qed.

Lemma clear_if_keeps b x m k : Z.land x k = 0 -> Z.land (clear_if b x m) k = 0.
Proof. destruct b; cbn; [apply land_clear_keeps | auto]. Qed.

Lemma clear_if_shrinks b x m i :
  Z.testbit x i = false -> Z.testbit (clear_if b x m) i = false.
Proof.
  intros Hx. destruct b; cbn; [|exact Hx].
  rewrite Z.land_spec, Hx. reflexivity.
Qed.

(** X14.  After [USPI_EnableInt] every enable bit of every source selected
    by the mask is set.  The routine never clears a bit of the three enable
    registers and does not touch the status registers. *)
Theorem USPI_EnableInt_sets mask u :
  (forall s, selects mask (INT_MASK H s) = true ->
     Z.land (enable_reg s (USPI_EnableInt H mask u)) (enable_bit H s) = enable_bit H s) /\
  (forall s i, Z.testbit (enable_reg s u) i = true ->
     Z.testbit (enable_reg s (USPI_EnableInt H mask u)) i = true) /\
  PROTSTS (USPI_EnableInt H mask u) = PROTSTS u /\
  BUFSTS (USPI_EnableInt H mask u) = BUFSTS u.
Proof.
  destruct (USPI_EnableInt_registers mask u) as (Hp & Hb & Hi & Hs1 & Hs2).
  split; [|split; [|split; assumption]].
  - intros s Hsel.
    destruct s; cbn [enable_reg enable_bit INT_MASK] in *;
      rewrite ?Hp, ?Hb, ?Hi, Hsel;
      repeat first [apply set_if_here | apply set_if_keeps].
  - intros s i Hx.
    destruct s; cbn [enable_reg] in *; rewrite ?Hp, ?Hb, ?Hi;
      repeat apply set_if_grows; exact Hx.
Qed.

(** X15.  After [USPI_DisableInt] every enable bit of every source selected
    by the mask is clear.  The routine never sets a bit of the three enable
    registers and does not touch the status registers. *)
Theorem USPI_DisableInt_clears mask u :
  (forall s, selects mask (INT_MASK H s) = true ->
     Z.land (enable_reg s (USPI_DisableInt H mask u)) (enable_bit H s) = 0) /\
  (forall s i, Z.testbit (enable_reg s u) i = false ->
     Z.testbit (enable_reg s (USPI_DisableInt H mask u)) i = false) /\
  PROTSTS (USPI_DisableInt H mask u) = PROTSTS u /\
  BUFSTS (USPI_DisableInt H mask u) = BUFSTS u.
Proof.
  destruct (USPI_DisableInt_registers mask u) as (Hp & Hb & Hi & Hs1 & Hs2).
  split; [|split; [|split; assumption]].
  - intros s Hsel.
    destruct s; cbn [enable_reg enable_bit INT_MASK] in *;
      rewrite ?Hp, ?Hb, ?Hi, Hsel;
      repeat first [apply clear_if_here | apply clear_if_keeps].
  - intros s i Hx.
    destruct s; cbn [enable_reg] in *; rewrite ?Hp, ?Hb, ?Hi;
      repeat apply clear_if_shrinks; exact Hx.
Qed.

End USPI_More_Interrupts.

Section USPI_More_Flags.
Import USPI_More.
Variable H : more_header.

Lemma clear_after_set4 b1 b2 b3 b4 p m1 m2 m3 m4 :
  clear_if b4 (clear_if b3 (clear_if b2 (clear_if b1
    (set_if b4 (set_if b3 (set_if b2 (set_if b1 p m1) m2) m3) m4) m1) m2) m3) m4 =
  clear_if b4 (clear_if b3 (clear_if b2 (clear_if b1 p m1) m2) m3) m4.
Proof.
  destruct b1, b2, b3, b4; cbn [set_if clear_if]; try reflexivity;
    apply Z.bits_inj'; intros i Hi;
    rewrite ?Z.land_spec, ?Z.lor_spec, ?testbit_not32_nonneg by assumption;
    destruct (Z.testbit p i), (Z.testbit m1 i), (Z.testbit m2 i),
      (Z.testbit m3 i), (Z.testbit m4 i), (i <? 32); reflexivity.
Qed.

Lemma clear_after_set2 b1 b2 p m1 m2 :
  clear_if b2 (clear_if b1 (set_if b2 (set_if b1 p m1) m2) m1) m2 =
  clear_if b2 (clear_if b1 p m1) m2.
Proof.
  exact (clear_after_set4 b1 b2 false false p m1 m2 0 0).
Qed.

(** X16.  Enabling and then disabling the same mask leaves the five
    registers exactly as disabling alone does: the pair is not an undo, a
    selected source that was enabled before ends up disabled. *)
Theorem USPI_DisableInt_after_EnableInt mask u :
  USPI_DisableInt H mask (USPI_EnableInt H mask u) = USPI_DisableInt H mask u.
Proof.
  destruct (USPI_DisableInt_registers H mask (USPI_EnableInt H mask u))
    as (Hp & Hb & Hi & Hs1 & Hs2).
  destruct (USPI_DisableInt_registers H mask u) as (Hp' & Hb' & Hi' & Hs1' & Hs2').
  destruct (USPI_EnableInt_registers H mask u) as (Ep & Eb & Ei & Es1 & Es2).
  rewrite Ep in Hp. rewrite Eb in Hb. rewrite Ei in Hi.
  rewrite clear_after_set4, <- Hp' in Hp.
  rewrite clear_after_set2, <- Hb' in Hb.
  rewrite clear_after_set4, <- Hi' in Hi.
  rewrite Es1, <- Hs1' in Hs1. rewrite Es2, <- Hs2' in Hs2.
  destruct (USPI_DisableInt H mask (USPI_EnableInt H mask u)),
    (USPI_DisableInt H mask u).
  cbn in *. congruence.
Qed.

Lemma subset_set_if c r X mask :
  Z.land r mask = r -> (c = true -> selects mask X = true) ->
  Z.land (set_if c r X) mask = set_if c r X.
Proof.
  intros Hr Hc. destruct c; cbn; [|exact Hr].
  specialize (Hc eq_refl). apply Z.eqb_eq in Hc.
  rewrite Z.land_lor_distr_l, Hr, (Z.land_comm X mask), Hc. reflexivity.
Qed.

Lemma selected_and_left (a b : bool) : a && b = true -> a = true.
Proof. destruct a; [reflexivity | discriminate]. Qed.

(** [USPI_GetIntFlag] as one conditional set per source. *)
Lemma USPI_GetIntFlag_chain mask u :
  USPI_GetIntFlag H mask u =
    set_if (selects mask (INT_MASK H RXEND) && raised H RXEND u)
   (set_if (selects mask (INT_MASK H RXST) && raised H RXST u)
   (set_if (selects mask (INT_MASK H TXEND) && raised H TXEND u)
   (set_if (selects mask (INT_MASK H TXST) && raised H TXST u)
   (set_if (selects mask (INT_MASK H RXOV) && raised H RXOV u)
   (set_if (selects mask (INT_MASK H TXUDR) && raised H TXUDR u)
   (set_if (selects mask (INT_MASK H SLVBE) && raised H SLVBE u)
   (set_if (selects mask (INT_MASK H SLVTO) && raised H SLVTO u)
   (set_if (selects mask (INT_MASK H SSACT) && raised H SSACT u)
   (set_if (selects mask (INT_MASK H SSINACT) && raised H SSINACT u)
      0 (INT_MASK H SSINACT)) (INT_MASK H SSACT)) (INT_MASK H SLVTO))
      (INT_MASK H SLVBE)) (INT_MASK H TXUDR)) (INT_MASK H RXOV))
      (INT_MASK H TXST)) (INT_MASK H TXEND)) (INT_MASK H RXST)) (INT_MASK H RXEND).
Proof. reflexivity. Qed.

(** X17.  [USPI_GetIntFlag] never reports a source the mask does not
    select: its result lies inside the mask.  It reports every selected
    source whose flag is up, and returns 0 when no selected source has its
    flag up. *)
Theorem USPI_GetIntFlag_reports mask u :
  Z.land (USPI_GetIntFlag H mask u) mask = USPI_GetIntFlag H mask u /\
  (forall s, selects mask (INT_MASK H s) = true -> raised H s u = true ->
     Z.land (USPI_GetIntFlag H mask u) (INT_MASK H s) = INT_MASK H s) /\
  ((forall s, selects mask (INT_MASK H s) && raised H s u = false) ->
   USPI_GetIntFlag H mask u = 0).
Proof.
  rewrite USPI_GetIntFlag_chain.
  split; [|split].
  - repeat (apply subset_set_if; [|apply selected_and_left]).
    apply Z.land_0_l.
  - intros s Hsel Hup.
    destruct s; rewrite Hsel, Hup; cbn [andb];
      repeat first [apply set_if_here | apply set_if_keeps].
  - intros Hnone.
    rewrite (Hnone SSINACT), (Hnone SSACT), (Hnone SLVTO), (Hnone SLVBE),
      (Hnone TXUDR), (Hnone RXOV), (Hnone TXST), (Hnone TXEND),
      (Hnone RXST), (Hnone RXEND).
    reflexivity.
Qed.

Lemma USPI_GetStatus_chain mask u :
  USPI_GetStatus H mask u =
    set_if (selects mask (STATUS_MASK H SSLINE_STS) && status_up H SSLINE_STS u)
   (set_if (selects mask (STATUS_MASK H TX_FULL) && status_up H TX_FULL u)
   (set_if (selects mask (STATUS_MASK H TX_EMPTY) && status_up H TX_EMPTY u)
   (set_if (selects mask (STATUS_MASK H RX_FULL) && status_up H RX_FULL u)
   (set_if (selects mask (STATUS_MASK H RX_EMPTY) && status_up H RX_EMPTY u)
   (set_if (selects mask (STATUS_MASK H BUSY) && status_up H BUSY u)
      0 (STATUS_MASK H BUSY)) (STATUS_MASK H RX_EMPTY)) (STATUS_MASK H RX_FULL))
      (STATUS_MASK H TX_EMPTY)) (STATUS_MASK H TX_FULL)) (STATUS_MASK H SSLINE_STS).
Proof. reflexivity. Qed.

(** X18.  [USPI_GetStatus] never reports a status the mask does not select:
    its result lies inside the mask.  It reports every selected status
    whose register bits are all set, and returns 0 when no selected status
    is up. *)
Theorem USPI_GetStatus_reports mask u :
  Z.land (USPI_GetStatus H mask u) mask = USPI_GetStatus H mask u /\
  (forall s, selects mask (STATUS_MASK H s) = true -> status_up H s u = true ->
     Z.land (USPI_GetStatus H mask u) (STATUS_MASK H s) = STATUS_MASK H s) /\
  ((forall s, selects mask (STATUS_MASK H s) && status_up H s u = false) ->
   USPI_GetStatus H mask u = 0).
Proof.
  rewrite USPI_GetStatus_chain.
  split; [|split].
  - repeat (apply subset_set_if; [|apply selected_and_left]).
    apply Z.land_0_l.
  - intros s Hsel Hup.
    destruct s; rewrite Hsel, Hup; cbn [andb];
      repeat first [apply set_if_here | apply set_if_keeps].
  - intros Hnone.
    rewrite (Hnone BUSY), (Hnone RX_EMPTY), (Hnone RX_FULL), (Hnone TX_EMPTY),
      (Hnone TX_FULL), (Hnone SSLINE_STS).
    reflexivity.
Qed.

End USPI_More_Flags.

(** ** The OTG and HSOTG macros *)

Section Field_Bits.

Lemma field_bit x v w pos mask j :
  0 <= w -> 0 <= pos -> pos + w <= 32 -> mask = Z.shiftl (Z.ones w) pos ->
  0 <= j < w ->
  Z.testbit (Z.lor (Z.land x (not32 mask)) (shl32 v pos)) (pos + j) = Z.testbit v j.
Proof.
  intros Hw Hp Hin -> Hj.
  rewrite Z.lor_spec, Z.land_spec, testbit_not32, testbit_shl32 by lia.
  rewrite testbit_field_mask by lia.
  replace (pos + j - pos) with j by lia.
  destruct (Z.leb_spec 0 j); [|lia]. destruct (Z.ltb_spec j w); [|lia].
  cbn. rewrite andb_false_r. reflexivity.
Qed.

Lemma shl32_exact v w pos :
  0 <= v < 2 ^ w -> 0 <= w -> 0 <= pos -> pos + w <= 32 -> shl32 v pos = v * 2 ^ pos.
Proof.
  intros Hv Hw Hp Hin. unfold shl32, u32.
  rewrite Z.shiftl_mul_pow2 by assumption.
  apply Z.mod_small. split; [apply Z.mul_nonneg_nonneg; lia|].
  apply Z.lt_le_trans with (2 ^ w * 2 ^ pos).
  - apply Z.mul_lt_mono_pos_r; lia.
  - rewrite <- Z.pow_add_r by assumption. apply Z.pow_le_mono_r; lia.
Qed.

Lemma shl32_in_field v w pos mask :
  0 <= v < 2 ^ w -> 0 <= w -> 0 <= pos -> mask = Z.shiftl (Z.ones w) pos ->
  Z.land (shl32 v pos) mask = shl32 v pos.
Proof.
  intros Hv Hw Hp ->. apply Z.bits_inj'. intros i Hi.
  rewrite Z.land_spec, testbit_shl32_nonneg, testbit_field_mask by lia.
  destruct (i <? 32); [|reflexivity]. cbn [andb].
  destruct (Z.leb_spec 0 (i - pos)).
  - destruct (Z.ltb_spec (i - pos) w); cbn; [apply andb_true_r|].
    rewrite (testbit_small v w) by (assumption || lia). reflexivity.
  - rewrite Z.testbit_neg_r by lia. reflexivity.
Qed.

End Field_Bits.

Section HSOTG_Properties.
Import HSOTG.
Variable K : header.

(** X19.  With the three polarity fields one bit wide at three different
    positions of PHYCTL: after setting the three polarities, in the order
    enable, status, over-current, each bit reads back the low bit of the
    value it was given (so each of the defined constants 0 and 1 is read
    back as it is), every other bit of PHYCTL is as before, and no other
    register has changed. *)
Theorem HSOTG_polarities en st oc o :
  0 <= HSOTG_PHYCTL_VBENPOL_Pos K < 32 ->
  0 <= HSOTG_PHYCTL_VBSTSPOL_Pos K < 32 ->
  0 <= HSOTG_PHYCTL_OCPOL_Pos K < 32 ->
  HSOTG_PHYCTL_VBENPOL_Msk K = Z.shiftl (Z.ones 1) (HSOTG_PHYCTL_VBENPOL_Pos K) ->
  HSOTG_PHYCTL_VBSTSPOL_Msk K = Z.shiftl (Z.ones 1) (HSOTG_PHYCTL_VBSTSPOL_Pos K) ->
  HSOTG_PHYCTL_OCPOL_Msk K = Z.shiftl (Z.ones 1) (HSOTG_PHYCTL_OCPOL_Pos K) ->
  HSOTG_PHYCTL_VBENPOL_Pos K <> HSOTG_PHYCTL_VBSTSPOL_Pos K ->
  HSOTG_PHYCTL_VBENPOL_Pos K <> HSOTG_PHYCTL_OCPOL_Pos K ->
  HSOTG_PHYCTL_VBSTSPOL_Pos K <> HSOTG_PHYCTL_OCPOL_Pos K ->
  0 <= en < 2 -> 0 <= st < 2 -> 0 <= oc < 2 ->
  Z.testbit (PHYCTL (HSOTG_SET_VBUS_OC_POL K oc
                       (HSOTG_SET_VBUS_STS_POL K st (HSOTG_SET_VBUS_EN_POL K en o))))
            (HSOTG_PHYCTL_VBENPOL_Pos K) = Z.testbit en 0 /\
  Z.testbit (PHYCTL (HSOTG_SET_VBUS_OC_POL K oc
                       (HSOTG_SET_VBUS_STS_POL K st (HSOTG_SET_VBUS_EN_POL K en o))))
            (HSOTG_PHYCTL_VBSTSPOL_Pos K) = Z.testbit st 0 /\
  Z.testbit (PHYCTL (HSOTG_SET_VBUS_OC_POL K oc
                       (HSOTG_SET_VBUS_STS_POL K st (HSOTG_SET_VBUS_EN_POL K en o))))
            (HSOTG_PHYCTL_OCPOL_Pos K) = Z.testbit oc 0 /\
  (forall i, 0 <= i < 32 ->
     i <> HSOTG_PHYCTL_VBENPOL_Pos K -> i <> HSOTG_PHYCTL_VBSTSPOL_Pos K ->
     i <> HSOTG_PHYCTL_OCPOL_Pos K ->
     Z.testbit (PHYCTL (HSOTG_SET_VBUS_OC_POL K oc
                          (HSOTG_SET_VBUS_STS_POL K st (HSOTG_SET_VBUS_EN_POL K en o)))) i
     = Z.testbit (PHYCTL o) i) /\
  CTL (HSOTG_SET_VBUS_OC_POL K oc
         (HSOTG_SET_VBUS_STS_POL K st (HSOTG_SET_VBUS_EN_POL K en o))) = CTL o /\
  INTEN (HSOTG_SET_VBUS_OC_POL K oc
           (HSOTG_SET_VBUS_STS_POL K st (HSOTG_SET_VBUS_EN_POL K en o))) = INTEN o.
Proof.
  intros Pe Ps Po Me Ms Mo Des Deo Dso He Hs Ho.
  unfold HSOTG_SET_VBUS_OC_POL, HSOTG_SET_VBUS_STS_POL, HSOTG_SET_VBUS_EN_POL.
  cbn [PHYCTL CTL INTEN set_PHYCTL].
  assert (Mbit : forall pos i, 0 <= i ->
            Z.testbit (Z.shiftl (Z.ones 1) pos) i = (i =? pos)).
  { intros pos i Hi. rewrite testbit_field_mask by lia.
    destruct (Z.eqb_spec i pos); destruct (Z.leb_spec 0 (i - pos));
      destruct (Z.ltb_spec (i - pos) 1); reflexivity || lia. }
  assert (W : forall x v pos i, 0 <= pos < 32 -> 0 <= v < 2 -> 0 <= i < 32 ->
            Z.testbit (Z.lor (Z.land x (not32 (Z.shiftl (Z.ones 1) pos))) (shl32 v pos)) i
            = if i =? pos then Z.testbit v 0 else Z.testbit x i).
  { intros x v pos i Hpos Hv Hi.
    destruct (Z.eqb_spec i pos) as [->|Hne].
    - replace pos with (pos + 0) at 3 by lia.
      apply (field_bit x v 1); lia || reflexivity.
    - apply (field_frame x v 1); try lia; try reflexivity.
      rewrite Mbit by lia. apply Z.eqb_neq. exact Hne. }
  rewrite Me, Ms, Mo.
  repeat split.
  - rewrite !W by lia.
    destruct (Z.eqb_spec (HSOTG_PHYCTL_VBENPOL_Pos K) (HSOTG_PHYCTL_OCPOL_Pos K)); [lia|].
    destruct (Z.eqb_spec (HSOTG_PHYCTL_VBENPOL_Pos K) (HSOTG_PHYCTL_VBSTSPOL_Pos K)); [lia|].
    rewrite Z.eqb_refl. reflexivity.
  - rewrite !W by lia.
    destruct (Z.eqb_spec (HSOTG_PHYCTL_VBSTSPOL_Pos K) (HSOTG_PHYCTL_OCPOL_Pos K)); [lia|].
    rewrite Z.eqb_refl. reflexivity.
  - rewrite !W by lia. rewrite Z.eqb_refl. reflexivity.
  - intros i Hi N1 N2 N3. rewrite !W by lia.
    destruct (Z.eqb_spec i (HSOTG_PHYCTL_OCPOL_Pos K)); [lia|].
    destruct (Z.eqb_spec i (HSOTG_PHYCTL_VBSTSPOL_Pos K)); [lia|].
    destruct (Z.eqb_spec i (HSOTG_PHYCTL_VBENPOL_Pos K)); [lia|]. reflexivity.
Qed.

(** X20.  With FSEL a three-bit field inside PHYCTL: the six reference-clock
    selectors the header defines are pairwise different, and for each of
    them [HSOTG_SET_PHY_REF_CLK] makes FSEL read back the selector and
    changes no other bit of PHYCTL. *)
Theorem HSOTG_reference_clock c o :
  0 <= HSOTG_PHYCTL_FSEL_Pos K ->
  HSOTG_PHYCTL_FSEL_Pos K + 3 <= 32 ->
  HSOTG_PHYCTL_FSEL_Msk K = Z.shiftl (Z.ones 3) (HSOTG_PHYCTL_FSEL_Pos K) ->
  In c (ref_clocks K) ->
  NoDup (ref_clocks K) /\
  Z.land (PHYCTL (HSOTG_SET_PHY_REF_CLK K c o)) (HSOTG_PHYCTL_FSEL_Msk K) = c /\
  (forall i, 0 <= i < 32 -> Z.testbit (HSOTG_PHYCTL_FSEL_Msk K) i = false ->
     Z.testbit (PHYCTL (HSOTG_SET_PHY_REF_CLK K c o)) i = Z.testbit (PHYCTL o) i).
Proof.
  intros Hp Hin HM Hc.
  assert (E : forall k, 0 <= k < 2 ^ 3 ->
            shl32 k (HSOTG_PHYCTL_FSEL_Pos K) = k * 2 ^ HSOTG_PHYCTL_FSEL_Pos K)
    by (intros k Hk; apply (shl32_exact k 3); lia).
  assert (P2 : 0 < 2 ^ HSOTG_PHYCTL_FSEL_Pos K) by (apply Z.pow_pos_nonneg; lia).
  assert (S : Z.land c (HSOTG_PHYCTL_FSEL_Msk K) = c).
  { unfold ref_clocks, HSOTG_PHYCTL_FSEL_19_2M, HSOTG_PHYCTL_FSEL_20_0M,
      HSOTG_PHYCTL_FSEL_24_0M, HSOTG_PHYCTL_FSEL_16_0M, HSOTG_PHYCTL_FSEL_26_0M,
      HSOTG_PHYCTL_FSEL_32_0M in Hc.
    cbn [In] in Hc.
    destruct Hc as [<-|[<-|[<-|[<-|[<-|[<-|[]]]]]]];
      apply (shl32_in_field _ 3); (change (2 ^ 3) with 8; lia) || lia || assumption. }
  split; [|split].
  - unfold ref_clocks, HSOTG_PHYCTL_FSEL_19_2M, HSOTG_PHYCTL_FSEL_20_0M,
      HSOTG_PHYCTL_FSEL_24_0M, HSOTG_PHYCTL_FSEL_16_0M, HSOTG_PHYCTL_FSEL_26_0M,
      HSOTG_PHYCTL_FSEL_32_0M.
    rewrite !E by (change (2 ^ 3) with 8; lia).
    set (q := 2 ^ HSOTG_PHYCTL_FSEL_Pos K) in *.
    repeat (constructor; [cbn [In]; intros Hx; decompose [or] Hx; nia|]).
    constructor.
  - unfold HSOTG_SET_PHY_REF_CLK. cbn [PHYCTL set_PHYCTL].
    apply masked_write_read. exact S.
  - intros i Hi Hm. unfold HSOTG_SET_PHY_REF_CLK. cbn [PHYCTL set_PHYCTL].
    apply masked_write_frame; assumption.
Qed.

End HSOTG_Properties.

Section OTG_Properties.
Import OTG.
Variable K : header.

(** X21.  [OTG_ENABLE_INT] leaves every bit of the mask set in INTEN and
    [OTG_DISABLE_INT] leaves every bit of the mask clear; each keeps the
    bits of INTEN outside the mask, so [OTG_DISABLE_INT] after
    [OTG_ENABLE_INT] with the same mask leaves every bit of the mask clear
    and every other bit as it was before the pair.  [OTG_GET_INT_FLAG] and
    [OTG_GET_STATUS] return only bits of the mask, and [OTG_CLR_INT_FLAG]
    stores the mask itself, without reading INTSTS.  None of the three
    writing macros touches CTL or PHYCTL: each writes its one register
    (INTEN, or INTSTS for [OTG_CLR_INT_FLAG]) and leaves the other four as
    they were. *)
Theorem OTG_interrupt_macros mask o :
  Z.land (INTEN (OTG_ENABLE_INT mask o)) mask = mask /\
  Z.land (INTEN (OTG_DISABLE_INT mask (OTG_ENABLE_INT mask o))) mask = 0 /\
  (forall i, 0 <= i < 32 -> Z.testbit mask i = false ->
     Z.testbit (INTEN (OTG_DISABLE_INT mask (OTG_ENABLE_INT mask o))) i =
     Z.testbit (INTEN o) i) /\
  Z.land (OTG_GET_INT_FLAG mask o) mask = OTG_GET_INT_FLAG mask o /\
  Z.land (OTG_GET_STATUS mask o) mask = OTG_GET_STATUS mask o /\
  INTSTS (OTG_CLR_INT_FLAG mask o) = mask /\
  CTL (OTG_DISABLE_INT mask (OTG_ENABLE_INT mask o)) = CTL o /\
  PHYCTL (OTG_DISABLE_INT mask (OTG_ENABLE_INT mask o)) = PHYCTL o /\
  Z.land (INTEN (OTG_DISABLE_INT mask o)) mask = 0 /\
  (forall i, 0 <= i < 32 -> Z.testbit mask i = false ->
     Z.testbit (INTEN (OTG_ENABLE_INT mask o)) i = Z.testbit (INTEN o) i /\
     Z.testbit (INTEN (OTG_DISABLE_INT mask o)) i = Z.testbit (INTEN o) i) /\
  OTG_ENABLE_INT mask o = mkOTG (CTL o) (PHYCTL o) (Z.lor (INTEN o) mask) (INTSTS o) (STATUS o) /\
  OTG_DISABLE_INT mask o =
    mkOTG (CTL o) (PHYCTL o) (Z.land (INTEN o) (not32 mask)) (INTSTS o) (STATUS o) /\
  OTG_CLR_INT_FLAG mask o = mkOTG (CTL o) (PHYCTL o) (INTEN o) mask (STATUS o) /\
  (CTL (OTG_ENABLE_INT mask o) = CTL o /\ PHYCTL (OTG_ENABLE_INT mask o) = PHYCTL o /\
   INTSTS (OTG_ENABLE_INT mask o) = INTSTS o /\ STATUS (OTG_ENABLE_INT mask o) = STATUS o) /\
  (CTL (OTG_DISABLE_INT mask o) = CTL o /\ PHYCTL (OTG_DISABLE_INT mask o) = PHYCTL o /\
   INTSTS (OTG_DISABLE_INT mask o) = INTSTS o /\ STATUS (OTG_DISABLE_INT mask o) = STATUS o) /\
  (CTL (OTG_CLR_INT_FLAG mask o) = CTL o /\ PHYCTL (OTG_CLR_INT_FLAG mask o) = PHYCTL o /\
   INTEN (OTG_CLR_INT_FLAG mask o) = INTEN o /\ STATUS (OTG_CLR_INT_FLAG mask o) = STATUS o).
Proof.
  unfold OTG_ENABLE_INT, OTG_DISABLE_INT, OTG_GET_INT_FLAG, OTG_GET_STATUS,
    OTG_CLR_INT_FLAG.
  cbn [INTEN INTSTS CTL PHYCTL STATUS set_INTEN set_INTSTS].
  split; [apply land_set|]. split; [apply land_cleared|].
  split.
  { intros i Hi Hm.
    rewrite Z.land_spec, Z.lor_spec, testbit_not32, Hm by assumption.
    cbn. rewrite orb_false_r, andb_true_r. reflexivity. }
  split; [rewrite <- Z.land_assoc, Z.land_diag; reflexivity|].
  split; [rewrite <- Z.land_assoc, Z.land_diag; reflexivity|].
  split; [reflexivity|]. split; [reflexivity|]. split; [reflexivity|].
  split; [apply land_cleared|].
  split.
  { intros i Hi Hm. split.
    - rewrite Z.lor_spec, Hm. apply orb_false_r.
    - rewrite Z.land_spec, testbit_not32, Hm by assumption.
      cbn. apply andb_true_r. }
  repeat split; reflexivity.
Qed.

(** X22.  With the two polarity fields one bit wide at two different
    positions of PHYCTL: after [OTG_SET_VBUS_EN_POL] and then
    [OTG_SET_VBUS_STS_POL], each bit reads back the low bit of the value it
    was given and every other bit of PHYCTL is as before.  Enabling or
    disabling the PHY changes no bit of PHYCTL outside OTGPHYEN, and
    enabling or disabling the ID detection changes no bit outside IDDETEN;
    none of the four touches another register. *)
Theorem OTG_polarities en st o :
  0 <= OTG_PHYCTL_VBENPOL_Pos K < 32 ->
  0 <= OTG_PHYCTL_VBSTSPOL_Pos K < 32 ->
  OTG_PHYCTL_VBENPOL_Msk K = Z.shiftl (Z.ones 1) (OTG_PHYCTL_VBENPOL_Pos K) ->
  OTG_PHYCTL_VBSTSPOL_Msk K = Z.shiftl (Z.ones 1) (OTG_PHYCTL_VBSTSPOL_Pos K) ->
  OTG_PHYCTL_VBENPOL_Pos K <> OTG_PHYCTL_VBSTSPOL_Pos K ->
  0 <= en < 2 -> 0 <= st < 2 ->
  Z.testbit (PHYCTL (OTG_SET_VBUS_STS_POL K st (OTG_SET_VBUS_EN_POL K en o)))
            (OTG_PHYCTL_VBENPOL_Pos K) = Z.testbit en 0 /\
  Z.testbit (PHYCTL (OTG_SET_VBUS_STS_POL K st (OTG_SET_VBUS_EN_POL K en o)))
            (OTG_PHYCTL_VBSTSPOL_Pos K) = Z.testbit st 0 /\
  (forall i, 0 <= i < 32 ->
     i <> OTG_PHYCTL_VBENPOL_Pos K -> i <> OTG_PHYCTL_VBSTSPOL_Pos K ->
     Z.testbit (PHYCTL (OTG_SET_VBUS_STS_POL K st (OTG_SET_VBUS_EN_POL K en o))) i
     = Z.testbit (PHYCTL o) i) /\
  (forall i o', 0 <= i < 32 ->
     Z.testbit (OTG_PHYCTL_OTGPHYEN_Msk K) i = false ->
     Z.testbit (PHYCTL (OTG_ENABLE_PHY K o')) i = Z.testbit (PHYCTL o') i /\
     Z.testbit (PHYCTL (OTG_DISABLE_PHY K o')) i = Z.testbit (PHYCTL o') i) /\
  (forall i o', 0 <= i < 32 ->
     Z.testbit (OTG_PHYCTL_IDDETEN_Msk K) i = false ->
     Z.testbit (PHYCTL (OTG_ENABLE_ID_DETECT K o')) i = Z.testbit (PHYCTL o') i /\
     Z.testbit (PHYCTL (OTG_DISABLE_ID_DETECT K o')) i = Z.testbit (PHYCTL o') i) /\
  (forall o',
     OTG_ENABLE_PHY K o' = set_PHYCTL (PHYCTL (OTG_ENABLE_PHY K o')) o' /\
     OTG_DISABLE_PHY K o' = set_PHYCTL (PHYCTL (OTG_DISABLE_PHY K o')) o' /\
     OTG_ENABLE_ID_DETECT K o' = set_PHYCTL (PHYCTL (OTG_ENABLE_ID_DETECT K o')) o' /\
     OTG_DISABLE_ID_DETECT K o' = set_PHYCTL (PHYCTL (OTG_DISABLE_ID_DETECT K o')) o').
Proof.
  intros Pe Ps Me Ms Des He Hs.
  unfold OTG_SET_VBUS_STS_POL, OTG_SET_VBUS_EN_POL, OTG_ENABLE_PHY, OTG_DISABLE_PHY,
    OTG_ENABLE_ID_DETECT, OTG_DISABLE_ID_DETECT.
  cbn [PHYCTL set_PHYCTL].
  assert (Mbit : forall pos i, 0 <= i ->
            Z.testbit (Z.shiftl (Z.ones 1) pos) i = (i =? pos)).
  { intros pos i Hi. rewrite testbit_field_mask by lia.
    destruct (Z.eqb_spec i pos); destruct (Z.leb_spec 0 (i - pos));
      destruct (Z.ltb_spec (i - pos) 1); reflexivity || lia. }
  assert (W : forall x v pos i, 0 <= pos < 32 -> 0 <= v < 2 -> 0 <= i < 32 ->
            Z.testbit (Z.lor (Z.land x (not32 (Z.shiftl (Z.ones 1) pos))) (shl32 v pos)) i
            = if i =? pos then Z.testbit v 0 else Z.testbit x i).
  { intros x v pos i Hpos Hv Hi.
    destruct (Z.eqb_spec i pos) as [->|Hne].
    - replace pos with (pos + 0) at 3 by lia.
      apply (field_bit x v 1); lia || reflexivity.
    - apply (field_frame x v 1); try lia; try reflexivity.
      rewrite Mbit by lia. apply Z.eqb_neq. exact Hne. }
  rewrite Me, Ms.
  split; [|split; [|split; [|split; [|split]]]].
  - rewrite !W by lia.
    destruct (Z.eqb_spec (OTG_PHYCTL_VBENPOL_Pos K) (OTG_PHYCTL_VBSTSPOL_Pos K)); [lia|].
    rewrite Z.eqb_refl. reflexivity.
  - rewrite !W by lia. rewrite Z.eqb_refl. reflexivity.
  - intros i Hi N1 N2. rewrite !W by lia.
    destruct (Z.eqb_spec i (OTG_PHYCTL_VBSTSPOL_Pos K)); [lia|].
    destruct (Z.eqb_spec i (OTG_PHYCTL_VBENPOL_Pos K)); [lia|]. reflexivity.
  - intros i o' Hi Hphy.
    rewrite Z.lor_spec, Z.land_spec, testbit_not32, Hphy by assumption.
    cbn. rewrite orb_false_r, andb_true_r. split; reflexivity.
  - intros i o' Hi Hid.
    rewrite Z.lor_spec, Z.land_spec, testbit_not32, Hid by assumption.
    cbn. rewrite orb_false_r, andb_true_r. split; reflexivity.
  - intros o'. repeat split; reflexivity.
Qed.

End OTG_Properties.

(** ** Concrete runs of the further properties *)

Section More_Runs.
Import Sample Sample_More.

(** X2, in differential mode on a calibrated converter. *)
Lemma EADC_Open_when_calibrated_run :
  EADC.g_EADC_i32ErrCode
    (EADC.EADC_Open eadc_h no_hw 0x100 (machine_with 20 1 7 0x10000)) = 0 /\
  Z.land (EADC.CTL (EADC.eadc
            (EADC.EADC_Open eadc_h no_hw 0x100 (machine_with 20 1 7 0x10000))))
         (EADC.EADC_CTL_DIFFEN_Msk eadc_h) = 0x100.
Proof.
  destruct (EADC_Open_when_calibrated eadc_h no_hw 0x100 (machine_with 20 1 7 0x10000))
    as (He & _ & Hd & _).
  - vm_compute. discriminate.
  - reflexivity.
  - reflexivity.
  - split; [exact He | exact Hd].
Defined.

(** X4, in differential mode on a calibrated converter. *)
Lemma EADC_Close_after_Open_run :
  Z.land (EADC.CTL (EADC.eadc
            (EADC.EADC_Close eadc_h
               (EADC.EADC_Open eadc_h no_hw 0x100 (machine_with 20 1 7 0x10000)))))
         (EADC.EADC_CTL_DIFFEN_Msk eadc_h) = 0x100.
Proof.
  destruct (EADC_Close_after_Open eadc_h no_hw 0x100 (machine_with 20 1 7 0x10000))
    as (_ & Hd & _).
  - vm_compute. discriminate.
  - reflexivity.
  - reflexivity.
  - lia.
  - exact Hd.
Defined.

(** X5, at module 27. *)
Lemma sample_module_in_range_run :
  EADC_Modules.touches_only_module 27 (machine_with 0 0 0 0)
    (EADC.EADC_ConfigSampleModule eadc_h 27 0 1 (machine_with 0 0 0 0)).
Proof.
  refine (proj1 (sample_module_in_range eadc_h 27 (machine_with 0 0 0 0) _ _ _)).
  - lia.
  - left. exists 0, 1. reflexivity.
Defined.

(** X6, at module 3. *)
Lemma ConfigSampleModule_twice_run :
  EADC_Modules.sample_word 3
    (EADC.eadc (EADC.EADC_ConfigSampleModule eadc_h 3 0x10000 5
                  (EADC.EADC_ConfigSampleModule eadc_h 3 0x10000 5 (machine_with 0 0 0 0)))) =
  EADC_Modules.sample_word 3
    (EADC.eadc (EADC.EADC_ConfigSampleModule eadc_h 3 0x10000 5 (machine_with 0 0 0 0))).
Proof.
  refine (proj2 (proj2 (ConfigSampleModule_twice eadc_h 3 0x10000 5 0x10000 5
                          (machine_with 0 0 0 0) _))).
  lia.
Defined.

(** X7, with EXTSMPT at bits 24..31. *)
Lemma SetExtendSampleTime_field_run :
  Z.shiftr (Z.land (EADC_Modules.sample_word 20
                      (EADC.eadc (EADC.EADC_SetExtendSampleTime eadc_h 20 200
                                    (machine_with 0 0 0 0))))
                   (EADC.EADC_SCTL_EXTSMPT_Msk eadc_h))
           (EADC.EADC_SCTL_EXTSMPT_Pos eadc_h) = 200 mod 2 ^ 8.
Proof.
  refine (proj1 (SetExtendSampleTime_field eadc_h 20 200 (machine_with 0 0 0 0) _ _ _ _)).
  - lia.
  - vm_compute. discriminate.
  - vm_compute. discriminate.
  - reflexivity.
Defined.

(** X8, with TRGDLCNT at bits 8..15 and TRGDLDIV at bits 6..7. *)
Lemma SetTriggerDelayTime_fields_run :
  Z.shiftr (Z.land (EADC_Modules.sample_word 2
                      (EADC.eadc (EADC.EADC_SetTriggerDelayTime eadc_h 2 100 0x40
                                    (machine_with 0 0 0 0))))
                   (EADC.EADC_SCTL_TRGDLCNT_Msk eadc_h))
           (EADC.EADC_SCTL_TRGDLCNT_Pos eadc_h) = 100.
Proof.
  refine (proj1 (SetTriggerDelayTime_fields eadc_h 2 100 0x40 (machine_with 0 0 0 0)
                   _ _ _ _ _ _ _)).
  - lia.
  - vm_compute. discriminate.
  - vm_compute. discriminate.
  - reflexivity.
  - reflexivity.
  - reflexivity.
  - change (2 ^ 8) with 256. lia.
Defined.

(** X9, with CLKDIV at bits 16..25. *)
Lemma USPI_GetBusClock_total_run :
  USPI_More.USPI_GetBusClock uspi_h 100000000 false uspi_zero = USPI.Returns 0 uspi_zero.
Proof.
  refine (proj2 (USPI_GetBusClock_total uspi_h 100000000 uspi_zero _ _)).
  - vm_compute. discriminate.
  - reflexivity.
Defined.

(** X10, at a peripheral clock of 100 MHz and a bus clock of 3 MHz. *)
Lemma USPI_GetBusClock_after_SetBusClock_run :
  exists u',
    USPI.USPI_SetBusClock uspi_h 100000000 true 3000000 uspi_zero =
      USPI.Returns (100000000 / (2 * (USPI.documented_divider 100000000 3000000 + 1))) u' /\
    USPI_More.USPI_GetBusClock uspi_h 100000000 true u' =
      USPI.Returns (100000000 / (2 * (USPI.documented_divider 100000000 3000000 + 1))) u'.
Proof.
  destruct (USPI_GetBusClock_after_SetBusClock uspi_h 100000000 3000000 uspi_zero)
    as (u' & Hs & _ & Hg).
  - lia.
  - vm_compute. discriminate.
  - vm_compute. reflexivity.
  - vm_compute. discriminate.
  - vm_compute. discriminate.
  - reflexivity.
  - exists u'. split; [exact Hs|]. apply Hg. vm_compute. reflexivity.
Defined.

(** X11, opening a slave in mode 0x40. *)
Lemma USPI_Open_configures_run :
  Z.land (USPI.PROTCTL (USPI.block
            (USPI.USPI_Open uspi_h 100000000 true 0 1 0x40 8 0 uspi_zero)))
         (USPI.USPI_PROTCTL_PROTEN_Msk uspi_h) = USPI.USPI_PROTCTL_PROTEN_Msk uspi_h.
Proof.
  destruct (USPI_Open_configures uspi_h 100000000 true 0 1 0x40 8 0 uspi_zero)
    as (_ & Hp & _).
  - reflexivity.
  - reflexivity.
  - reflexivity.
  - exact Hp.
Defined.

(** X13, with the active level 0x80. *)
Lemma USPI_AutoSS_round_run :
  Z.land (USPI.LINECTL (USPI_More.USPI_EnableAutoSS uspi_h 0 0x80 uspi_zero))
         (USPI.USPI_LINECTL_CTLOINV_Msk uspi_h) = 0x80.
Proof.
  refine (proj1 (proj2 (USPI_AutoSS_round uspi_h more_h 0 0 0x80 uspi_zero _))).
  reflexivity.
Defined.

(** X19, with the three polarities at bits 4, 5 and 6. *)
Lemma HSOTG_polarities_run :
  Z.testbit
    (HSOTG.PHYCTL
       (HSOTG.HSOTG_SET_VBUS_OC_POL hsotg_h HSOTG.HSOTG_VBUS_OC_VALID_HIGH
          (HSOTG.HSOTG_SET_VBUS_STS_POL hsotg_h HSOTG.HSOTG_VBUS_ST_VALID_LOW
             (HSOTG.HSOTG_SET_VBUS_EN_POL hsotg_h HSOTG.HSOTG_VBUS_EN_ACTIVE_LOW
                (HSOTG.mkHSOTG 0 0xFFFFFFFF 0 0 0)))))
    (HSOTG.HSOTG_PHYCTL_VBENPOL_Pos hsotg_h) = Z.testbit HSOTG.HSOTG_VBUS_EN_ACTIVE_LOW 0.
Proof.
  refine (proj1 (HSOTG_polarities hsotg_h HSOTG.HSOTG_VBUS_EN_ACTIVE_LOW
                   HSOTG.HSOTG_VBUS_ST_VALID_LOW HSOTG.HSOTG_VBUS_OC_VALID_HIGH
                   (HSOTG.mkHSOTG 0 0xFFFFFFFF 0 0 0) _ _ _ _ _ _ _ _ _ _ _ _)).
  all: try reflexivity.
  all: cbv [HSOTG.HSOTG_VBUS_EN_ACTIVE_LOW HSOTG.HSOTG_VBUS_ST_VALID_LOW
            HSOTG.HSOTG_VBUS_OC_VALID_HIGH OTG.OTG_VBUS_EN_ACTIVE_HIGH
            OTG.OTG_VBUS_ST_VALID_LOW]; cbn; lia.
Defined.

(** X20, selecting the 26 MHz reference clock with FSEL at bits 8..10. *)
Lemma HSOTG_reference_clock_run :
  Z.land (HSOTG.PHYCTL (HSOTG.HSOTG_SET_PHY_REF_CLK hsotg_h
                          (HSOTG.HSOTG_PHYCTL_FSEL_26_0M hsotg_h)
                          (HSOTG.mkHSOTG 0 0xFFFFFFFF 0 0 0)))
         (HSOTG.HSOTG_PHYCTL_FSEL_Msk hsotg_h) = HSOTG.HSOTG_PHYCTL_FSEL_26_0M hsotg_h.
Proof.
  refine (proj1 (proj2 (HSOTG_reference_clock hsotg_h (HSOTG.HSOTG_PHYCTL_FSEL_26_0M hsotg_h)
                          (HSOTG.mkHSOTG 0 0xFFFFFFFF 0 0 0) _ _ _ _))).
  - vm_compute. discriminate.
  - vm_compute. discriminate.
  - reflexivity.
  - cbn. auto 10.
Defined.

(** X22, with the two polarities at bits 4 and 5. *)
Lemma OTG_polarities_run :
  Z.testbit
    (OTG.PHYCTL (OTG.OTG_SET_VBUS_STS_POL otg_h OTG.OTG_VBUS_ST_VALID_LOW
                   (OTG.OTG_SET_VBUS_EN_POL otg_h OTG.OTG_VBUS_EN_ACTIVE_HIGH
                      (OTG.mkOTG 0 0xFFFFFFFF 0 0 0))))
    (OTG.OTG_PHYCTL_VBENPOL_Pos otg_h) = Z.testbit OTG.OTG_VBUS_EN_ACTIVE_HIGH 0.
Proof.
  refine (proj1 (OTG_polarities otg_h OTG.OTG_VBUS_EN_ACTIVE_HIGH OTG.OTG_VBUS_ST_VALID_LOW
                   (OTG.mkOTG 0 0xFFFFFFFF 0 0 0) _ _ _ _ _ _ _)).
  all: try reflexivity.
  all: cbv [HSOTG.HSOTG_VBUS_EN_ACTIVE_LOW HSOTG.HSOTG_VBUS_ST_VALID_LOW
            HSOTG.HSOTG_VBUS_OC_VALID_HIGH OTG.OTG_VBUS_EN_ACTIVE_HIGH
            OTG.OTG_VBUS_ST_VALID_LOW]; cbn; lia.
Defined.

End More_Runs.
